(** * NVA: annotation registries, validation rules, schema generator and
      confirmation quorum

    A shallow embedding of the Python sources
      - [annotations.py]             (ui_field, the two registries, ValidationRuleImpl),
      - [enhanced_form_generator.py] (EnhancedFormGenerator),
      - [streamlit_app.py]           (the confirmation block of step 3),
    followed by the properties of the specification that concern them.

    Conventions.  Python [int] is [Z]; [str] is [string] (a byte string, so the
    case functions below act on ASCII letters only); a [dict] whose iteration
    order is observed is an insertion-ordered association list ([pydict]); a
    [dict] that is only looked up and updated is a [gmap].  What the interpreter
    and the operating system provide (the ISO date parser, the float parser, the
    current day, the iteration order of sets) is gathered in the record [PyEnv]. *)

From Stdlib Require Import ZArith QArith String Ascii List Bool Lia Sorted Permutation.
From Stdlib Require Floats Uint63 DecimalString.
From stdpp Require Import gmap strings list fin_maps.

Local Open Scope string_scope.
Local Open Scope Z_scope.

(* ===================================================================== *)
(** * Part I: definitions                                                  *)
(* ===================================================================== *)

(** ** Python values *)

Module Py.

(** [datetime.date]: ordered as the tuple (year, month, day). *)
Record date := mkdate { year : Z; month : Z; day : Z }.

Definition date_ltb (a b : date) : bool :=
  (year a <? year b)
  || ((year a =? year b)
      && ((month a <? month b) || ((month a =? month b) && (day a <? day b)))).

Definition date_eqb (a b : date) : bool :=
  (year a =? year b) && (month a =? month b) && (day a =? day b).

Definition date_leb (a b : date) : bool := date_ltb a b || date_eqb a b.

(** A Python [float], up to what the comparisons below observe. *)
Inductive pyfloat :=
| FNan
| FInf (negative : bool)
| FFin (q : Q).

(** The values a form field or a context entry can hold. *)
Inductive pyval :=
| VNone
| VBool (b : bool)
| VInt (z : Z)
| VFloat (f : pyfloat)
| VStr (s : string)
| VDate (d : date).

Definition q_is_zero (q : Q) : bool := Qeq_bool q 0%Q.
Definition q_ltb (a b : Q) : bool := negb (Qle_bool b a).

(** [bool(v)], as used by [not value]. *)
Definition truthy (v : pyval) : bool :=
  match v with
  | VNone => false
  | VBool b => b
  | VInt z => negb (z =? 0)
  | VFloat FNan => true
  | VFloat (FInf _) => true
  | VFloat (FFin q) => negb (q_is_zero q)
  | VStr s => negb (String.eqb s "")
  | VDate _ => true
  end.

(** Numbers as extended rationals, for mixed int/float comparison. *)
Definition as_number (v : pyval) : option pyfloat :=
  match v with
  | VBool b => Some (FFin (inject_Z (if b then 1 else 0)))
  | VInt z => Some (FFin (inject_Z z))
  | VFloat f => Some f
  | _ => None
  end.

Definition float_ltb (a b : pyfloat) : bool :=
  match a, b with
  | FNan, _ | _, FNan => false
  | FInf na, FInf nb => na && negb nb
  | FInf na, FFin _ => na
  | FFin _, FInf nb => negb nb
  | FFin x, FFin y => q_ltb x y
  end.

Definition float_eqb (a b : pyfloat) : bool :=
  match a, b with
  | FNan, _ | _, FNan => false
  | FInf na, FInf nb => Bool.eqb na nb
  | FFin x, FFin y => Qeq_bool x y
  | _, _ => false
  end.

(** [a < b]; [None] is the [TypeError] of an unsupported pair. *)
Definition py_lt (a b : pyval) : option bool :=
  match a, b with
  | VDate x, VDate y => Some (date_ltb x y)
  | _, _ =>
      match as_number a, as_number b with
      | Some x, Some y => Some (float_ltb x y)
      | _, _ => None
      end
  end.

(** [a >= b]; [None] is the [TypeError] of an unsupported pair. *)
Definition py_ge (a b : pyval) : option bool :=
  match a, b with
  | VDate x, VDate y => Some (date_leb y x)
  | _, _ =>
      match as_number a, as_number b with
      | Some x, Some y => Some (float_ltb y x || float_eqb x y)
      | _, _ => None
      end
  end.

(** Largest magnitude an [int] may have for [float(int)] not to raise
    [OverflowError]: conversions round to nearest, and from
    2^1024 - 2^970 on the result would be 2^1024. *)
Definition float_int_limit : Z := 2 ^ 1024 - 2 ^ 970.

(** What the interpreter and the clock supply. *)
Record PyEnv := mkPyEnv {
  date_fromisoformat : string -> option date;   (* None: ValueError *)
  float_of_str : string -> option pyfloat;      (* None: ValueError *)
  date_today : date;
  (* the order in which a set of strings is iterated, as a function of the
     sequence in which they were added: it depends on the hash seed of the
     process and is fixed while the process lives *)
  set_iter : list string -> list string
}.

(** [float(v)]; [None] is [TypeError], [ValueError] or [OverflowError]. *)
Definition py_float (E : PyEnv) (v : pyval) : option pyfloat :=
  match v with
  | VNone => None
  | VBool b => Some (FFin (inject_Z (if b then 1 else 0)))
  | VInt z => if Z.abs z <? float_int_limit then Some (FFin (inject_Z z)) else None
  | VFloat f => Some f
  | VStr s => float_of_str E s
  | VDate _ => None
  end.

(** [date.fromisoformat(v) if isinstance(v, str) else v]; [None] is the
    [ValueError] of the parser. *)
Definition coerce_date (E : PyEnv) (v : pyval) : option pyval :=
  match v with
  | VStr s => option_map VDate (date_fromisoformat E s)
  | _ => Some v
  end.

(** The value as a date: a date object, or a string the parser accepts. *)
Definition value_date (E : PyEnv) (v : pyval) : option date :=
  match v with
  | VStr s => date_fromisoformat E s
  | VDate d => Some d
  | _ => None
  end.

End Py.
Export Py.

(** ** [annotations.py]: the validation rules *)

Module ValidationRuleImpl.

Section Validate.
Variable E : PyEnv.

(** ValidationRuleImpl.validate(rule, value, context) *)
Definition validate (rule : string) (value : pyval)
           (context : option (gmap string pyval)) : bool * string :=
  let context : gmap string pyval :=
    match context with
    | Some c => c             (* an empty dict is falsy and replaced by {} *)
    | None => ∅
    end in
  if String.eqb rule "required" then
    let valid :=
      match value with
      | VNone => false
      | VStr s => negb (String.eqb s "")
      | _ => true
      end in
    (valid, if negb valid then "Dieses Feld ist erforderlich" else "")
  else if String.eqb rule "date_in_past" then
    if negb (truthy value) then (true, "")
    else
      match coerce_date E value with
      | Some d =>
          match py_lt d (VDate (date_today E)) with
          | Some valid =>
              (valid, if negb valid then "Datum muss in der Vergangenheit liegen" else "")
          | None => (false, "Ungültiges Datum")
          end
      | None => (false, "Ungültiges Datum")
      end
  else if String.eqb rule "date_after_eintrittsdatum" then
    match negb (truthy value), context !! "eintrittsdatum" with
    | true, _ | _, None => (true, "")
    | false, Some ref =>
        match coerce_date E value with
        | Some d =>
            match coerce_date E ref with
            | Some eintritt =>
                match py_ge d eintritt with
                | Some valid =>
                    (valid,
                     if negb valid
                     then "Austrittsdatum muss nach Eintrittsdatum liegen" else "")
                | None => (false, "Ungültiges Datum")
                end
            | None => (false, "Ungültiges Datum")
            end
        | None => (false, "Ungültiges Datum")
        end
    end
  else if String.eqb rule "positive" then
    match py_float E value with
    | Some f =>
        let valid := float_ltb (FFin 0%Q) f in
        (valid, if negb valid then "Wert muss positiv sein" else "")
    | None => (false, "Ungültige Zahl")
    end
  else
    (* Default: Regel nicht bekannt *)
    (true, "").
End Validate.

End ValidationRuleImpl.

(** ** Text helpers of the standard library *)

Module PyStr.

Definition is_lower (c : ascii) : bool :=
  let n := nat_of_ascii c in (97 <=? n)%nat && (n <=? 122)%nat.
Definition is_upper (c : ascii) : bool :=
  let n := nat_of_ascii c in (65 <=? n)%nat && (n <=? 90)%nat.
Definition to_upper (c : ascii) : ascii :=
  if is_lower c then ascii_of_nat (nat_of_ascii c - 32) else c.
Definition to_lower (c : ascii) : ascii :=
  if is_upper c then ascii_of_nat (nat_of_ascii c + 32) else c.

(** [s.replace(old, new)] for one-character [old] and [new]. *)
Fixpoint replace_char (old new : ascii) (s : string) : string :=
  match s with
  | EmptyString => EmptyString
  | String c s' =>
      String (if Ascii.eqb c old then new else c) (replace_char old new s')
  end.

(** [s.isascii()] *)
Definition isascii (s : string) : bool :=
  forallb (fun c => (nat_of_ascii c <? 128)%nat) (list_ascii_of_string s).

(** [s.title()] for a string of ASCII characters ([isascii]), where the
    cased characters are the 52 letters: a cased letter is upper-cased when
    the previous character is not cased, lower-cased when it is.  Outside
    ASCII [str.title] follows the Unicode tables, which this function does
    not: it is [str.title] on the strings with [isascii]. *)
Fixpoint title_from (previous_is_cased : bool) (s : string) : string :=
  match s with
  | EmptyString => EmptyString
  | String c s' =>
      if is_lower c then
        String (if previous_is_cased then c else to_upper c) (title_from true s')
      else if is_upper c then
        String (if previous_is_cased then to_lower c else c) (title_from true s')
      else String c (title_from false s')
  end.

Definition title (s : string) : string := title_from false s.

Definition digit (z : Z) : ascii := ascii_of_nat (48 + Z.to_nat (z mod 10)).

(** [f"{z:02d}"], [f"{z:04d}"] and [f"{z:06d}"] on the ranges of the
    components of a date or a time. *)
Definition d2 (z : Z) : string :=
  String (digit (z / 10)) (String (digit z) EmptyString).
Definition d4 (z : Z) : string := d2 (z / 100) ++ d2 z.
Definition d6 (z : Z) : string := d2 (z / 10000) ++ d4 z.

Definition digit_value (c : ascii) : option Z :=
  let n := nat_of_ascii c in
  if (48 <=? n)%nat && (n <=? 57)%nat then Some (Z.of_nat n - 48) else None.

(** The value of a non-empty string of decimal digits. *)
Fixpoint digits_value (acc : Z) (s : string) : option Z :=
  match s with
  | EmptyString => Some acc
  | String c s' =>
      match digit_value c with
      | Some v => digits_value (10 * acc + v) s'
      | None => None
      end
  end.

Definition number_value (s : string) : option Z :=
  match s with
  | EmptyString => None
  | _ => digits_value 0 s
  end.

End PyStr.

(** ** [datetime]: rendering, and the parser of the extended format *)

Module PyDate.

(** [date.isoformat()], for years 1 to 9999. *)
Definition isoformat (d : date) : string :=
  PyStr.d4 (year d) ++ "-" ++ PyStr.d2 (month d) ++ "-" ++ PyStr.d2 (day d).

Record datetime := mkdatetime {
  dt_date : date; hour : Z; minute : Z; second : Z; microsecond : Z
}.

(** [datetime.isoformat()]: the fraction is printed when it is not zero. *)
Definition datetime_isoformat (t : datetime) : string :=
  isoformat (dt_date t) ++ "T" ++ PyStr.d2 (hour t) ++ ":" ++ PyStr.d2 (minute t)
    ++ ":" ++ PyStr.d2 (second t)
    ++ (if microsecond t =? 0 then "" else "." ++ PyStr.d6 (microsecond t)).

Definition is_leap (y : Z) : bool :=
  (y mod 4 =? 0) && (negb (y mod 100 =? 0) || (y mod 400 =? 0)).

Definition days_in_month (y m : Z) : Z :=
  if m =? 2 then (if is_leap y then 29 else 28)
  else if (m =? 4) || (m =? 6) || (m =? 9) || (m =? 11) then 30
  else 31.

(** The constructor [date(y, m, d)] raises [ValueError] out of range. *)
Definition make_date (y m d : Z) : option date :=
  if (1 <=? y) && (y <=? 9999) && (1 <=? m) && (m <=? 12)
     && (1 <=? d) && (d <=? days_in_month y m)
  then Some (mkdate y m d) else None.

(** [date.fromisoformat] on the form YYYY-MM-DD, the one every version of
    the interpreter accepts. *)
Definition fromisoformat (s : string) : option date :=
  if (String.length s =? 10)%nat
     && String.eqb (substring 4 1 s) "-" && String.eqb (substring 7 1 s) "-"
  then
    match PyStr.number_value (substring 0 4 s),
          PyStr.number_value (substring 5 2 s),
          PyStr.number_value (substring 8 2 s) with
    | Some y, Some m, Some d => make_date y m d
    | _, _, _ => None
    end
  else None.

(** [float] on an optionally signed string of decimal digits. *)
Definition float_of_digits (s : string) : option pyfloat :=
  match s with
  | String "-" s' => option_map (fun z => FFin (inject_Z (- z))) (PyStr.number_value s')
  | String "+" s' => option_map (fun z => FFin (inject_Z z)) (PyStr.number_value s')
  | _ => option_map (fun z => FFin (inject_Z z)) (PyStr.number_value s)
  end.

(** Each string once, in the order of first addition. *)
Fixpoint first_occurrences (l : list string) : list string :=
  match l with
  | [] => []
  | x :: l' => x :: List.filter (fun y => negb (String.eqb x y)) (first_occurrences l')
  end.

(** An interpreter whose clock shows the given day. *)
Definition env_on (today : date) : PyEnv :=
  mkPyEnv fromisoformat float_of_digits today first_occurrences.

(** The interpreter of the examples: its clock shows 2026-01-01. *)
Definition env_2026 : PyEnv := env_on (mkdate 2026 1 1).

End PyDate.

(** ** Dictionaries in insertion order, and the stable sort *)

Module PyDict.

Definition pydict (V : Type) : Type := list (string * V).

(** [d.get(k)] *)
Fixpoint dict_get {V} (k : string) (d : pydict V) : option V :=
  match d with
  | [] => None
  | (k', v) :: d' => if String.eqb k' k then Some v else dict_get k d'
  end.

(** [d[k] = v]: a present key keeps its position, a new one goes last. *)
Fixpoint dict_set {V} (k : string) (v : V) (d : pydict V) : pydict V :=
  match d with
  | [] => [(k, v)]
  | (k', v') :: d' =>
      if String.eqb k' k then (k', v) :: d' else (k', v') :: dict_set k v d'
  end.

Definition dict_keys {V} (d : pydict V) : list string := map fst d.

(** The entries stored under the key [k]. *)
Definition entries_of {V} (k : string) (d : pydict V) : list (string * V) :=
  List.filter (fun e => String.eqb (fst e) k) d.
Definition dict_values {V} (d : pydict V) : list V := map snd d.

End PyDict.
Export PyDict.

Module PySort.

Section Sort.
Context {A : Type}.
Variable lt : A -> A -> bool.

(** Put [x] in front of the first element that is not below it. *)
Fixpoint insert_sorted (x : A) (l : list A) : list A :=
  match l with
  | [] => [x]
  | y :: l' => if lt y x then y :: insert_sorted x l' else x :: y :: l'
  end.

(** [list.sort]: the stable sort, which compares with [<] only. *)
Fixpoint stable_sort (l : list A) : list A :=
  match l with
  | [] => []
  | x :: l' => insert_sorted x (stable_sort l')
  end.
End Sort.

(** Sorting on an integer key, [l.sort(key=...)]. *)
Section ByKey.
Context {A : Type}.
Variable key : A -> Z.
Definition key_lt (x y : A) : bool := key x <? key y.
Definition key_le (x y : A) : Prop := key x <= key y.
Definition has_key (o : Z) (x : A) : bool := key x =? o.
End ByKey.

End PySort.

(** ** [annotations.py]: field metadata and the two registries *)

Module Annotations.

Inductive pynum := NInt (z : Z) | NFloat (f : pyfloat).

(** [Union[str, List[str]]] *)
Inductive str_or_list := OneStr (s : string) | StrList (l : list string).

(** The metadata mapping of a dataclass field: a key is present exactly
    when its component is [Some]. *)
Record ui_metadata := mk_ui_metadata {
  ui_label : option string;
  ui_type : option string;
  ui_required : option bool;
  ui_hint : option string;
  ui_placeholder : option string;
  ui_group : option string;
  ui_order : option Z;
  ui_validation : option str_or_list;
  ui_min : option pynum;
  ui_max : option pynum;
  ui_depends_on : option string;
  ui_show_when : option string;
  ui_options : option (list (string * string));
  ui_width : option string;
  ui_class : option string
}.

(** [{}], the metadata of a field declared without any. *)
Definition no_metadata : ui_metadata :=
  mk_ui_metadata None None None None None None None None None None None None
                 None None None.

(** The arguments of [ui_field]; [None] is Python's [None]. *)
Record ui_field_args := mk_ui_field_args {
  arg_label : option string;
  arg_typ : option string;
  arg_required : option bool;
  arg_hint : option string;
  arg_placeholder : option string;
  arg_group : option string;
  arg_order : option Z;
  arg_validation : option str_or_list;
  arg_min_value : option pynum;
  arg_max_value : option pynum;
  arg_depends_on : option string;
  arg_show_when : option string;
  arg_options : option (list (string * string));
  arg_width : option string;
  arg_css_class : option string
}.

(** The defaults of the signature of [ui_field]. *)
Definition ui_field_defaults : ui_field_args :=
  mk_ui_field_args None None None None None (Some "default") (Some 0) None None
                   None None None None (Some "full") None.

(** ui_field(...): every argument that is not [None] becomes an entry. *)
Definition ui_field (a : ui_field_args) : ui_metadata :=
  {| ui_label := arg_label a;
     ui_type := arg_typ a;
     ui_required := arg_required a;
     ui_hint := arg_hint a;
     ui_placeholder := arg_placeholder a;
     ui_group := arg_group a;
     ui_order := arg_order a;
     ui_validation :=
       match arg_validation a with
       | Some (StrList l) => Some (StrList l)
       | Some (OneStr s) => Some (StrList [s])
       | None => None
       end;
     ui_min := arg_min_value a;
     ui_max := arg_max_value a;
     ui_depends_on := arg_depends_on a;
     ui_show_when := arg_show_when a;
     ui_options := arg_options a;
     ui_width := arg_width a;
     ui_class := arg_css_class a |}.

(** A function or class object: its [__name__] and its identity. *)
Record pyobject := mk_pyobject { obj_name : string; obj_id : positive }.

(** The metadata dictionary of a calculated field. *)
Record calc_metadata := mk_calc_metadata {
  cm_key : string;
  cm_label : string;
  cm_formel : string;
  cm_requires : list string;
  cm_einheit : string;
  cm_editable : bool;
  cm_needs_confirmation : bool;
  cm_confirmation_threshold : Z;
  cm_group : string;
  cm_hint : option string;
  cm_precision : Z;
  cm_function : pyobject;
  cm_function_name : string
}.

(** class CalculatedFieldRegistry: the class attribute [_fields] is the
    state, threaded explicitly. *)
Module CalculatedFieldRegistry.
Definition state := pydict calc_metadata.
Definition initial : state := [].
Definition register (metadata : calc_metadata) (_fields : state) : state :=
  dict_set (cm_key metadata) metadata _fields.
Definition get_all (_fields : state) : pydict calc_metadata := _fields.
Definition get (key : string) (_fields : state) : option calc_metadata :=
  dict_get key _fields.
Definition clear (_fields : state) : state := [].
End CalculatedFieldRegistry.

(** The arguments of the decorator [calculated_field]. *)
Record calculated_field_args := mk_calculated_field_args {
  cf_key : string;
  cf_label : string;
  cf_formel : string;
  cf_requires : list string;
  cf_einheit : string;
  cf_editable : bool;
  cf_needs_confirmation : bool;
  cf_confirmation_threshold : Z;
  cf_group : string;
  cf_hint : option string;
  cf_precision : Z
}.

(** calculated_field(...)(func): builds the metadata and registers it. *)
Definition calculated_field (a : calculated_field_args) (func : pyobject)
           (_fields : CalculatedFieldRegistry.state) : CalculatedFieldRegistry.state :=
  let metadata :=
    {| cm_key := cf_key a;
       cm_label := cf_label a;
       cm_formel := cf_formel a;
       cm_requires := cf_requires a;
       cm_einheit := cf_einheit a;
       cm_editable := cf_editable a;
       cm_needs_confirmation := cf_needs_confirmation a;
       cm_confirmation_threshold := cf_confirmation_threshold a;
       cm_group := cf_group a;
       cm_hint := cf_hint a;
       cm_precision := cf_precision a;
       cm_function := func;
       cm_function_name := obj_name func |} in
  CalculatedFieldRegistry.register metadata _fields.

(** The definition dictionary of a workflow step. *)
Record step_def := mk_step_def {
  sd_order : Z;
  sd_title : string;
  sd_description : option string;
  sd_groups : list string;
  sd_show_if : option pyobject;
  sd_component_type : string;
  sd_class : pyobject;
  sd_class_name : string
}.

(** class WorkflowStepRegistry *)
Module WorkflowStepRegistry.
Definition state := list step_def.
Definition initial : state := [].
(** append, then sort by [x['order']] *)
Definition register (step : step_def) (_steps : state) : state :=
  PySort.stable_sort (PySort.key_lt sd_order) (_steps ++ [step])%list.
Definition get_all (_steps : state) : list step_def := _steps.
Definition clear (_steps : state) : state := [].
(** A sequence of registrations, oldest first, on the empty registry. *)
Definition register_all (steps : list step_def) : state :=
  fold_left (fun _steps step => register step _steps) steps initial.
End WorkflowStepRegistry.

(** The arguments of the decorator [workflow_step]. *)
Record workflow_step_args := mk_workflow_step_args {
  ws_order : Z;
  ws_title : string;
  ws_description : option string;
  ws_groups : option (list string);
  ws_show_if : option pyobject;
  ws_component_type : string
}.

(** workflow_step(...)(cls) *)
Definition workflow_step (a : workflow_step_args) (cls : pyobject)
           (_steps : WorkflowStepRegistry.state) : WorkflowStepRegistry.state :=
  let step :=
    {| sd_order := ws_order a;
       sd_title := ws_title a;
       sd_description := ws_description a;
       sd_groups :=
         match ws_groups a with        (* groups or [] *)
         | Some groups => groups
         | None => []
         end;
       sd_show_if := ws_show_if a;
       sd_component_type := ws_component_type a;
       sd_class := cls;
       sd_class_name := obj_name cls |} in
  WorkflowStepRegistry.register step _steps.

End Annotations.
Export Annotations.

(** ** [enhanced_form_generator.py] *)

Module EnhancedFormGenerator.

(** The objects that stand for the type of an attribute.
    - [TUnion args] is a [typing.Union]: [Optional[X]] is [Union[X, None]],
      that is [TUnion [X; TNoneType]]; its origin is [Union].
    - [TUnionType args] is the object that [X | Y] builds where it is a
      [types.UnionType] (Python 3.10 to 3.13): its origin is
      [types.UnionType], which is not [Union].  From Python 3.14 on [X | Y]
      builds a [typing.Union], that is a [TUnion].
    - [TAnnotation source] is a [str]: an annotation kept as its source
      text, as every annotation is under [from __future__ import
      annotations] and a quoted annotation is anyway.
    - [TOther name] is any other type object. *)
#[warnings="-register-all"]
Inductive pytype :=
| TNoneType
| TStr
| TInt
| TFloat
| TBool
| TDate
| TUnion (args : list pytype)
| TUnionType (args : list pytype)
| TAnnotation (source : string)
| TOther (name : string).

Definition is_none_type (t : pytype) : bool :=
  match t with TNoneType => true | _ => false end.

(** [dataclasses.Field]: name, type and metadata, and with them the entry
    of the attribute in [typing.get_type_hints(cls)].  [f_type] is
    [Field.type], the annotation as the class body left it; [f_hint] is the
    annotation as [get_type_hints] evaluates it in the namespace of the
    module.  The two are the same object when the annotation was evaluated
    in the class body and holds no forward reference; for an annotation kept
    as a string [f_type] is the string and [f_hint] the type it names.  (A
    class with an annotation that does not evaluate has no generator:
    [get_type_hints] raises [NameError] in [__init__].) *)
Record dc_field := mk_dc_field {
  f_name : string;
  f_type : pytype;
  f_hint : pytype;
  f_metadata : ui_metadata
}.

Record dataclass := mk_dataclass {
  dc_name : string;            (* __name__ *)
  dc_doc : option string;      (* __doc__ *)
  dc_fields : list dc_field    (* fields(cls), in declaration order *)
}.

Inductive pyclass :=
| Dataclass (dc : dataclass)
| OtherClass (name : string).

(** The attributes of a generator that the methods below read. *)
Record generator := mk_generator {
  input_dataclass : dataclass;
  config : option (pydict pyval);   (* config.__dict__, when there is one *)
  type_hints : pydict pytype
}.

(** [get_type_hints(cls)]: the evaluated annotations, by attribute name. *)
Definition get_type_hints (dc : dataclass) : pydict pytype :=
  fold_left (fun hints f => dict_set (f_name f) (f_hint f) hints) (dc_fields dc) [].

Definition new (dc : dataclass) (config : option (pydict pyval)) : generator :=
  mk_generator dc config (get_type_hints dc).

(** __init__: [None] is the [ValueError] for a class that is no dataclass. *)
Definition init (input_dataclass : pyclass) (config : option (pydict pyval))
  : option generator :=
  match input_dataclass with
  | Dataclass dc => Some (new dc config)
  | OtherClass _ => None
  end.

(** _infer_ui_type *)
Definition _infer_ui_type (python_type : pytype) : string :=
  let python_type :=
    match python_type with
    | TUnion args =>
        match List.filter (fun arg => negb (is_none_type arg)) args with
        | arg :: _ => arg
        | [] => TStr
        end
    | _ => python_type
    end in
  match python_type with
  | TStr => "text"
  | TInt => "number"
  | TFloat => "number"
  | TBool => "checkbox"
  | TDate => "date"
  | _ => "text"
  end.

(** _infer_label *)
Definition _infer_label (field_name : string) : string :=
  PyStr.title (PyStr.replace_char "_" " " field_name).

(** _is_required *)
Definition _is_required (self : generator) (field_name : string) : bool :=
  match dict_get field_name (type_hints self) with
  | None => true
  | Some (TUnion args) => negb (existsb is_none_type args)
  | Some _ => true
  end.

(** A field definition after the clean-up: a component that is [None]
    stands for a key that was removed. *)
Record field_def := mk_field_def {
  fd_id : string;
  fd_field_type : string;
  fd_label : string;
  fd_type : string;
  fd_required : bool;
  fd_hint : option string;
  fd_placeholder : option string;
  fd_group : string;
  fd_order : Z;
  fd_validation : list string;
  fd_min_value : option pynum;
  fd_max_value : option pynum;
  fd_depends_on : option string;
  fd_show_when : option string;
  fd_options : option (list (string * string));
  fd_width : string;
  fd_css_class : option string
}.

(** [metadata.get(key) or fallback] on strings: the empty string is falsy. *)
Definition get_or (value : option string) (fallback : string) : string :=
  match value with
  | Some s => if String.eqb s "" then fallback else s
  | None => fallback
  end.

(** The body of the loop of extract_input_fields. *)
Definition field_def_of (self : generator) (field_obj : dc_field) : field_def :=
  let field_name := f_name field_obj in
  let metadata := f_metadata field_obj in
  {| fd_id := field_name;
     fd_field_type := "input";
     fd_label := get_or (ui_label metadata) (_infer_label field_name);
     fd_type := get_or (ui_type metadata) (_infer_ui_type (f_type field_obj));
     fd_required := default (_is_required self field_name) (ui_required metadata);
     fd_hint := ui_hint metadata;
     fd_placeholder := ui_placeholder metadata;
     fd_group := default "default" (ui_group metadata);
     fd_order := default 0 (ui_order metadata);
     fd_validation :=
       match ui_validation metadata with
       | Some (StrList l) => l
       | Some (OneStr s) => [s]
       | None => []
       end;
     fd_min_value := ui_min metadata;
     fd_max_value := ui_max metadata;
     fd_depends_on := ui_depends_on metadata;
     fd_show_when := ui_show_when metadata;
     fd_options := ui_options metadata;
     fd_width := default "full" (ui_width metadata);
     fd_css_class := ui_class metadata |}.

(** The sort key [(f['group'], f.get('order', 0))], compared as a tuple. *)
Definition by_group_order (x y : field_def) : bool :=
  String.ltb (fd_group x) (fd_group y)
  || (String.eqb (fd_group x) (fd_group y) && (fd_order x <? fd_order y)).

(** extract_input_fields *)
Definition extract_input_fields (self : generator) : list field_def :=
  PySort.stable_sort by_group_order
    (map (field_def_of self) (dc_fields (input_dataclass self))).

(** *** The methods that read the registries and the clock *)

Record world := mk_world {
  w_fields : CalculatedFieldRegistry.state;
  w_steps : WorkflowStepRegistry.state;
  w_clock : PyDate.datetime
}.

Definition M (A : Type) : Type := world -> A * world.
Definition ret {A} (a : A) : M A := fun w => (a, w).
Definition bind {A B} (m : M A) (k : A -> M B) : M B :=
  fun w => let (a, w') := m w in k a w'.
Notation "x <- m ;; k" := (bind m (fun x => k))
  (at level 200, m at level 99, k at level 200, only parsing).

Definition calculated_get_all : M (pydict calc_metadata) :=
  fun w => (CalculatedFieldRegistry.get_all (w_fields w), w).
Definition workflow_get_all : M (list step_def) :=
  fun w => (WorkflowStepRegistry.get_all (w_steps w), w).
Definition datetime_now : M PyDate.datetime := fun w => (w_clock w, w).

Record calc_field_def := mk_calc_field_def {
  cd_id : string;
  cd_field_type : string;
  cd_label : string;
  cd_formel : string;
  cd_requires : list string;
  cd_einheit : string;
  cd_editable : bool;
  cd_needs_confirmation : bool;
  cd_confirmation_threshold : Z;
  cd_group : string;
  cd_hint : option string;
  cd_precision : Z;
  cd_function_name : string
}.

Definition calc_field_def_of (entry : string * calc_metadata) : calc_field_def :=
  let (key, meta) := entry in
  {| cd_id := key;
     cd_field_type := "calculated";
     cd_label := cm_label meta;
     cd_formel := cm_formel meta;
     cd_requires := cm_requires meta;
     cd_einheit := cm_einheit meta;
     cd_editable := cm_editable meta;
     cd_needs_confirmation := cm_needs_confirmation meta;
     cd_confirmation_threshold := cm_confirmation_threshold meta;
     cd_group := cm_group meta;
     cd_hint := cm_hint meta;
     cd_precision := cm_precision meta;
     cd_function_name := cm_function_name meta |}.

(** extract_calculated_fields *)
Definition extract_calculated_fields : M (list calc_field_def) :=
  items <- calculated_get_all ;;
  ret (map calc_field_def_of items).

Record step_out := mk_step_out {
  so_order : Z;
  so_title : string;
  so_description : option string;
  so_groups : list string;
  so_component_type : string;
  so_show_if : option string
}.

Definition step_out_of (step : step_def) : step_out :=
  {| so_order := sd_order step;
     so_title := sd_title step;
     so_description := sd_description step;
     so_groups := sd_groups step;
     so_component_type := sd_component_type step;
     so_show_if := option_map obj_name (sd_show_if step) |}.

(** extract_workflow: the value under the key 'steps'. *)
Definition extract_workflow : M (list step_out) :=
  steps <- workflow_get_all ;;
  ret (map step_out_of steps).

Record validation_rules := mk_validation_rules {
  vr_rules : list string;
  vr_implementations : pydict string
}.

(** _extract_validation_rules *)
Definition _extract_validation_rules (E : PyEnv) (fields_list : list field_def)
  : validation_rules :=
  let rules := set_iter E (concat (map fd_validation fields_list)) in
  {| vr_rules := rules;
     vr_implementations :=
       fold_left (fun d rule => dict_set rule ("ValidationRule." ++ rule) d) rules [] |}.

Record schema_meta := mk_schema_meta {
  meta_title : string;
  meta_class_name : string;
  meta_generated_at : string
}.

Record schema := mk_schema {
  s_meta : schema_meta;
  s_config : pydict pyval;
  s_input_fields : list field_def;
  s_calculated_fields : list calc_field_def;
  s_all_fields : list (field_def + calc_field_def);
  s_groups : pydict (list field_def);
  s_workflow : list step_out;
  s_validation_rules : validation_rules
}.

(** The grouping loop of generate_complete_schema. *)
Definition group_fields (input_fields : list field_def) : pydict (list field_def) :=
  fold_left
    (fun groups field_def =>
       let group_name := fd_group field_def in
       let groups :=
         match dict_get group_name groups with
         | None => dict_set group_name [] groups
         | Some _ => groups
         end in
       dict_set group_name
                (default [] (dict_get group_name groups) ++ [field_def])%list groups)
    input_fields [].

Definition config_dict_of (config : option (pydict pyval)) : pydict pyval :=
  match config with
  | Some d =>
      fold_left
        (fun acc '(k, v) =>
           dict_set k (match v with VDate d => VStr (PyDate.isoformat d) | _ => v end) acc)
        d []
  | None => []
  end.

(** generate_complete_schema *)
Definition generate_complete_schema (E : PyEnv) (self : generator) : M schema :=
  let input_fields := extract_input_fields self in
  calc_fields <- extract_calculated_fields ;;
  workflow <- extract_workflow ;;
  let groups := group_fields input_fields in
  let all_fields := (map inl input_fields ++ map inr calc_fields)%list in
  let config_dict := config_dict_of (config self) in
  now <- datetime_now ;;
  ret {| s_meta :=
           {| meta_title :=
                match dc_doc (input_dataclass self) with
                | Some doc =>
                    if String.eqb doc "" then dc_name (input_dataclass self) else doc
                | None => dc_name (input_dataclass self)
                end;
              meta_class_name := dc_name (input_dataclass self);
              meta_generated_at := PyDate.datetime_isoformat now |};
         s_config := config_dict;
         s_input_fields := input_fields;
         s_calculated_fields := calc_fields;
         s_all_fields := all_fields;
         s_groups := groups;
         s_workflow := workflow;
         s_validation_rules := _extract_validation_rules E input_fields |}.

End EnhancedFormGenerator.

(** ** [streamlit_app.py]: the confirmation block of step 3 *)

Module StreamlitApp.

(** The two session dictionaries of the confirmation quorum. *)
Record session_state := mk_session_state {
  formel_bestaetigung : gmap string Z;
  ma_bestaetigt : gmap string (gmap string bool)
}.

(** Both dictionaries start empty. *)
Definition initial_session : session_state := mk_session_state ∅ ∅.

(** An entry of SCHEMA['calculated_fields'], as the block reads it. *)
Record calc := mk_calc {
  calc_id : string;
  calc_confirmation_threshold : option Z;
  calc_needs_confirmation : option bool
}.

(** The key of the employee: in step 3 both parameters are dates. *)
Definition ma_id_of (geburtsdatum eintrittsdatum : date) : string :=
  PyDate.isoformat geburtsdatum ++ "_" ++ PyDate.isoformat eintrittsdatum.

Definition threshold_of (c : calc) : Z := default 3 (calc_confirmation_threshold c).

(** [formel_bestaetigung.get(calc['id'], 0)] *)
Definition bestaetigt_of (c : calc) (st : session_state) : Z :=
  default 0 (formel_bestaetigung st !! calc_id c).

(** [ma_bestaetigt.get(ma_id, {}).get(calc['id'], False)] *)
Definition ma_geprueft_of (c : calc) (ma_id : string) (st : session_state) : bool :=
  default false (default ∅ (ma_bestaetigt st !! ma_id) !! calc_id c).

(** What the second column shows. *)
Inductive widget :=
| Geprueft                                   (* st.success *)
| Progress (bestaetigt threshold : Z) (button : bool)   (* st.warning *)
| Nothing.

Definition confirmation_widget (c : calc) (ma_id : string) (st : session_state) : widget :=
  let threshold := threshold_of c in
  let bestaetigt := bestaetigt_of c st in
  if threshold <=? bestaetigt then Geprueft
  else if default true (calc_needs_confirmation c) then
    let ma_geprueft := ma_geprueft_of c ma_id st in
    Progress bestaetigt threshold (negb ma_geprueft && (bestaetigt <? threshold))
  else Nothing.

(** The body of [if st.button(...)]: count the confirmation and mark the
    employee. *)
Definition record_confirmation (c : calc) (ma_id : string) (st : session_state)
  : session_state :=
  {| formel_bestaetigung :=
       <[calc_id c := bestaetigt_of c st + 1]> (formel_bestaetigung st);
     ma_bestaetigt :=
       <[ma_id := <[calc_id c := true]> (default ∅ (ma_bestaetigt st !! ma_id))]>
         (ma_bestaetigt st) |}.

(** The block itself; [clicked] tells whether the operator presses the
    button in case it is shown. *)
Definition confirmation_block (c : calc) (ma_id : string) (clicked : bool)
           (st : session_state) : session_state :=
  let threshold := threshold_of c in
  let bestaetigt := bestaetigt_of c st in
  if threshold <=? bestaetigt then st
  else if default true (calc_needs_confirmation c) then
    let ma_geprueft := ma_geprueft_of c ma_id st in
    if negb ma_geprueft && (bestaetigt <? threshold) then
      if clicked then record_confirmation c ma_id st else st
    else st
  else st.

(** A confirmation attempt of the subject [ma_id] on the field [c]. *)
Definition confirm (c : calc) (ma_id : string) (st : session_state) : session_state :=
  confirmation_block c ma_id true st.

(** A sequence of attempts, oldest first. *)
Definition confirm_all (ops : list (string * calc)) (st : session_state) : session_state :=
  fold_left (fun st op => confirm (snd op) (fst op) st) ops st.

Definition verified (c : calc) (st : session_state) : bool :=
  threshold_of c <=? bestaetigt_of c st.

End StreamlitApp.

(** ** Words of the specification, and sample declarations *)

Module SpecWords.
Import EnhancedFormGenerator.

(** "explicit value always wins, absence falls back to inferred/default" *)
Definition wins_over {A} (explicit : option A) (fallback result : A) : Prop :=
  match explicit with
  | Some v => result = v
  | None => result = fallback
  end.

(** The schema [s] with another time stamp. *)
Definition with_generated_at (t : string) (s : schema) : schema :=
  {| s_meta :=
       {| meta_title := meta_title (s_meta s);
          meta_class_name := meta_class_name (s_meta s);
          meta_generated_at := t |};
     s_config := s_config s;
     s_input_fields := s_input_fields s;
     s_calculated_fields := s_calculated_fields s;
     s_all_fields := s_all_fields s;
     s_groups := s_groups s;
     s_workflow := s_workflow s;
     s_validation_rules := s_validation_rules s |}.

End SpecWords.

Module Samples.
Import EnhancedFormGenerator.

(** Two registrations of the key "x". *)
Definition x_first : calculated_field_args :=
  mk_calculated_field_args "x" "first label" "a + b" ["a"; "b"] "" true true 3
                           "berechnungen" None 2.
Definition x_second : calculated_field_args :=
  mk_calculated_field_args "x" "second label" "a * b" ["a"; "b"] "EUR" false true 3
                           "berechnungen" (Some "product") 0.
Definition berechne_x : pyobject := mk_pyobject "berechne_x" 1.
Definition berechne_x_neu : pyobject := mk_pyobject "berechne_x_neu" 2.

Definition step_of (order : Z) (title : string) : step_def :=
  mk_step_def order title None [] None "form" (mk_pyobject title 3) title.

(** A record type:
<<
    @dataclass
    class Formular:
        name: str = field(metadata=ui_field(label="Name", group="identifikation",
                                            order=2, validation="required"))
        austritts_datum: Optional[date] = None
        geburtsdatum: Optional[date] = field(default=None, metadata=ui_field(label=""))
>> *)
Definition name_field : dc_field :=
  mk_dc_field "name" TStr TStr
    (ui_field
       (mk_ui_field_args (Some "Name") None None None None (Some "identifikation")
                         (Some 2) (Some (OneStr "required")) None None None None None
                         (Some "full") None)).
Definition austritts_datum_field : dc_field :=
  mk_dc_field "austritts_datum" (TUnion [TDate; TNoneType]) (TUnion [TDate; TNoneType])
              no_metadata.
Definition geburtsdatum_field : dc_field :=
  mk_dc_field "geburtsdatum" (TUnion [TDate; TNoneType]) (TUnion [TDate; TNoneType])
    (ui_field
       (mk_ui_field_args (Some "") None None None None (Some "default") (Some 0) None
                         None None None None None (Some "full") None)).

Definition Formular : dataclass :=
  mk_dataclass "Formular" (Some "Ein kleines Formular")
               [name_field; austritts_datum_field; geburtsdatum_field].


Definition noon : PyDate.datetime := PyDate.mkdatetime (mkdate 2026 1 1) 12 0 0 0.
Definition noon_and_a_second : PyDate.datetime :=
  PyDate.mkdatetime (mkdate 2026 1 1) 12 0 1 0.

(** A field of the quorum with the default threshold. *)
Definition dienstzeit : StreamlitApp.calc := StreamlitApp.mk_calc "dienstzeit" (Some 3) (Some true).

End Samples.

(** ** [annotations.py]: the predefined conditions *)

Module Conditions.

(** Conditions.is_neu_regelung(data, stichtag); [None] is a raised
    [ValueError] or [TypeError]. *)
Definition is_neu_regelung (E : PyEnv) (data : gmap string pyval) (stichtag : string)
  : option bool :=
  match data !! "eintrittsdatum" with
  | None => Some false
  | Some eintritt =>
      if negb (truthy eintritt) then Some false
      else
        match coerce_date E eintritt with
        | None => None
        | Some eintritt =>
            match date_fromisoformat E stichtag with
            | None => None
            | Some s => py_ge eintritt (VDate s)
            end
        end
  end.

(** The default of the parameter [stichtag]. *)
Definition default_stichtag : string := "2003-01-01".

(** Conditions.has_austrittsdatum(data) *)
Definition has_austrittsdatum (data : gmap string pyval) : bool :=
  match data !! "austrittsdatum" with
  | None => false
  | Some v => truthy v
  end.

End Conditions.

(** ** [psvag_annotated.py]: the computations on dates *)

Module Versorgung.

(** *** Floating point, as the interpreter has it (IEEE 754 binary64) *)

(** [float(z)] for an [int] below 2^53 in magnitude, where it is exact. *)
Definition float_of_int (z : Z) : PrimFloat.float :=
  if z <? 0 then PrimFloat.opp (PrimFloat.of_uint63 (Uint63.of_Z (- z)))
  else PrimFloat.of_uint63 (Uint63.of_Z z).

(** Integer part, remainder and divisor of the magnitude m * 2^e. *)
Definition float_magnitude (m : positive) (e : Z) : Z * Z * Z :=
  if 0 <=? e then (Z.pos m * 2 ^ e, 0, 1)
  else (Z.pos m / 2 ^ (- e), Z.pos m mod 2 ^ (- e), 2 ^ (- e)).

(** [int(f)]: truncation; [None] for an infinity or a NaN. *)
Definition py_int (f : PrimFloat.float) : option Z :=
  match FloatOps.Prim2SF f with
  | SpecFloat.S754_zero _ => Some 0
  | SpecFloat.S754_finite s m e =>
      let '(q, _, _) := float_magnitude m e in Some (if s then - q else q)
  | _ => None
  end.

(** [round(f)]: to the nearest integer, a tie to the even one. *)
Definition py_round (f : PrimFloat.float) : option Z :=
  match FloatOps.Prim2SF f with
  | SpecFloat.S754_zero _ => Some 0
  | SpecFloat.S754_finite s m e =>
      let '(q, r, d) := float_magnitude m e in
      let n := if 2 * r <? d then q
               else if d <? 2 * r then q + 1
               else if Z.even q then q else q + 1 in
      Some (if s then - n else n)
  | _ => None
  end.

(** [str(z)] *)
Definition str_int (z : Z) : string := DecimalString.NilZero.string_of_int (Z.to_int z).

(** *** [datetime.date]: ordinals *)

(** The days before January 1st of [y]. *)
Definition days_before_year (y : Z) : Z :=
  let y := y - 1 in y * 365 + y / 4 - y / 100 + y / 400.

(** The days of [y] before the first of month [m]. *)
Definition days_before_month (y m : Z) : Z :=
  (if m =? 1 then 0 else if m =? 2 then 31 else if m =? 3 then 59
   else if m =? 4 then 90 else if m =? 5 then 120 else if m =? 6 then 151
   else if m =? 7 then 181 else if m =? 8 then 212 else if m =? 9 then 243
   else if m =? 10 then 273 else if m =? 11 then 304 else 334)
  + (if (2 <? m) && PyDate.is_leap y then 1 else 0).

(** [d.toordinal()] *)
Definition toordinal (d : date) : Z :=
  days_before_year (year d) + days_before_month (year d) (month d) + day d.

(** The tuple comparison [(m1, d1) < (m2, d2)]. *)
Definition month_day_ltb (m1 d1 m2 d2 : Z) : bool :=
  (m1 <? m2) || ((m1 =? m2) && (d1 <? d2)).

(** *** class VersorgungsBerechnung *)

(** gesetzliches_rentenalter *)
Definition gesetzliches_rentenalter (geburtsdatum : date) : PrimFloat.float :=
  let geburtsjahr := year geburtsdatum in
  if geburtsjahr <? 1947 then float_of_int 65
  else if 1964 <=? geburtsjahr then float_of_int 67
  else if geburtsjahr <=? 1958 then
    let monate := geburtsjahr - 1946 in
    PrimFloat.add (float_of_int 65) (PrimFloat.div (float_of_int monate) (float_of_int 12))
  else
    let monate := (geburtsjahr - 1958) * 2 in
    PrimFloat.add (float_of_int 66) (PrimFloat.div (float_of_int monate) (float_of_int 12)).

(** rentenbeginn; [None] is the [ValueError] of the constructor [date]. *)
Definition rentenbeginn (geburtsdatum : date) : option date :=
  let rentenalter := gesetzliches_rentenalter geburtsdatum in
  match py_int rentenalter with
  | None => None
  | Some rentenalter_jahre =>
      match py_round (PrimFloat.mul
                        (PrimFloat.sub rentenalter (float_of_int rentenalter_jahre))
                        (float_of_int 12)) with
      | None => None
      | Some rentenalter_monate =>
          let rentenjahr := year geburtsdatum + rentenalter_jahre in
          let rentenmonat := month geburtsdatum + rentenalter_monate in
          if 12 <? rentenmonat then PyDate.make_date (rentenjahr + 1) (rentenmonat - 12) 1
          else PyDate.make_date rentenjahr rentenmonat 1
      end
  end.

(** betriebszugehoerigkeit_tage *)
Definition betriebszugehoerigkeit_tage (eintritt austritt : date) : Z :=
  toordinal austritt - toordinal eintritt.

(** betriebszugehoerigkeit_jahre *)
Definition betriebszugehoerigkeit_jahre (eintrittsdatum geburtsdatum : date) : option Z :=
  match rentenbeginn geburtsdatum with
  | None => None
  | Some rentenbeginn =>
      let jahre := year rentenbeginn - year eintrittsdatum in
      let jahre :=
        if month_day_ltb (month rentenbeginn) (day rentenbeginn)
                         (month eintrittsdatum) (day eintrittsdatum)
        then jahre - 1 else jahre in
      Some (Z.max 0 jahre)
  end.

(** unverfallbarkeit_pruefung: (erfuellt, grund) *)
Definition unverfallbarkeit_pruefung (geburtsdatum eintritt austritt : date)
  : option (bool * string) :=
  let alter_bei_austritt :=
    (year austritt - year geburtsdatum)
    - (if month_day_ltb (month austritt) (day austritt)
                        (month geburtsdatum) (day geburtsdatum) then 1 else 0) in
  match betriebszugehoerigkeit_jahre eintritt austritt with
  | None => None
  | Some dienstjahre =>
      let austrittsjahr := year austritt in
      Some
        (if 2018 <=? austrittsjahr then
           if (3 <=? dienstjahre) && (21 <=? alter_bei_austritt) then
             (true, "Erfüllt: " ++ str_int dienstjahre ++ " Jahre Dienstzeit, "
                    ++ str_int alter_bei_austritt
                    ++ " Jahre alt (Regelung ab 2018: mind. 3 Jahre + 21 Jahre)")
           else
             (false, "Nicht erfüllt: " ++ str_int dienstjahre ++ " Jahre Dienstzeit, "
                     ++ str_int alter_bei_austritt
                     ++ " Jahre alt (Regelung ab 2018 erfordert: mind. 3 Jahre + 21 Jahre)")
         else if 2009 <=? austrittsjahr then
           if (5 <=? dienstjahre) && (25 <=? alter_bei_austritt) then
             (true, "Erfüllt: " ++ str_int dienstjahre ++ " Jahre Dienstzeit, "
                    ++ str_int alter_bei_austritt ++ " Jahre alt")
           else
             (false, "Nicht erfüllt: " ++ str_int dienstjahre ++ " Jahre Dienstzeit, "
                     ++ str_int alter_bei_austritt
                     ++ " Jahre alt (benötigt: 5 Jahre + 25 Jahre)")
         else
           if 10 <=? dienstjahre then
             (true, "Erfüllt: " ++ str_int dienstjahre ++ " Jahre Dienstzeit")
           else if (5 <=? dienstjahre) && (30 <=? alter_bei_austritt) then
             (true, "Erfüllt: " ++ str_int dienstjahre ++ " Jahre Dienstzeit, "
                    ++ str_int alter_bei_austritt ++ " Jahre alt")
           else
             (false, "Nicht erfüllt (benötigt: 10 Jahre ODER 5 Jahre + 30 Jahre)"))
  end.

(** [m / n] on integers below 2^53 in magnitude; [None] is
    [ZeroDivisionError]. *)
Definition int_truediv (m n : Z) : option PrimFloat.float :=
  if n =? 0 then None else Some (PrimFloat.div (float_of_int m) (float_of_int n)).

(** mn_faktor: (faktor, m_tage, n_tage) *)
Definition mn_faktor (eintrittsdatum austrittsdatum geburtsdatum : date)
  : option (PrimFloat.float * Z * Z) :=
  match rentenbeginn geburtsdatum with
  | None => None
  | Some rentenbeginn =>
      let m := betriebszugehoerigkeit_tage eintrittsdatum austrittsdatum in
      let n := betriebszugehoerigkeit_tage eintrittsdatum rentenbeginn in
      if n =? 0 then Some (float_of_int 0, m, n)
      else
        match int_truediv m n with
        | None => None
        | Some faktor => Some (faktor, m, n)
        end
  end.

End Versorgung.

(** ** Reference values for the computations on dates *)

Module VersorgungWords.

(** The statutory retirement age in months, by year of birth: 65 years up to
    1946, one month more per year up to 1958, two months more per year up to
    1963, 67 years from 1964. *)
Definition rentenalter_monate (geburtsjahr : Z) : Z :=
  if geburtsjahr <? 1947 then 780
  else if 1964 <=? geburtsjahr then 804
  else if geburtsjahr <=? 1958 then 780 + (geburtsjahr - 1946)
  else 792 + 2 * (geburtsjahr - 1958).

(** The date [years] years after [d], as a tuple (it need not exist). *)
Definition years_later (years : Z) (d : date) : date :=
  mkdate (year d + years) (month d) (day d).

(** The outcome of the vesting check as a function of the age at exit. *)
Definition erfuellt_nach_alter (austrittsjahr alter_bei_austritt : Z) : bool :=
  if 2018 <=? austrittsjahr then 21 <=? alter_bei_austritt
  else if 2009 <=? austrittsjahr then 25 <=? alter_bei_austritt
  else true.

(** The age in completed years at [austritt]. *)
Definition alter_bei (geburtsdatum austritt : date) : Z :=
  (year austritt - year geburtsdatum)
  - (if Versorgung.month_day_ltb (month austritt) (day austritt)
                                 (month geburtsdatum) (day geburtsdatum) then 1 else 0).

(** The years of birth between which the retirement age changes. *)
Definition table_year (geburtsjahr : Z) : Z :=
  if geburtsjahr <? 1947 then 1946
  else if 1964 <=? geburtsjahr then 1964
  else geburtsjahr.

(** Does the float age of the year split into the years and months of the
    table? *)
Definition split_check (geburtsjahr : Z) : bool :=
  let rentenalter := Versorgung.gesetzliches_rentenalter (mkdate geburtsjahr 1 1) in
  match Versorgung.py_int rentenalter with
  | Some jahre =>
      match Versorgung.py_round
              (PrimFloat.mul (PrimFloat.sub rentenalter (Versorgung.float_of_int jahre))
                             (Versorgung.float_of_int 12)) with
      | Some monate =>
          (0 <=? monate) && (monate <=? 11)
          && (12 * jahre + monate =? rentenalter_monate geburtsjahr)
      | None => false
      end
  | None => false
  end.

End VersorgungWords.

(** ** Further reference definitions *)

Module MoreWords.

(** The interpreter [E] on a day on which the clock shows [today]. *)
Definition on_day (E : PyEnv) (today : date) : PyEnv :=
  mkPyEnv (date_fromisoformat E) (float_of_str E) today (set_iter E).

(** [ist_alt] of step 3 of the application: the entry is before the key
    date. *)
Definition ist_alt (eintrittsdatum stichtag : date) : bool :=
  date_ltb eintrittsdatum stichtag.

(** A sequence of registrations of calculated fields, oldest first, on the
    empty registry. *)
Definition register_each (ms : list calc_metadata) : CalculatedFieldRegistry.state :=
  fold_left (fun _fields m => CalculatedFieldRegistry.register m _fields) ms
            CalculatedFieldRegistry.initial.

(** The metadata registered last under [key]. *)
Definition last_registered (key : string) (ms : list calc_metadata)
  : option calc_metadata :=
  List.find (fun m => String.eqb (cm_key m) key) (rev ms).

(** The rendering of a configuration value by generate_complete_schema. *)
Definition render_config_value (v : pyval) : pyval :=
  match v with
  | VDate d => VStr (PyDate.isoformat d)
  | _ => v
  end.

(** The value set last under [key] in a list of attribute assignments. *)
Definition last_assigned {V} (key : string) (d : list (string * V)) : option V :=
  dict_get key (rev d).

(** A set iterates over each of its elements once. *)
Definition set_iter_ok (E : PyEnv) : Prop :=
  forall l, List.NoDup (set_iter E l) /\ forall x, In x (set_iter E l) <-> In x l.

(** The fields of one group and one order. *)
Definition has_group_order (g : string) (o : Z) (fd : EnhancedFormGenerator.field_def)
  : bool :=
  String.eqb (EnhancedFormGenerator.fd_group fd) g
  && (EnhancedFormGenerator.fd_order fd =? o).

(** The fields of one group. *)
Definition in_group (g : string) (fd : EnhancedFormGenerator.field_def) : bool :=
  String.eqb (EnhancedFormGenerator.fd_group fd) g.

(** The subjects whose confirmation of the field [key] is recorded. *)
Definition contributors (key : string) (st : StreamlitApp.session_state)
  : gmap string (gmap string bool) :=
  filter (fun p => snd p !! key = Some true) (StreamlitApp.ma_bestaetigt st).

(** The counter of every field is the number of subjects flagged for it. *)
Definition counts_subjects (st : StreamlitApp.session_state) : Prop :=
  forall k, default 0 (StreamlitApp.formel_bestaetigung st !! k)
            = Z.of_nat (size (contributors k st)).

End MoreWords.

(* ===================================================================== *)
(** * Part II: properties                                                  *)
(* ===================================================================== *)

(** ** The validation rules *)

Module ValidationFacts.
Import ValidationRuleImpl.

Lemma truthy_of_parsed (E : PyEnv) (v : pyval) (d : date) :
  value_date E v = Some d -> date_fromisoformat E "" = None -> truthy v = true.
Proof.
  destruct v as [| | | |s|]; simpl; try discriminate; auto.
  intros Hp He. destruct (String.eqb_spec s ""); auto. subst. congruence.
Qed.

Lemma coerce_of_parsed (E : PyEnv) (v : pyval) (d : date) :
  value_date E v = Some d -> coerce_date E v = Some (VDate d).
Proof.
  destruct v; simpl; try discriminate.
  - intros ->. reflexivity.
  - intros [= ->]. reflexivity.
Qed.

Lemma rule_not_tested_is_valid (E : PyEnv) (rule : string) (value : pyval)
      (context : option (gmap string pyval)) :
  rule <> "required" -> rule <> "date_in_past" ->
  rule <> "date_after_eintrittsdatum" -> rule <> "positive" ->
  validate E rule value context = (true, "").
Proof.
  intros H1 H2 H3 H4. unfold validate.
  apply String.eqb_neq in H1, H2, H3, H4.
  rewrite H1, H2, H3, H4. reflexivity.
Qed.

(** C10: a rule name outside the four names the engine tests for is
    accepted with an empty message, whatever the value and the context. *)
Theorem unknown_rule_fail_open (E : PyEnv) (rule : string) (value : pyval)
        (context : option (gmap string pyval)) :
  rule <> "required" -> rule <> "date_in_past" ->
  rule <> "date_after_eintrittsdatum" -> rule <> "positive" ->
  validate E rule value context = (true, "").
Proof. apply rule_not_tested_is_valid. Qed.

Lemma unknown_rule_fail_open_witness :
  validate PyDate.env_2026 "email" (VStr "nobody") None = (true, "").
Proof.
  apply unknown_rule_fail_open; discriminate.
Defined.

(** *** date_in_past *)

(** C8, as stated, fails on the empty string: it is no date, and the rule
    accepts it. *)
Lemma date_in_past_accepts_empty_string :
  value_date PyDate.env_2026 (VStr "") = None
  /\ validate PyDate.env_2026 "date_in_past" (VStr "") None = (true, "").
Proof. split; reflexivity. Qed.

(** C8 (amended): an empty value ([None], the empty string, zero, [False])
    passes unexamined; any other value is valid exactly when it is a date,
    or parses as one, strictly before today, and when it is no date the
    result is the pair (False, "Ungültiges Datum"). *)
Theorem date_in_past_spec (E : PyEnv) (value : pyval)
        (context : option (gmap string pyval)) :
  (truthy value = false -> validate E "date_in_past" value context = (true, ""))
  /\ (truthy value = true ->
      (fst (validate E "date_in_past" value context) = true
       <-> exists d, value_date E value = Some d /\ date_ltb d (date_today E) = true)
      /\ (value_date E value = None ->
          validate E "date_in_past" value context = (false, "Ungültiges Datum"))).
Proof.
  unfold validate. simpl. split.
  - intros ->. reflexivity.
  - intros ->. simpl.
    destruct value as [| b | z | f | s | d]; simpl.
    + split; [split; [discriminate | intros (d & Hd & _); discriminate] | reflexivity].
    + split; [split; [discriminate | intros (d & Hd & _); discriminate] | reflexivity].
    + split; [split; [discriminate | intros (d & Hd & _); discriminate] | reflexivity].
    + split; [split; [discriminate | intros (d & Hd & _); discriminate] | reflexivity].
    + destruct (date_fromisoformat E s) as [d |]; simpl.
      * split; [| discriminate]. split.
        -- intros H. exists d. split; [reflexivity | exact H].
        -- intros (d' & [= <-] & H). exact H.
      * split; [split; [discriminate | intros (d & Hd & _); discriminate] | reflexivity].
    + split; [| discriminate]. split.
      * intros H. exists d. split; [reflexivity | exact H].
      * intros (d' & [= <-] & H). exact H.
Qed.

Lemma date_in_past_spec_witness :
  validate PyDate.env_2026 "date_in_past" VNone None = (true, "")
  /\ (fst (validate PyDate.env_2026 "date_in_past" (VStr "1960-03-15") None) = true
      <-> exists d, value_date PyDate.env_2026 (VStr "1960-03-15") = Some d
                    /\ date_ltb d (date_today PyDate.env_2026) = true)
  /\ validate PyDate.env_2026 "date_in_past" (VStr "15.03.1960") None
     = (false, "Ungültiges Datum").
Proof.
  split; [| split].
  - apply (proj1 (date_in_past_spec PyDate.env_2026 VNone None)). reflexivity.
  - apply (proj2 (date_in_past_spec PyDate.env_2026 (VStr "1960-03-15") None)).
    reflexivity.
  - apply (proj2 (date_in_past_spec PyDate.env_2026 (VStr "15.03.1960") None));
      reflexivity.
Defined.

(** *** The rules date_after_... *)

(** The branch that exists: with a value and an entry 'eintrittsdatum' that
    are dates, the rule holds exactly when the value is not before it. *)
Lemma date_after_eintrittsdatum_compares (E : PyEnv) (value sibling : pyval)
      (context : gmap string pyval) (d e : date) :
  truthy value = true ->
  context !! "eintrittsdatum" = Some sibling ->
  value_date E value = Some d -> value_date E sibling = Some e ->
  validate E "date_after_eintrittsdatum" value (Some context)
  = (date_leb e d,
     if date_leb e d then "" else "Austrittsdatum muss nach Eintrittsdatum liegen").
Proof.
  intros Ht Hc Hv Hs. unfold validate. simpl. rewrite Ht, Hc. simpl.
  rewrite (coerce_of_parsed _ _ _ Hv), (coerce_of_parsed _ _ _ Hs). simpl.
  destruct (date_leb e d); reflexivity.
Qed.

Lemma date_after_prefix_unknown (x : string) :
  x <> "eintrittsdatum" ->
  let rule := "date_after_" ++ x in
  rule <> "required" /\ rule <> "date_in_past"
  /\ rule <> "date_after_eintrittsdatum" /\ rule <> "positive".
Proof.
  intros Hx. simpl. repeat split; try discriminate.
  intros [= H]. contradiction.
Qed.

(** Every rule of the family is satisfied when the sibling is absent. *)
Lemma date_after_sibling_absent (E : PyEnv) (x : string) (value : pyval)
      (context : gmap string pyval) :
  context !! x = None ->
  validate E ("date_after_" ++ x) value (Some context) = (true, "").
Proof.
  intros Hc. destruct (decide (x = "eintrittsdatum")) as [-> | Hx].
  - unfold validate. simpl. rewrite Hc. destruct (truthy value); reflexivity.
  - destruct (date_after_prefix_unknown x Hx) as (H1 & H2 & H3 & H4).
    apply rule_not_tested_is_valid; assumption.
Qed.

(** A rule of the family other than date_after_eintrittsdatum compares
    nothing. *)
Lemma date_after_other_never_rejects (E : PyEnv) (x : string) (value : pyval)
      (context : option (gmap string pyval)) :
  x <> "eintrittsdatum" ->
  validate E ("date_after_" ++ x) value context = (true, "").
Proof.
  intros Hx. destruct (date_after_prefix_unknown x Hx) as (H1 & H2 & H3 & H4).
  apply rule_not_tested_is_valid; assumption.
Qed.

(** C3, as stated, fails for date_after_geburtsdatum: the entry date
    1950-01-01 is before the birth date 1960-03-15, both are present and
    parse, and the rule reports the value as valid. *)
Theorem date_after_geburtsdatum_not_checked :
  value_date PyDate.env_2026 (VStr "1950-01-01") = Some (mkdate 1950 1 1)
  /\ value_date PyDate.env_2026 (VStr "1960-03-15") = Some (mkdate 1960 3 15)
  /\ date_leb (mkdate 1960 3 15) (mkdate 1950 1 1) = false
  /\ validate PyDate.env_2026 "date_after_geburtsdatum" (VStr "1950-01-01")
              (Some {[ "geburtsdatum" := VStr "1960-03-15" ]})
     = (true, "").
Proof. repeat split; reflexivity. Qed.

(** C3 (amended): every rule date_after_<field> is satisfied when the
    context has no entry <field>.  The engine knows one rule of the family,
    date_after_eintrittsdatum: with a value and an entry 'eintrittsdatum'
    that are present and dates, or strings that parse as dates, it is valid
    exactly when the date of the value is not before that of the entry.
    Every other name of the family, date_after_geburtsdatum among them, is a
    name the engine does not know: it is satisfied by the default for unknown
    rules, for every value and every context, and compares nothing. *)
Theorem date_after_family (E : PyEnv) (field : string) (value : pyval)
        (context : gmap string pyval) :
  (context !! field = None ->
   validate E ("date_after_" ++ field) value (Some context) = (true, ""))
  /\ (field = "eintrittsdatum" ->
      forall sibling d e,
        truthy value = true -> context !! field = Some sibling ->
        value_date E value = Some d -> value_date E sibling = Some e ->
        (fst (validate E ("date_after_" ++ field) value (Some context)) = true
         <-> date_leb e d = true))
  /\ (field <> "eintrittsdatum" ->
      forall context', validate E ("date_after_" ++ field) value context' = (true, "")).
Proof.
  split; [| split].
  - apply date_after_sibling_absent.
  - intros -> sibling d e Ht Hc Hv Hs.
    change ("date_after_" ++ "eintrittsdatum") with "date_after_eintrittsdatum".
    rewrite (date_after_eintrittsdatum_compares E value sibling context d e Ht Hc Hv Hs).
    reflexivity.
  - intros Hx context'. apply date_after_other_never_rejects. exact Hx.
Qed.

Lemma date_after_family_witness :
  validate PyDate.env_2026 "date_after_eintrittsdatum" (VStr "2026-01-01")
           (Some {[ "geburtsdatum" := VStr "1960-03-15" ]}) = (true, "")
  /\ (fst (validate PyDate.env_2026 "date_after_eintrittsdatum" (VStr "1999-12-31")
                    (Some {[ "eintrittsdatum" := VStr "2000-01-01" ]})) = true
      <-> date_leb (mkdate 2000 1 1) (mkdate 1999 12 31) = true)
  /\ validate PyDate.env_2026 "date_after_geburtsdatum" (VStr "1950-01-01")
              (Some {[ "geburtsdatum" := VStr "1960-03-15" ]}) = (true, "").
Proof.
  split; [| split].
  - apply (proj1 (date_after_family PyDate.env_2026 "eintrittsdatum" (VStr "2026-01-01")
                    {[ "geburtsdatum" := VStr "1960-03-15" ]})).
    reflexivity.
  - apply (proj1 (proj2 (date_after_family PyDate.env_2026 "eintrittsdatum"
                           (VStr "1999-12-31")
                           {[ "eintrittsdatum" := VStr "2000-01-01" ]}))
             eq_refl (VStr "2000-01-01")); reflexivity.
  - apply (proj2 (proj2 (date_after_family PyDate.env_2026 "geburtsdatum"
                           (VStr "1950-01-01") ∅))).
    discriminate.
Defined.

End ValidationFacts.

(** ** Dictionaries and the stable sort *)

Module PyDictFacts.

Lemma dict_get_set_eq {V} (k : string) (v : V) (d : pydict V) :
  dict_get k (dict_set k v d) = Some v.
Proof.
  induction d as [| [k' v'] d IH]; simpl.
  - rewrite String.eqb_refl. reflexivity.
  - destruct (String.eqb k' k) eqn:Hk; simpl; rewrite Hk; auto.
Qed.

Lemma dict_get_set_ne {V} (k k0 : string) (v : V) (d : pydict V) :
  k <> k0 -> dict_get k0 (dict_set k v d) = dict_get k0 d.
Proof.
  intros Hne. induction d as [| [k' v'] d IH]; simpl.
  - apply String.eqb_neq in Hne. rewrite Hne. reflexivity.
  - destruct (String.eqb_spec k' k) as [-> | Hk]; simpl.
    + apply String.eqb_neq in Hne. rewrite Hne. reflexivity.
    + rewrite IH. reflexivity.
Qed.

(** Writing a key twice is writing it once with the later value. *)
Lemma dict_set_set {V} (k : string) (v1 v2 : V) (d : pydict V) :
  dict_set k v2 (dict_set k v1 d) = dict_set k v2 d.
Proof.
  induction d as [| [k' v'] d IH]; simpl.
  - rewrite String.eqb_refl. reflexivity.
  - destruct (String.eqb k' k) eqn:Hk; simpl; rewrite Hk; [reflexivity |].
    rewrite IH. reflexivity.
Qed.

Lemma dict_keys_set_in {V} (k k0 : string) (v : V) (d : pydict V) :
  In k0 (dict_keys (dict_set k v d)) <-> k0 = k \/ In k0 (dict_keys d).
Proof.
  unfold dict_keys. induction d as [| [k' v'] d IH]; simpl.
  - intuition.
  - destruct (String.eqb_spec k' k) as [-> | Hk]; simpl.
    + intuition.
    + rewrite IH. intuition.
Qed.

Lemma dict_set_NoDup {V} (k : string) (v : V) (d : pydict V) :
  List.NoDup (dict_keys d) -> List.NoDup (dict_keys (dict_set k v d)).
Proof.
  unfold dict_keys. induction d as [| [k' v'] d IH]; simpl; intros Hd.
  - constructor; [intros [] | constructor].
  - inversion Hd as [| ? ? Hnot Hd']; subst.
    destruct (String.eqb_spec k' k) as [-> | Hk]; simpl.
    + constructor; assumption.
    + constructor; [| auto].
      intros Hin. apply (dict_keys_set_in k k' v d) in Hin.
      destruct Hin as [-> | Hin]; [congruence | contradiction].
Qed.

Lemma entries_of_absent {V} (k : string) (d : pydict V) :
  ~ In k (dict_keys d) -> entries_of k d = [].
Proof.
  unfold dict_keys, entries_of. induction d as [| [k' v'] d IH]; simpl; intros Hn.
  - reflexivity.
  - destruct (String.eqb_spec k' k) as [-> | Hk]; [tauto |]. apply IH. tauto.
Qed.

Lemma entries_of_set {V} (k : string) (v : V) (d : pydict V) :
  List.NoDup (dict_keys d) -> entries_of k (dict_set k v d) = [(k, v)].
Proof.
  unfold dict_keys. induction d as [| [k' v'] d IH]; simpl; intros Hd.
  - unfold entries_of. simpl. rewrite String.eqb_refl. reflexivity.
  - inversion Hd as [| ? ? Hnot Hd']; subst.
    destruct (String.eqb_spec k' k) as [-> | Hk].
    + unfold entries_of. simpl. rewrite String.eqb_refl.
      fold (entries_of k d). rewrite entries_of_absent by exact Hnot. reflexivity.
    + unfold entries_of. simpl. apply String.eqb_neq in Hk. rewrite Hk.
      apply IH. exact Hd'.
Qed.

End PyDictFacts.

Module PySortFacts.
Import PySort.

Section AnyOrder.
Context {A : Type}.
Variable lt : A -> A -> bool.

Lemma insert_sorted_perm (x : A) (l : list A) :
  Permutation (insert_sorted lt x l) (x :: l).
Proof.
  induction l as [| y l IH]; simpl.
  - reflexivity.
  - destruct (lt y x).
    + rewrite IH. apply perm_swap.
    + reflexivity.
Qed.

Lemma stable_sort_perm (l : list A) : Permutation (stable_sort lt l) l.
Proof.
  induction l as [| x l IH]; simpl.
  - reflexivity.
  - rewrite insert_sorted_perm. constructor. exact IH.
Qed.
End AnyOrder.

Section ByKey.
Context {A : Type}.
Variable key : A -> Z.

Lemma insert_sorted_Forall (P : A -> Prop) (x : A) (l : list A) :
  P x -> List.Forall P l -> List.Forall P (insert_sorted (key_lt key) x l).
Proof.
  intros Hx Hl. induction Hl as [| y l Hy Hl IH]; simpl.
  - constructor; [exact Hx | constructor].
  - destruct (key_lt key y x); repeat constructor; auto.
Qed.

Lemma insert_sorted_sorted (x : A) (l : list A) :
  StronglySorted (key_le key) l ->
  StronglySorted (key_le key) (insert_sorted (key_lt key) x l).
Proof.
  induction 1 as [| y l Hs IH Hall]; simpl.
  - repeat constructor.
  - unfold key_lt at 1. destruct (Z.ltb_spec (key y) (key x)) as [Hlt | Hge].
    + constructor; [exact IH |].
      apply insert_sorted_Forall; [unfold key_le; lia | exact Hall].
    + constructor; [constructor; assumption |].
      constructor; [exact Hge |].
      eapply List.Forall_impl; [| exact Hall].
      unfold key_le. intros. lia.
Qed.

Lemma stable_sort_sorted (l : list A) :
  StronglySorted (key_le key) (stable_sort (key_lt key) l).
Proof.
  induction l as [| x l IH]; simpl.
  - constructor.
  - apply insert_sorted_sorted. exact IH.
Qed.

(** Inserting does not disturb the elements of any one key. *)
Lemma insert_sorted_filter (o : Z) (x : A) (l : list A) :
  List.filter (has_key key o) (insert_sorted (key_lt key) x l)
  = List.filter (has_key key o) (x :: l).
Proof.
  induction l as [| y l IH]; simpl.
  - reflexivity.
  - unfold key_lt at 1. destruct (Z.ltb_spec (key y) (key x)) as [Hlt | Hge].
    + simpl. rewrite IH. simpl. unfold has_key.
      destruct (Z.eqb_spec (key y) o), (Z.eqb_spec (key x) o); try reflexivity.
      lia.
    + reflexivity.
Qed.

(** Stability: the elements of one key keep their relative order. *)
Lemma stable_sort_filter (o : Z) (l : list A) :
  List.filter (has_key key o) (stable_sort (key_lt key) l)
  = List.filter (has_key key o) l.
Proof.
  induction l as [| x l IH]; simpl.
  - reflexivity.
  - rewrite insert_sorted_filter. simpl. rewrite IH. reflexivity.
Qed.
End ByKey.

End PySortFacts.

(** ** The registries *)

Module RegistryFacts.
Import PySort PyDictFacts PySortFacts.

(** C5: a second registration under the same key leaves the registry as if
    the first had never happened: [get] and [get_all] show the second
    metadata only, and the other keys are untouched.  [register] is a total
    function: there is no error case. *)
Theorem register_twice_replaces (m1 m2 : calc_metadata)
        (_fields : CalculatedFieldRegistry.state) :
  cm_key m1 = cm_key m2 ->
  List.NoDup (dict_keys _fields) ->
  let after :=
    CalculatedFieldRegistry.register m2 (CalculatedFieldRegistry.register m1 _fields) in
  after = CalculatedFieldRegistry.register m2 _fields
  /\ CalculatedFieldRegistry.get (cm_key m2) after = Some m2
  /\ entries_of (cm_key m2) (CalculatedFieldRegistry.get_all after) = [(cm_key m2, m2)]
  /\ List.NoDup (dict_keys (CalculatedFieldRegistry.get_all after))
  /\ (forall k, k <> cm_key m2 ->
                CalculatedFieldRegistry.get k after = CalculatedFieldRegistry.get k _fields).
Proof.
  intros Hk Hnd after.
  assert (Hafter : after = CalculatedFieldRegistry.register m2 _fields).
  { unfold after, CalculatedFieldRegistry.register. rewrite Hk. apply dict_set_set. }
  rewrite Hafter. unfold CalculatedFieldRegistry.register, CalculatedFieldRegistry.get,
    CalculatedFieldRegistry.get_all.
  split; [reflexivity |]. split; [apply dict_get_set_eq |].
  split; [apply entries_of_set; exact Hnd |].
  split; [apply dict_set_NoDup; exact Hnd |].
  intros k Hne. apply dict_get_set_ne. congruence.
Qed.

Lemma register_twice_replaces_witness :
  calculated_field Samples.x_second Samples.berechne_x_neu
    (calculated_field Samples.x_first Samples.berechne_x CalculatedFieldRegistry.initial)
  = calculated_field Samples.x_second Samples.berechne_x_neu CalculatedFieldRegistry.initial
  /\ option_map cm_label
       (CalculatedFieldRegistry.get "x"
          (calculated_field Samples.x_second Samples.berechne_x_neu
             (calculated_field Samples.x_first Samples.berechne_x
                               CalculatedFieldRegistry.initial)))
     = Some "second label".
Proof.
  pose proof (register_twice_replaces
                (mk_calc_metadata "x" "first label" "a + b" ["a"; "b"] "" true true 3
                                  "berechnungen" None 2 Samples.berechne_x "berechne_x")
                (mk_calc_metadata "x" "second label" "a * b" ["a"; "b"] "EUR" false true 3
                                  "berechnungen" (Some "product") 0
                                  Samples.berechne_x_neu "berechne_x_neu")
                CalculatedFieldRegistry.initial eq_refl (List.NoDup_nil _))
    as (H1 & H2 & _).
  split.
  - exact H1.
  - unfold calculated_field. simpl in H2 |- *.
    unfold CalculatedFieldRegistry.get in H2 |- *. simpl in H2 |- *. reflexivity.
Defined.

(** *** Workflow steps *)

Lemma register_sorted (step : step_def) (_steps : WorkflowStepRegistry.state) :
  StronglySorted (key_le sd_order) (WorkflowStepRegistry.register step _steps).
Proof. apply stable_sort_sorted. Qed.

Lemma register_filter (o : Z) (step : step_def) (_steps : WorkflowStepRegistry.state) :
  List.filter (has_key sd_order o) (WorkflowStepRegistry.register step _steps)
  = (List.filter (has_key sd_order o) _steps ++ List.filter (has_key sd_order o) [step])%list.
Proof.
  unfold WorkflowStepRegistry.register.
  rewrite stable_sort_filter. apply List.filter_app.
Qed.

Lemma register_perm (step : step_def) (_steps : WorkflowStepRegistry.state) :
  Permutation (WorkflowStepRegistry.register step _steps) (_steps ++ [step]).
Proof. apply stable_sort_perm. Qed.

Lemma register_all_snoc (steps : list step_def) (step : step_def) :
  WorkflowStepRegistry.register_all (steps ++ [step])
  = WorkflowStepRegistry.register step (WorkflowStepRegistry.register_all steps).
Proof. unfold WorkflowStepRegistry.register_all. apply List.fold_left_app. Qed.

(** C6: after any sequence of registrations the list holds exactly the
    registered steps, in ascending [order], and the steps of one [order]
    stand in the sequence of their registration; orders 2, 1, 1 give the
    two steps of order 1 as registered, then the step of order 2. *)
Theorem workflow_steps_sorted_stable :
  (forall steps : list step_def,
      let result := WorkflowStepRegistry.get_all (WorkflowStepRegistry.register_all steps) in
      StronglySorted (key_le sd_order) result
      /\ Permutation result steps
      /\ forall o, List.filter (has_key sd_order o) result
                   = List.filter (has_key sd_order o) steps)
  /\ (forall a b c : step_def,
         sd_order a = 2 -> sd_order b = 1 -> sd_order c = 1 ->
         WorkflowStepRegistry.get_all (WorkflowStepRegistry.register_all [a; b; c])
         = [b; c; a]).
Proof.
  split.
  - intros steps. unfold WorkflowStepRegistry.get_all. simpl.
    induction steps as [| step steps IH] using List.rev_ind.
    + repeat split; constructor.
    + destruct IH as (_ & Hperm & Hfilter). rewrite register_all_snoc.
      split; [apply register_sorted |]. split.
      * rewrite register_perm. apply Permutation_app_tail. exact Hperm.
      * intros o. rewrite register_filter, Hfilter, List.filter_app. reflexivity.
  - intros a b c Ha Hb Hc.
    unfold WorkflowStepRegistry.get_all, WorkflowStepRegistry.register_all,
      WorkflowStepRegistry.register, WorkflowStepRegistry.initial.
    unfold key_lt.
    repeat (cbn; rewrite ?Ha, ?Hb, ?Hc).
    reflexivity.
Qed.

Lemma workflow_steps_sorted_stable_witness :
  WorkflowStepRegistry.get_all
    (WorkflowStepRegistry.register_all
       [Samples.step_of 2 "Uebersicht"; Samples.step_of 1 "Eingabe";
        Samples.step_of 1 "Pruefung"])
  = [Samples.step_of 1 "Eingabe"; Samples.step_of 1 "Pruefung";
     Samples.step_of 2 "Uebersicht"].
Proof.
  apply (proj2 workflow_steps_sorted_stable); reflexivity.
Defined.

End RegistryFacts.

(** ** The form generator *)

Module GeneratorFacts.
Import EnhancedFormGenerator SpecWords PyDictFacts PySortFacts.



Lemma same_name_same_field (l : list dc_field) (f g : dc_field) :
  List.NoDup (map f_name l) -> In f l -> In g l -> f_name g = f_name f -> g = f.
Proof.
  induction l as [| h l IH]; simpl; intros Hnd Hf Hg Hname.
  - contradiction.
  - inversion Hnd as [| ? ? Hnot Hnd']; subst.
    destruct Hf as [-> | Hf], Hg as [-> | Hg]; auto.
    + exfalso. apply Hnot. rewrite <- Hname. apply in_map. exact Hg.
    + exfalso. apply Hnot. rewrite Hname. apply in_map. exact Hf.
Qed.

Lemma extract_input_fields_perm (self : generator) :
  Permutation (extract_input_fields self)
              (map (field_def_of self) (dc_fields (input_dataclass self))).
Proof. apply stable_sort_perm. Qed.

(** The extracted definitions are those of the attributes, one each. *)
Lemma extract_input_fields_in (self : generator) (fd : field_def) :
  In fd (extract_input_fields self)
  <-> exists f, In f (dc_fields (input_dataclass self)) /\ fd = field_def_of self f.
Proof.
  split.
  - intros Hin. apply (Permutation_in _ (extract_input_fields_perm self)) in Hin.
    apply in_map_iff in Hin. destruct Hin as (f & <- & Hf). eauto.
  - intros (f & Hf & ->).
    apply (Permutation_in _ (Permutation_sym (extract_input_fields_perm self))).
    apply in_map. exact Hf.
Qed.

(** The one definition extracted for the attribute [f]. *)
Lemma extract_input_fields_unique (dc : dataclass) (config : option (pydict pyval))
      (f : dc_field) (fd : field_def) :
  List.NoDup (map f_name (dc_fields dc)) -> In f (dc_fields dc) ->
  In fd (extract_input_fields (new dc config)) -> fd_id fd = f_name f ->
  fd = field_def_of (new dc config) f.
Proof.
  intros Hnd Hf Hin Hid. apply extract_input_fields_in in Hin.
  destruct Hin as (g & Hg & ->). simpl in Hg, Hid.
  rewrite (same_name_same_field _ f g Hnd Hf Hg Hid). reflexivity.
Qed.




(** *** Explicit metadata *)

(** C9, as stated, fails for the explicit label "": the definition carries
    the inferred label "Geburtsdatum" instead. *)
Lemma empty_label_is_replaced :
  In Samples.geburtsdatum_field (dc_fields Samples.Formular)
  /\ ui_label (f_metadata Samples.geburtsdatum_field) = Some ""
  /\ map (fun fd => (fd_id fd, fd_label fd))
         (extract_input_fields (new Samples.Formular None))
     = [("austritts_datum", "Austritts Datum"); ("geburtsdatum", "Geburtsdatum");
        ("name", "Name")].
Proof. repeat split. simpl. auto. Qed.

(** C9 (amended): in the definition extracted for an attribute, an explicit
    label or UI type wins when it is not the empty string, and the inferred
    one is used when it is absent or empty; every other metadata entry wins
    over its default when present, and the default stands when absent. *)
Theorem explicit_metadata_wins (dc : dataclass) (config : option (pydict pyval))
        (f : dc_field) :
  List.NoDup (map f_name (dc_fields dc)) ->
  In f (dc_fields dc) ->
  exists fd,
    In fd (extract_input_fields (new dc config))
    /\ (forall fd', In fd' (extract_input_fields (new dc config)) ->
                    fd_id fd' = f_name f -> fd' = fd)
    /\ fd_id fd = f_name f
    /\ (forall l, ui_label (f_metadata f) = Some l -> l <> "" -> fd_label fd = l)
    /\ (ui_label (f_metadata f) = None \/ ui_label (f_metadata f) = Some "" ->
        fd_label fd = PyStr.title (PyStr.replace_char "_" " " (f_name f)))
    /\ (forall t, ui_type (f_metadata f) = Some t -> t <> "" -> fd_type fd = t)
    /\ (ui_type (f_metadata f) = None \/ ui_type (f_metadata f) = Some "" ->
        fd_type fd = _infer_ui_type (f_type f))
    /\ wins_over (ui_required (f_metadata f))
                 (_is_required (new dc config) (f_name f)) (fd_required fd)
    /\ wins_over (ui_group (f_metadata f)) "default" (fd_group fd)
    /\ wins_over (ui_order (f_metadata f)) 0 (fd_order fd)
    /\ wins_over (ui_width (f_metadata f)) "full" (fd_width fd)
    /\ (forall l, ui_validation (f_metadata f) = Some (StrList l) -> fd_validation fd = l)
    /\ (forall rule, ui_validation (f_metadata f) = Some (OneStr rule) ->
                     fd_validation fd = [rule])
    /\ (ui_validation (f_metadata f) = None -> fd_validation fd = [])
    /\ fd_hint fd = ui_hint (f_metadata f)
    /\ fd_placeholder fd = ui_placeholder (f_metadata f)
    /\ fd_min_value fd = ui_min (f_metadata f)
    /\ fd_max_value fd = ui_max (f_metadata f)
    /\ fd_depends_on fd = ui_depends_on (f_metadata f)
    /\ fd_show_when fd = ui_show_when (f_metadata f)
    /\ fd_options fd = ui_options (f_metadata f)
    /\ fd_css_class fd = ui_class (f_metadata f).
Proof.
  intros Hnd Hf. exists (field_def_of (new dc config) f).
  split; [apply extract_input_fields_in; eauto |].
  split; [intros fd' Hin Hid; eapply extract_input_fields_unique; eauto |].
  unfold field_def_of, wins_over. simpl.
  destruct (f_metadata f) as [label typ required hint placeholder group order
                              validation vmin vmax depends show options width class].
  simpl. repeat split.
  - intros l [= ->] Hl. simpl. apply String.eqb_neq in Hl. rewrite Hl. reflexivity.
  - intros [-> | ->]; reflexivity.
  - intros t [= ->] Ht. simpl. apply String.eqb_neq in Ht. rewrite Ht. reflexivity.
  - intros [-> | ->]; reflexivity.
  - destruct required; reflexivity.
  - destruct group; reflexivity.
  - destruct order; reflexivity.
  - destruct width; reflexivity.
  - intros l [= ->]. reflexivity.
  - intros rule [= ->]. reflexivity.
  - intros ->. reflexivity.
Qed.

Lemma explicit_metadata_wins_witness :
  exists fd,
    In fd (extract_input_fields (new Samples.Formular None))
    /\ fd_id fd = "name" /\ fd_label fd = "Name" /\ fd_type fd = "text"
    /\ fd_group fd = "identifikation" /\ fd_order fd = 2
    /\ fd_validation fd = ["required"].
Proof.
  destruct (explicit_metadata_wins Samples.Formular None Samples.name_field)
    as (fd & Hin & _ & Hid & Hlabel & _ & _ & Htype & _ & Hgroup & Horder & _
        & Hval & _).
  - repeat constructor; simpl; intuition discriminate.
  - simpl. auto.
  - exists fd. split; [exact Hin |]. split; [exact Hid |].
    split; [apply Hlabel; [reflexivity | discriminate] |].
    split; [apply Htype; left; reflexivity |].
    split; [exact Hgroup |]. split; [exact Horder |].
    apply Hval. reflexivity.
Defined.

(** *** Assembly of the schema *)

(** generate_complete_schema only reads the registries and the clock. *)
Lemma generate_complete_schema_reads (E : PyEnv) (self : generator) (w : world) :
  snd (generate_complete_schema E self w) = w.
Proof. reflexivity. Qed.

(** C4, as stated, fails: two runs on the same record type and the same
    (empty) registries, one second apart, give different schemas. *)
Lemma schemas_a_second_apart_differ :
  fst (generate_complete_schema PyDate.env_2026 (new Samples.Formular None)
         (mk_world CalculatedFieldRegistry.initial WorkflowStepRegistry.initial
                   Samples.noon))
  <> fst (generate_complete_schema PyDate.env_2026 (new Samples.Formular None)
            (mk_world CalculatedFieldRegistry.initial WorkflowStepRegistry.initial
                      Samples.noon_and_a_second)).
Proof.
  intros H. apply (f_equal (fun s => meta_generated_at (s_meta s))) in H.
  vm_compute in H. discriminate H.
Qed.

(** C4 (amended): a run leaves the registries as they were, and two runs
    of one process on the same record type, configuration and registry
    contents give schemas that differ in nothing but [meta.generated_at],
    which shows the time of the run; at equal time stamps they are equal. *)
Theorem schema_reproducible_up_to_time_stamp (E : PyEnv) (self : generator)
        (_fields : CalculatedFieldRegistry.state) (_steps : WorkflowStepRegistry.state)
        (t1 t2 : PyDate.datetime) :
  let run1 := generate_complete_schema E self (mk_world _fields _steps t1) in
  let run2 := generate_complete_schema E self (mk_world _fields _steps t2) in
  snd run1 = mk_world _fields _steps t1
  /\ snd run2 = mk_world _fields _steps t2
  /\ meta_generated_at (s_meta (fst run1)) = PyDate.datetime_isoformat t1
  /\ meta_generated_at (s_meta (fst run2)) = PyDate.datetime_isoformat t2
  /\ fst run2 = with_generated_at (PyDate.datetime_isoformat t2) (fst run1)
  /\ (PyDate.datetime_isoformat t1 = PyDate.datetime_isoformat t2 ->
      fst run1 = fst run2).
Proof.
  intros run1 run2. subst run1 run2.
  cbv [generate_complete_schema bind ret extract_calculated_fields extract_workflow
       calculated_get_all workflow_get_all datetime_now with_generated_at fst snd
       w_fields w_steps w_clock s_meta meta_generated_at meta_title meta_class_name
       s_config s_input_fields s_calculated_fields s_all_fields s_groups s_workflow
       s_validation_rules].
  do 5 (split; [reflexivity |]).
  intros Heq. rewrite Heq. reflexivity.
Qed.

Lemma schema_reproducible_up_to_time_stamp_witness :
  fst (generate_complete_schema PyDate.env_2026 (new Samples.Formular None)
         (mk_world CalculatedFieldRegistry.initial WorkflowStepRegistry.initial
                   Samples.noon))
  = fst (generate_complete_schema PyDate.env_2026 (new Samples.Formular None)
           (mk_world CalculatedFieldRegistry.initial WorkflowStepRegistry.initial
                     Samples.noon)).
Proof.
  apply (schema_reproducible_up_to_time_stamp PyDate.env_2026
           (new Samples.Formular None) CalculatedFieldRegistry.initial
           WorkflowStepRegistry.initial Samples.noon Samples.noon).
  reflexivity.
Defined.

End GeneratorFacts.

(** ** The confirmation quorum *)

Module QuorumFacts.
Import StreamlitApp.

Lemma bestaetigt_record (c c' : calc) (s : string) (st : session_state) :
  bestaetigt_of c' (record_confirmation c s st)
  = if decide (calc_id c = calc_id c') then bestaetigt_of c st + 1
    else bestaetigt_of c' st.
Proof.
  unfold bestaetigt_of, record_confirmation. simpl.
  rewrite lookup_insert. destruct (decide (calc_id c = calc_id c')); reflexivity.
Qed.

Lemma geprueft_record (c c' : calc) (s s' : string) (st : session_state) :
  ma_geprueft_of c' s' (record_confirmation c s st)
  = if decide (s = s' /\ calc_id c = calc_id c') then true
    else ma_geprueft_of c' s' st.
Proof.
  unfold ma_geprueft_of, record_confirmation. simpl.
  rewrite lookup_insert. destruct (decide (s = s')) as [-> | Hs]; simpl.
  - rewrite lookup_insert. destruct (decide (calc_id c = calc_id c')) as [Hc | Hc].
    + rewrite decide_True by auto. reflexivity.
    + rewrite decide_False by tauto. reflexivity.
  - rewrite decide_False by tauto. reflexivity.
Qed.

(** An attempt either changes nothing, or it is a first confirmation of an
    unverified field and is recorded. *)
Lemma confirm_cases (c : calc) (s : string) (st : session_state) :
  confirm c s st = st
  \/ (bestaetigt_of c st < threshold_of c
      /\ ma_geprueft_of c s st = false
      /\ confirm c s st = record_confirmation c s st).
Proof.
  unfold confirm, confirmation_block.
  destruct (Z.leb_spec (threshold_of c) (bestaetigt_of c st)) as [Hge | Hlt]; [auto |].
  destruct (default true (calc_needs_confirmation c)); [| auto].
  destruct (ma_geprueft_of c s st) eqn:Hflag; simpl; [auto |].
  destruct (Z.ltb_spec (bestaetigt_of c st) (threshold_of c)); [| auto].
  right. auto.
Qed.

Lemma confirm_effective (c : calc) (s : string) (st : session_state) :
  bestaetigt_of c st < threshold_of c ->
  default true (calc_needs_confirmation c) = true ->
  ma_geprueft_of c s st = false ->
  confirm c s st = record_confirmation c s st.
Proof.
  intros Hlt Hneeds Hflag. unfold confirm, confirmation_block.
  rewrite Hneeds, Hflag.
  destruct (Z.leb_spec (threshold_of c) (bestaetigt_of c st)); [lia |].
  destruct (Z.ltb_spec (bestaetigt_of c st) (threshold_of c)); [reflexivity | lia].
Qed.

Lemma confirm_verified_noop (c : calc) (s : string) (st : session_state) :
  verified c st = true -> confirm c s st = st.
Proof.
  unfold verified, confirm, confirmation_block. intros ->. reflexivity.
Qed.

(** The flag belongs to the subject and the key of the field. *)
Lemma confirm_flagged_noop (c c' : calc) (s : string) (st : session_state) :
  calc_id c' = calc_id c -> ma_geprueft_of c s st = true -> confirm c' s st = st.
Proof.
  intros Hid Hflag. destruct (confirm_cases c' s st) as [H | (_ & Hno & _)]; [exact H |].
  unfold ma_geprueft_of in *. rewrite Hid in Hno. congruence.
Qed.

Lemma confirm_count_step (c c' : calc) (s : string) (st : session_state) :
  bestaetigt_of c' st <= bestaetigt_of c' (confirm c s st).
Proof.
  destruct (confirm_cases c s st) as [-> | (_ & _ & ->)]; [lia |].
  rewrite bestaetigt_record. destruct (decide (calc_id c = calc_id c')) as [Hid | _]; [| lia].
  unfold bestaetigt_of. rewrite Hid. lia.
Qed.

Lemma confirm_flag_step (c c' : calc) (s s' : string) (st : session_state) :
  ma_geprueft_of c' s' st = true -> ma_geprueft_of c' s' (confirm c s st) = true.
Proof.
  intros Hflag. destruct (confirm_cases c s st) as [-> | (_ & _ & ->)]; [exact Hflag |].
  rewrite geprueft_record. destruct (decide _); [reflexivity | exact Hflag].
Qed.

Lemma confirm_changed_flag (c : calc) (s : string) (st : session_state) :
  confirm c s st <> st -> ma_geprueft_of c s (confirm c s st) = true.
Proof.
  intros Hch. destruct (confirm_cases c s st) as [H | (_ & _ & ->)]; [contradiction |].
  rewrite geprueft_record. rewrite decide_True by auto. reflexivity.
Qed.

Lemma confirm_all_count (ops : list (string * calc)) (c : calc) (st : session_state) :
  bestaetigt_of c st <= bestaetigt_of c (confirm_all ops st).
Proof.
  revert st. induction ops as [| [s' c'] ops IH]; simpl; intros st.
  - lia.
  - etransitivity; [apply (confirm_count_step c' c s' st) | apply IH].
Qed.

Lemma confirm_all_flag (ops : list (string * calc)) (c : calc) (s : string)
      (st : session_state) :
  ma_geprueft_of c s st = true -> ma_geprueft_of c s (confirm_all ops st) = true.
Proof.
  revert st. induction ops as [| [s' c'] ops IH]; simpl; intros st Hflag.
  - exact Hflag.
  - apply IH. apply confirm_flag_step. exact Hflag.
Qed.

Lemma confirm_idempotent (c : calc) (s : string) (st : session_state) :
  confirm c s (confirm c s st) = confirm c s st.
Proof.
  destruct (confirm_cases c s st) as [Heq | (_ & _ & Heq)].
  - rewrite Heq. exact Heq.
  - rewrite Heq. apply (confirm_flagged_noop c c); [reflexivity |].
    rewrite geprueft_record. rewrite decide_True by auto. reflexivity.
Qed.

Lemma record_confirmation_changes (c : calc) (s : string) (st : session_state) :
  record_confirmation c s st <> st.
Proof.
  intros Heq. apply (f_equal (bestaetigt_of c)) in Heq.
  rewrite bestaetigt_record, decide_True in Heq by reflexivity. lia.
Qed.

(** An attempt changes the session exactly when the button is on offer. *)
Lemma confirm_changes_iff_button (c : calc) (s : string) (st : session_state) :
  confirm c s st <> st
  <-> confirmation_widget c s st
      = Progress (bestaetigt_of c st) (threshold_of c) true.
Proof.
  unfold confirm, confirmation_block, confirmation_widget.
  destruct (threshold_of c <=? bestaetigt_of c st); [split; [tauto | discriminate] |].
  destruct (default true (calc_needs_confirmation c)); [| split; [tauto | discriminate]].
  destruct (negb (ma_geprueft_of c s st) && (bestaetigt_of c st <? threshold_of c)).
  - split; [reflexivity | intros _; apply record_confirmation_changes].
  - split; [tauto | discriminate].
Qed.

(** C1: with threshold 3, starting from the empty session, three distinct
    subjects confirming once each bring the count to 1, 2, 3 and the field
    is verified at the third and not before; any further attempt leaves the
    session as it is; and in every session a repeated attempt of a subject
    changes nothing, so a subject counts once. *)
Theorem quorum_of_three (c : calc) (s1 s2 s3 : string) :
  threshold_of c = 3 ->
  default true (calc_needs_confirmation c) = true ->
  s1 <> s2 -> s1 <> s3 -> s2 <> s3 ->
  let st1 := confirm c s1 initial_session in
  let st2 := confirm c s2 st1 in
  let st3 := confirm c s3 st2 in
  bestaetigt_of c initial_session = 0
  /\ bestaetigt_of c st1 = 1 /\ bestaetigt_of c st2 = 2 /\ bestaetigt_of c st3 = 3
  /\ verified c st2 = false /\ verified c st3 = true
  /\ (forall s4, confirm c s4 st3 = st3)
  /\ bestaetigt_of c (confirm c s1 st1) = 1
  /\ (forall s st, ma_geprueft_of c s st = true -> confirm c s st = st)
  /\ (forall s st, confirm c s (confirm c s st) = confirm c s st).
Proof.
  intros Hthr Hneeds H12 H13 H23 st1 st2 st3.
  assert (H0 : bestaetigt_of c initial_session = 0) by reflexivity.
  assert (Hf0 : forall s, ma_geprueft_of c s initial_session = false) by reflexivity.
  assert (E1 : st1 = record_confirmation c s1 initial_session).
  { apply confirm_effective; [lia | exact Hneeds | apply Hf0]. }
  assert (B1 : bestaetigt_of c st1 = 1).
  { rewrite E1, bestaetigt_record, decide_True by reflexivity. lia. }
  assert (E2 : st2 = record_confirmation c s2 st1).
  { apply confirm_effective; [lia | exact Hneeds |].
    rewrite E1, geprueft_record, decide_False by tauto. apply Hf0. }
  assert (B2 : bestaetigt_of c st2 = 2).
  { rewrite E2, bestaetigt_record, decide_True by reflexivity. lia. }
  assert (E3 : st3 = record_confirmation c s3 st2).
  { apply confirm_effective; [lia | exact Hneeds |].
    rewrite E2, geprueft_record, decide_False by tauto.
    rewrite E1, geprueft_record, decide_False by tauto. apply Hf0. }
  assert (B3 : bestaetigt_of c st3 = 3).
  { rewrite E3, bestaetigt_record, decide_True by reflexivity. lia. }
  assert (V3 : verified c st3 = true).
  { unfold verified. rewrite Hthr, B3. reflexivity. }
  repeat split; try assumption.
  - unfold verified. rewrite Hthr, B2. reflexivity.
  - intros s4. apply confirm_verified_noop. exact V3.
  - unfold st1. rewrite confirm_idempotent. exact B1.
  - intros s st. apply confirm_flagged_noop. reflexivity.
  - intros s st. apply confirm_idempotent.
Qed.

Lemma quorum_of_three_witness :
  bestaetigt_of Samples.dienstzeit
    (confirm Samples.dienstzeit "1988-09-20_2020-01-01"
       (confirm Samples.dienstzeit "1980-07-22_2010-03-01"
          (confirm Samples.dienstzeit "1960-03-15_2000-01-01" initial_session))) = 3.
Proof.
  apply (quorum_of_three Samples.dienstzeit "1960-03-15_2000-01-01"
           "1980-07-22_2010-03-01" "1988-09-20_2020-01-01");
    (reflexivity || discriminate).
Defined.

(** C2: along any sequence of attempts a counter never goes down; a flag
    that is set stays set and turns every later attempt of that subject on
    that field into a no-op, so after a subject's confirmation has counted
    none of its later ones does; and a verified field stays verified. *)
Theorem quorum_never_goes_back (ops : list (string * calc)) (st : session_state)
        (c : calc) (s : string) :
  bestaetigt_of c st <= bestaetigt_of c (confirm_all ops st)
  /\ (ma_geprueft_of c s st = true ->
      ma_geprueft_of c s (confirm_all ops st) = true
      /\ forall c', calc_id c' = calc_id c ->
                    confirm c' s (confirm_all ops st) = confirm_all ops st)
  /\ (confirm c s st <> st ->
      forall c', calc_id c' = calc_id c ->
                 confirm c' s (confirm_all ops (confirm c s st))
                 = confirm_all ops (confirm c s st))
  /\ (verified c st = true -> verified c (confirm_all ops st) = true).
Proof.
  assert (Hflag : forall st0, ma_geprueft_of c s st0 = true ->
            ma_geprueft_of c s (confirm_all ops st0) = true
            /\ forall c', calc_id c' = calc_id c ->
                  confirm c' s (confirm_all ops st0) = confirm_all ops st0).
  { intros st0 H0. pose proof (confirm_all_flag ops c s st0 H0) as H1.
    split; [exact H1 |]. intros c' Hid. eapply confirm_flagged_noop; eauto. }
  split; [apply confirm_all_count |].
  split; [apply Hflag |].
  split.
  - intros Hch c' Hid. apply (Hflag (confirm c s st)); [| exact Hid].
    apply confirm_changed_flag. exact Hch.
  - unfold verified. intros Hv. apply Z.leb_le. apply Z.leb_le in Hv.
    pose proof (confirm_all_count ops c st). lia.
Qed.

Lemma quorum_never_goes_back_witness :
  ma_geprueft_of Samples.dienstzeit "1960-03-15_2000-01-01"
    (confirm_all [("1980-07-22_2010-03-01", Samples.dienstzeit);
                  ("1960-03-15_2000-01-01", Samples.dienstzeit)]
       (confirm Samples.dienstzeit "1960-03-15_2000-01-01" initial_session)) = true.
Proof.
  apply (quorum_never_goes_back
           [("1980-07-22_2010-03-01", Samples.dienstzeit);
            ("1960-03-15_2000-01-01", Samples.dienstzeit)]
           (confirm Samples.dienstzeit "1960-03-15_2000-01-01" initial_session)
           Samples.dienstzeit "1960-03-15_2000-01-01").
  vm_compute. reflexivity.
Defined.

End QuorumFacts.

(** ** The computations on dates *)

Module VersorgungFacts.
Import Versorgung VersorgungWords.

Lemma split_check_table :
  forallb split_check
          [1946; 1947; 1948; 1949; 1950; 1951; 1952; 1953; 1954; 1955; 1956; 1957;
           1958; 1959; 1960; 1961; 1962; 1963; 1964] = true.
Proof. vm_compute. reflexivity. Qed.

Lemma table_year_same (y m d : Z) :
  gesetzliches_rentenalter (mkdate y m d)
  = gesetzliches_rentenalter (mkdate (table_year y) 1 1)
  /\ rentenalter_monate y = rentenalter_monate (table_year y)
  /\ In (table_year y)
        [1946; 1947; 1948; 1949; 1950; 1951; 1952; 1953; 1954; 1955; 1956; 1957;
         1958; 1959; 1960; 1961; 1962; 1963; 1964].
Proof.
  unfold gesetzliches_rentenalter, rentenalter_monate, table_year. cbn [year].
  destruct (Z.ltb_spec y 1947) as [Hlo | Hlo]; [repeat split; cbn; auto |].
  destruct (Z.leb_spec 1964 y) as [Hhi | Hhi]; [repeat split; cbn; auto 20 |].
  destruct (Z.ltb_spec y 1947); [lia |]. destruct (Z.leb_spec 1964 y); [lia |].
  repeat split. cbn. lia.
Qed.

(** The age as a float splits into whole years and months as the table
    says. *)
Lemma rentenalter_split (y m d : Z) :
  exists jahre monate,
    py_int (gesetzliches_rentenalter (mkdate y m d)) = Some jahre
    /\ py_round (PrimFloat.mul
                   (PrimFloat.sub (gesetzliches_rentenalter (mkdate y m d))
                                  (float_of_int jahre))
                   (float_of_int 12)) = Some monate
    /\ 0 <= monate <= 11
    /\ 12 * jahre + monate = rentenalter_monate y.
Proof.
  destruct (table_year_same y m d) as (-> & -> & Hin).
  pose proof split_check_table as Hall. rewrite forallb_forall in Hall.
  specialize (Hall _ Hin). unfold split_check in Hall.
  destruct (py_int _) as [jahre |]; [| discriminate].
  destruct (py_round _) as [monate |] eqn:Hround; [| discriminate].
  exists jahre, monate. rewrite !andb_true_iff in Hall.
  destruct Hall as ((H1 & H2) & H3).
  apply Z.leb_le in H1, H2. apply Z.eqb_eq in H3.
  split; [reflexivity |]. split; [exact Hround |]. split; [split |]; assumption.
Qed.

Lemma days_in_month_ge (y m : Z) : 28 <= PyDate.days_in_month y m.
Proof.
  unfold PyDate.days_in_month.
  repeat match goal with |- context [if ?b then _ else _] => destruct b end; lia.
Qed.

Lemma make_date_first (y m : Z) :
  1 <= y <= 9999 -> 1 <= m <= 12 -> PyDate.make_date y m 1 = Some (mkdate y m 1).
Proof.
  intros Hy Hm. unfold PyDate.make_date.
  pose proof (days_in_month_ge y m).
  replace (1 <=? y) with true by (symmetry; apply Z.leb_le; lia).
  replace (y <=? 9999) with true by (symmetry; apply Z.leb_le; lia).
  replace (1 <=? m) with true by (symmetry; apply Z.leb_le; lia).
  replace (m <=? 12) with true by (symmetry; apply Z.leb_le; lia).
  replace (1 <=? PyDate.days_in_month y m) with true by (symmetry; apply Z.leb_le; lia).
  reflexivity.
Qed.

(** The retirement date in closed form. *)
Lemma rentenbeginn_closed_form (geburtsdatum : date) :
  1 <= year geburtsdatum <= 9931 ->
  1 <= month geburtsdatum <= 12 ->
  exists rb,
    rentenbeginn geburtsdatum = Some rb
    /\ day rb = 1
    /\ 1 <= month rb <= 12
    /\ 12 * year rb + month rb
       = 12 * year geburtsdatum + month geburtsdatum
         + rentenalter_monate (year geburtsdatum).
Proof.
  destruct geburtsdatum as [y m d]. cbn [year month]. intros Hy Hm.
  destruct (rentenalter_split y m d) as (jahre & monate & Hj & Hmo & Hrange & Hsum).
  assert (Hbound : 780 <= rentenalter_monate y <= 804).
  { unfold rentenalter_monate.
    destruct (Z.ltb_spec y 1947); [lia |].
    destruct (Z.leb_spec 1964 y); [lia |].
    destruct (Z.leb_spec y 1958); lia. }
  unfold rentenbeginn. rewrite Hj, Hmo. cbn [year month].
  destruct (Z.ltb_spec 12 (m + monate)) as [Hc | Hc].
  - rewrite make_date_first by lia.
    eexists. split; [reflexivity |]. cbn [year month day]. lia.
  - rewrite make_date_first by lia.
    eexists. split; [reflexivity |]. cbn [year month day]. lia.
Qed.

(** X1 (rentenbeginn): for a birth date with a month from 1 to 12 and a year
    from 1 to 9931 the retirement date exists, is the first day of a month,
    and lies the statutory number of months (780 up to the year 1946, then one
    more per year up to 1958, two more per year up to 1963, 804 from 1964)
    after the month of birth. *)
Theorem rentenbeginn_first_of_month (geburtsdatum : date) :
  1 <= year geburtsdatum <= 9931 ->
  1 <= month geburtsdatum <= 12 ->
  exists rb,
    rentenbeginn geburtsdatum = Some rb
    /\ PyDate.make_date (year rb) (month rb) (day rb) = Some rb
    /\ day rb = 1
    /\ 12 * year rb + month rb
       = 12 * year geburtsdatum + month geburtsdatum
         + rentenalter_monate (year geburtsdatum).
Proof.
  intros Hy Hm.
  destruct (rentenbeginn_closed_form geburtsdatum Hy Hm) as (rb & Hrb & Hd & Hmr & Hsum).
  exists rb. split; [exact Hrb |]. split; [| split; assumption].
  destruct rb as [ry rm rd]. cbn [year month day] in *. subst rd.
  apply make_date_first; [| exact Hmr].
  assert (780 <= rentenalter_monate (year geburtsdatum) <= 804).
  { unfold rentenalter_monate.
    destruct (Z.ltb_spec (year geburtsdatum) 1947); [lia |].
    destruct (Z.leb_spec 1964 (year geburtsdatum)); [lia |].
    destruct (Z.leb_spec (year geburtsdatum) 1958); lia. }
  lia.
Qed.

Lemma rentenbeginn_first_of_month_witness :
  exists rb,
    rentenbeginn (mkdate 1960 3 15) = Some rb
    /\ PyDate.make_date (year rb) (month rb) (day rb) = Some rb
    /\ day rb = 1
    /\ 12 * year rb + month rb = 12 * 2026 + 7.
Proof.
  apply (rentenbeginn_first_of_month (mkdate 1960 3 15)); cbn; lia.
Defined.

Ltac date_order :=
  unfold date_leb, date_ltb, date_eqb, month_day_ltb, years_later in *;
  cbn [year month day] in *;
  repeat match goal with
         | H : context [(_ || _) = true] |- _ => rewrite orb_true_iff in H
         | H : context [(_ && _) = true] |- _ => rewrite andb_true_iff in H
         | H : context [(_ <? _) = true] |- _ => rewrite Z.ltb_lt in H
         | H : context [(_ =? _) = true] |- _ => rewrite Z.eqb_eq in H
         | |- context [(_ || _) = true] => rewrite orb_true_iff
         | |- context [(_ && _) = true] => rewrite andb_true_iff
         | |- context [(_ <? _) = true] => rewrite Z.ltb_lt
         | |- context [(_ =? _) = true] => rewrite Z.eqb_eq
         end.

(** X2 (betriebszugehoerigkeit_jahre): the result is the number of completed
    years from the entry date to the retirement date: never negative, zero
    when the entry is after the retirement date, and otherwise the entry date
    moved on by that many years is not after the retirement date while one
    year more is. *)
Theorem betriebszugehoerigkeit_jahre_completed (eintrittsdatum geburtsdatum rb : date) :
  rentenbeginn geburtsdatum = Some rb ->
  exists jahre,
    betriebszugehoerigkeit_jahre eintrittsdatum geburtsdatum = Some jahre
    /\ 0 <= jahre
    /\ (date_ltb rb eintrittsdatum = true -> jahre = 0)
    /\ (date_leb eintrittsdatum rb = true ->
        date_leb (years_later jahre eintrittsdatum) rb = true
        /\ date_ltb rb (years_later (jahre + 1) eintrittsdatum) = true).
Proof.
  intros Hrb. unfold betriebszugehoerigkeit_jahre. rewrite Hrb.
  eexists. split; [reflexivity |].
  destruct rb as [ry rm rd], eintrittsdatum as [ey em ed].
  unfold month_day_ltb. cbn [year month day].
  destruct (Z.ltb_spec rm em) as [H1 | H1]; cbn [orb].
  - split; [lia |]. split; intros H; date_order; lia.
  - destruct (Z.eqb_spec rm em) as [H2 | H2]; cbn [andb].
    + destruct (Z.ltb_spec rd ed) as [H3 | H3].
      * split; [lia |]. split; intros H; date_order; lia.
      * split; [lia |]. split; intros H; date_order; lia.
    + split; [lia |]. split; intros H; date_order; lia.
Qed.

Lemma betriebszugehoerigkeit_jahre_completed_witness :
  exists jahre,
    betriebszugehoerigkeit_jahre (mkdate 2000 1 1) (mkdate 1960 3 15) = Some jahre
    /\ 0 <= jahre
    /\ (date_ltb (mkdate 2026 7 1) (mkdate 2000 1 1) = true -> jahre = 0)
    /\ (date_leb (mkdate 2000 1 1) (mkdate 2026 7 1) = true ->
        date_leb (years_later jahre (mkdate 2000 1 1)) (mkdate 2026 7 1) = true
        /\ date_ltb (mkdate 2026 7 1) (years_later (jahre + 1) (mkdate 2000 1 1)) = true).
Proof.
  apply (betriebszugehoerigkeit_jahre_completed (mkdate 2000 1 1) (mkdate 1960 3 15)
                                                (mkdate 2026 7 1)).
  vm_compute. reflexivity.
Defined.

(** X3 (unverfallbarkeit_pruefung): the service years are taken from the entry
    up to the retirement date computed from the exit date, so when the entry
    is not in a later year than the exit they are at least 64 and every
    service condition holds: the check succeeds exactly when the age at exit
    is at least 21 (exit from 2018 on) or at least 25 (exit from 2009 to
    2017), and always for an exit before 2009. *)
Theorem unverfallbarkeit_decided_by_age (geburtsdatum eintritt austritt : date) :
  1 <= year austritt <= 9931 ->
  1 <= month austritt <= 12 ->
  year eintritt <= year austritt ->
  exists dienstjahre grund,
    betriebszugehoerigkeit_jahre eintritt austritt = Some dienstjahre
    /\ 64 <= dienstjahre
    /\ unverfallbarkeit_pruefung geburtsdatum eintritt austritt
       = Some (erfuellt_nach_alter (year austritt) (alter_bei geburtsdatum austritt),
               grund).
Proof.
  intros Hy Hm He.
  destruct (rentenbeginn_closed_form austritt Hy Hm) as (rb & Hrb & Hd & Hmr & Hsum).
  assert (Hbound : 780 <= rentenalter_monate (year austritt)).
  { unfold rentenalter_monate.
    destruct (Z.ltb_spec (year austritt) 1947); [lia |].
    destruct (Z.leb_spec 1964 (year austritt)); [lia |].
    destruct (Z.leb_spec (year austritt) 1958); lia. }
  unfold unverfallbarkeit_pruefung, betriebszugehoerigkeit_jahre. rewrite Hrb.
  fold (alter_bei geburtsdatum austritt).
  set (dj := Z.max 0 _).
  assert (Hdj : 64 <= dj).
  { subst dj. destruct (month_day_ltb _ _ _ _); lia. }
  exists dj. unfold erfuellt_nach_alter.
  replace (3 <=? dj) with true by (symmetry; apply Z.leb_le; lia).
  replace (5 <=? dj) with true by (symmetry; apply Z.leb_le; lia).
  replace (10 <=? dj) with true by (symmetry; apply Z.leb_le; lia).
  cbn [andb].
  destruct (2018 <=? year austritt).
  - destruct (21 <=? alter_bei geburtsdatum austritt);
      eexists; (split; [reflexivity | split; [exact Hdj | reflexivity]]).
  - destruct (2009 <=? year austritt).
    + destruct (25 <=? alter_bei geburtsdatum austritt);
        eexists; (split; [reflexivity | split; [exact Hdj | reflexivity]]).
    + eexists; (split; [reflexivity | split; [exact Hdj | reflexivity]]).
Qed.

(** An employee who entered on 2025-12-01 and left on 2026-01-01, aged 37. *)
Lemma unverfallbarkeit_decided_by_age_witness :
  exists dienstjahre grund,
    betriebszugehoerigkeit_jahre (mkdate 2025 12 1) (mkdate 2026 1 1) = Some dienstjahre
    /\ 64 <= dienstjahre
    /\ unverfallbarkeit_pruefung (mkdate 1988 9 20) (mkdate 2025 12 1) (mkdate 2026 1 1)
       = Some (true, grund).
Proof.
  apply (unverfallbarkeit_decided_by_age (mkdate 1988 9 20) (mkdate 2025 12 1)
                                         (mkdate 2026 1 1)); cbn; lia.
Defined.

(** *** Ordinals *)

Lemma make_date_valid (y m d : Z) (x : date) :
  PyDate.make_date y m d = Some x ->
  x = mkdate y m d /\ 1 <= y <= 9999 /\ 1 <= m <= 12
  /\ 1 <= d <= PyDate.days_in_month y m.
Proof.
  unfold PyDate.make_date.
  destruct (Z.leb_spec 1 y); [| discriminate].
  destruct (Z.leb_spec y 9999); [| discriminate].
  destruct (Z.leb_spec 1 m); [| discriminate].
  destruct (Z.leb_spec m 12); [| discriminate].
  destruct (Z.leb_spec 1 d); [| discriminate].
  destruct (Z.leb_spec d (PyDate.days_in_month y m)); [| discriminate].
  cbn. intros [= <-]. repeat split; assumption.
Qed.

Lemma days_before_month_next (y m m' : Z) :
  1 <= m -> m < m' -> m' <= 12 ->
  days_before_month y m + PyDate.days_in_month y m <= days_before_month y m'.
Proof.
  intros H1 H2 H3. unfold days_before_month, PyDate.days_in_month.
  destruct (PyDate.is_leap y);
    assert (Hm : m = 1 \/ m = 2 \/ m = 3 \/ m = 4 \/ m = 5 \/ m = 6 \/ m = 7 \/ m = 8
                 \/ m = 9 \/ m = 10 \/ m = 11) by lia;
    assert (Hm' : m' = 2 \/ m' = 3 \/ m' = 4 \/ m' = 5 \/ m' = 6 \/ m' = 7 \/ m' = 8
                  \/ m' = 9 \/ m' = 10 \/ m' = 11 \/ m' = 12) by lia;
    repeat (destruct Hm as [-> | Hm]); try subst m;
      repeat (destruct Hm' as [-> | Hm']); try subst m'; cbn; lia.
Qed.

Lemma days_before_month_last (y m : Z) :
  1 <= m <= 12 ->
  days_before_month y m + PyDate.days_in_month y m
  <= 365 + (if PyDate.is_leap y then 1 else 0).
Proof.
  intros H. destruct (Z.eq_dec m 12) as [-> | Hne].
  - unfold days_before_month, PyDate.days_in_month. cbn. destruct (PyDate.is_leap y); lia.
  - pose proof (days_before_month_next y m 12 ltac:(lia) ltac:(lia) ltac:(lia)) as Hn.
    unfold days_before_month at 2 in Hn. cbn in Hn.
    destruct (PyDate.is_leap y); lia.
Qed.

Lemma days_before_month_nonneg (y m : Z) : 0 <= days_before_month y m.
Proof.
  unfold days_before_month.
  repeat match goal with |- context [if ?b then _ else _] => destruct b end; lia.
Qed.

Lemma days_before_year_next (y : Z) :
  days_before_year (y + 1)
  = days_before_year y + 365 + (if PyDate.is_leap y then 1 else 0).
Proof.
  unfold days_before_year, PyDate.is_leap.
  replace (y + 1 - 1) with y by lia.
  destruct (Z.eqb_spec (y mod 4) 0), (Z.eqb_spec (y mod 100) 0),
    (Z.eqb_spec (y mod 400) 0); cbn [andb orb negb];
    Z.div_mod_to_equations; lia.
Qed.

Lemma days_before_year_mono (y1 y2 : Z) :
  y1 <= y2 -> days_before_year y1 <= days_before_year y2.
Proof.
  intros H. unfold days_before_year. Z.div_mod_to_equations. lia.
Qed.

(** A later valid date has a greater ordinal. *)
Lemma toordinal_lt (a b : date) :
  PyDate.make_date (year a) (month a) (day a) = Some a ->
  PyDate.make_date (year b) (month b) (day b) = Some b ->
  date_ltb a b = true -> toordinal a < toordinal b.
Proof.
  intros Ha Hb Hlt.
  apply make_date_valid in Ha. destruct Ha as (_ & Hay & Ham & Had).
  apply make_date_valid in Hb. destruct Hb as (_ & Hby & Hbm & Hbd).
  unfold toordinal. destruct a as [ay am ad], b as [by' bm bd].
  cbn [year month day] in *. date_order.
  destruct Hlt as [Hy | (-> & [Hm | (-> & Hd)])].
  - pose proof (days_before_month_last ay am Ham).
    pose proof (days_before_year_next ay).
    pose proof (days_before_year_mono (ay + 1) by' ltac:(lia)).
    pose proof (days_before_month_nonneg by' bm).
    destruct (PyDate.is_leap ay); lia.
  - pose proof (days_before_month_next by' am bm ltac:(lia) Hm ltac:(lia)). lia.
  - lia.
Qed.

(** X4 (betriebszugehoerigkeit_tage): for two dates that exist, the number of
    days is positive exactly when the first is the earlier one, zero exactly
    when they are the same date, and changes sign when they are swapped. *)
Theorem betriebszugehoerigkeit_tage_sign (eintritt austritt : date) :
  PyDate.make_date (year eintritt) (month eintritt) (day eintritt) = Some eintritt ->
  PyDate.make_date (year austritt) (month austritt) (day austritt) = Some austritt ->
  (0 < betriebszugehoerigkeit_tage eintritt austritt <-> date_ltb eintritt austritt = true)
  /\ (betriebszugehoerigkeit_tage eintritt austritt = 0 <-> eintritt = austritt)
  /\ betriebszugehoerigkeit_tage austritt eintritt
     = - betriebszugehoerigkeit_tage eintritt austritt.
Proof.
  intros He Ha. unfold betriebszugehoerigkeit_tage.
  assert (Htri : date_ltb eintritt austritt = true \/ eintritt = austritt
                 \/ date_ltb austritt eintritt = true).
  { destruct eintritt as [ey em ed], austritt as [ay am ad]. date_order.
    destruct (Z.lt_trichotomy ey ay) as [? | [-> | ?]]; [lia | | lia].
    destruct (Z.lt_trichotomy em am) as [? | [-> | ?]]; [lia | | lia].
    destruct (Z.lt_trichotomy ed ad) as [? | [-> | ?]]; [lia | | lia].
    right. left. reflexivity. }
  assert (Hirr : forall d, date_ltb d d = false).
  { intros [y m d]. unfold date_ltb. cbn. rewrite !Z.ltb_irrefl, !Z.eqb_refl. reflexivity. }
  assert (Hasym : date_ltb eintritt austritt = true -> date_ltb austritt eintritt = true ->
                  False).
  { destruct eintritt as [ey em ed], austritt as [ay am ad]. intros H1 H2.
    date_order. lia. }
  split; [| split; [| lia]].
  - split.
    + intros Hpos. destruct Htri as [H | [-> | H]]; [exact H | lia |].
      pose proof (toordinal_lt _ _ Ha He H). lia.
    + intros H. pose proof (toordinal_lt _ _ He Ha H). lia.
  - split.
    + intros Hz. destruct Htri as [H | [H | H]]; [| exact H |].
      * pose proof (toordinal_lt _ _ He Ha H). lia.
      * pose proof (toordinal_lt _ _ Ha He H). lia.
    + intros ->. lia.
Qed.

Lemma betriebszugehoerigkeit_tage_sign_witness :
  (0 < betriebszugehoerigkeit_tage (mkdate 2000 1 1) (mkdate 2026 1 1)
   <-> date_ltb (mkdate 2000 1 1) (mkdate 2026 1 1) = true)
  /\ (betriebszugehoerigkeit_tage (mkdate 2000 1 1) (mkdate 2026 1 1) = 0
      <-> mkdate 2000 1 1 = mkdate 2026 1 1)
  /\ betriebszugehoerigkeit_tage (mkdate 2026 1 1) (mkdate 2000 1 1)
     = - betriebszugehoerigkeit_tage (mkdate 2000 1 1) (mkdate 2026 1 1).
Proof.
  apply (betriebszugehoerigkeit_tage_sign (mkdate 2000 1 1) (mkdate 2026 1 1));
    reflexivity.
Defined.

(** X5 (mn_faktor): whenever the retirement date exists the function returns
    the two day counts (entry to exit, entry to retirement) with a factor,
    and when the second count is zero the factor is 0.0: the division by
    zero cannot happen. *)
Theorem mn_faktor_guarded (eintrittsdatum austrittsdatum geburtsdatum rb : date) :
  rentenbeginn geburtsdatum = Some rb ->
  exists faktor,
    mn_faktor eintrittsdatum austrittsdatum geburtsdatum
    = Some (faktor,
            betriebszugehoerigkeit_tage eintrittsdatum austrittsdatum,
            betriebszugehoerigkeit_tage eintrittsdatum rb)
    /\ (betriebszugehoerigkeit_tage eintrittsdatum rb = 0 -> faktor = float_of_int 0)
    /\ (betriebszugehoerigkeit_tage eintrittsdatum rb <> 0 ->
        int_truediv (betriebszugehoerigkeit_tage eintrittsdatum austrittsdatum)
                    (betriebszugehoerigkeit_tage eintrittsdatum rb) = Some faktor).
Proof.
  intros Hrb. unfold mn_faktor, int_truediv. rewrite Hrb.
  destruct (Z.eqb_spec (betriebszugehoerigkeit_tage eintrittsdatum rb) 0) as [Hz | Hnz].
  - eexists. split; [reflexivity |]. split; [reflexivity | intros; contradiction].
  - eexists. split; [reflexivity |]. split; [intros; contradiction | reflexivity].
Qed.

Lemma mn_faktor_guarded_witness :
  exists faktor,
    mn_faktor (mkdate 2026 7 1) (mkdate 2026 1 1) (mkdate 1960 3 15)
    = Some (faktor,
            betriebszugehoerigkeit_tage (mkdate 2026 7 1) (mkdate 2026 1 1),
            betriebszugehoerigkeit_tage (mkdate 2026 7 1) (mkdate 2026 7 1))
    /\ (betriebszugehoerigkeit_tage (mkdate 2026 7 1) (mkdate 2026 7 1) = 0
        -> faktor = float_of_int 0)
    /\ (betriebszugehoerigkeit_tage (mkdate 2026 7 1) (mkdate 2026 7 1) <> 0 ->
        int_truediv (betriebszugehoerigkeit_tage (mkdate 2026 7 1) (mkdate 2026 1 1))
                    (betriebszugehoerigkeit_tage (mkdate 2026 7 1) (mkdate 2026 7 1))
        = Some faktor).
Proof.
  apply (mn_faktor_guarded (mkdate 2026 7 1) (mkdate 2026 1 1) (mkdate 1960 3 15)
                           (mkdate 2026 7 1)).
  vm_compute. reflexivity.
Defined.

End VersorgungFacts.


(** ** More on the validation rules and the conditions *)

Module ValidationMore.
Import ValidationRuleImpl MoreWords.

Lemma date_ltb_leb_trans (a b c : date) :
  date_ltb a b = true -> date_leb b c = true -> date_ltb a c = true.
Proof.
  destruct a as [ay am ad], b as [by' bm bd], c as [cy cm cd]. intros H1 H2.
  VersorgungFacts.date_order. lia.
Qed.

Lemma date_leb_not_ltb (a b : date) : date_leb a b = negb (date_ltb b a).
Proof.
  destruct a as [ay am ad], b as [by' bm bd].
  unfold date_leb, date_ltb, date_eqb. cbn [year month day].
  destruct (Z.ltb_spec ay by'), (Z.ltb_spec by' ay), (Z.eqb_spec ay by'),
    (Z.eqb_spec by' ay), (Z.ltb_spec am bm), (Z.ltb_spec bm am), (Z.eqb_spec am bm),
    (Z.eqb_spec bm am), (Z.ltb_spec ad bd), (Z.ltb_spec bd ad), (Z.eqb_spec ad bd);
    cbn; try reflexivity; lia.
Qed.

(** X6 (validate, every rule): the message is empty exactly when the result
    is valid. *)
Theorem message_empty_iff_valid (E : PyEnv) (rule : string) (value : pyval)
        (context : option (gmap string pyval)) :
  snd (validate E rule value context) = "" <-> fst (validate E rule value context) = true.
Proof.
  unfold validate.
  repeat match goal with
         | |- context [negb ?b] => destruct b; cbn [negb]
         | |- context [if ?b then _ else _] => destruct b
         | |- context [match ?x with _ => _ end] => destruct x
         end; cbn; split; first [discriminate | intros; reflexivity].
Qed.

(** X7 (date_in_past): a value that is in the past today is in the past on
    every later day. *)
Theorem date_in_past_stays_valid (E : PyEnv) (later : date) (value : pyval)
        (context : option (gmap string pyval)) :
  date_leb (date_today E) later = true ->
  fst (validate E "date_in_past" value context) = true ->
  fst (validate (on_day E later) "date_in_past" value context) = true.
Proof.
  intros Hlater. unfold validate. cbn [String.eqb Ascii.eqb Bool.eqb].
  cbn -[date_ltb].
  destruct (truthy value); cbn -[date_ltb]; [| auto].
  unfold coerce_date, on_day. cbn -[date_ltb].
  destruct value as [| b | z | f | s | d]; cbn -[date_ltb]; auto.
  - destruct (date_fromisoformat E s) as [d |]; cbn -[date_ltb]; auto.
    intros H. eapply date_ltb_leb_trans; eauto.
  - intros H. eapply date_ltb_leb_trans; eauto.
Qed.

Lemma date_in_past_stays_valid_witness :
  fst (validate (on_day PyDate.env_2026 (mkdate 2027 6 30)) "date_in_past"
                (VStr "1960-03-15") None) = true.
Proof.
  apply (date_in_past_stays_valid PyDate.env_2026 (mkdate 2027 6 30)); reflexivity.
Defined.

(** X8 (date_after_eintrittsdatum): with a non-empty value and an entry
    'eintrittsdatum' that are dates or ISO strings, the rule is valid exactly
    when the value is not before the entry date; otherwise the message is
    "Austrittsdatum muss nach Eintrittsdatum liegen". *)
Theorem date_after_eintrittsdatum_valid_iff (E : PyEnv) (value sibling : pyval)
        (context : gmap string pyval) (d e : date) :
  truthy value = true ->
  context !! "eintrittsdatum" = Some sibling ->
  value_date E value = Some d ->
  value_date E sibling = Some e ->
  (fst (validate E "date_after_eintrittsdatum" value (Some context)) = true
   <-> date_leb e d = true)
  /\ (date_ltb d e = true ->
      validate E "date_after_eintrittsdatum" value (Some context)
      = (false, "Austrittsdatum muss nach Eintrittsdatum liegen")).
Proof.
  intros Ht Hc Hv Hs.
  rewrite (ValidationFacts.date_after_eintrittsdatum_compares E value sibling context d e
             Ht Hc Hv Hs).
  split; [reflexivity |]. intros Hlt. rewrite date_leb_not_ltb, Hlt. reflexivity.
Qed.

Lemma date_after_eintrittsdatum_valid_iff_witness :
  validate PyDate.env_2026 "date_after_eintrittsdatum" (VStr "1999-12-31")
           (Some {[ "eintrittsdatum" := VDate (mkdate 2000 1 1) ]})
  = (false, "Austrittsdatum muss nach Eintrittsdatum liegen").
Proof.
  apply (date_after_eintrittsdatum_valid_iff PyDate.env_2026 (VStr "1999-12-31")
           (VDate (mkdate 2000 1 1)) {[ "eintrittsdatum" := VDate (mkdate 2000 1 1) ]}
           (mkdate 1999 12 31) (mkdate 2000 1 1)); reflexivity.
Defined.

(** X9 (date_after_eintrittsdatum): the rule never raises: a non-empty value
    or an entry date that is a string the parser rejects, or an entry date
    that is neither a date nor a string while the value is a date, gives
    (False, "Ungültiges Datum"). *)
Theorem date_after_eintrittsdatum_invalid_date (E : PyEnv) (value sibling : pyval)
        (context : gmap string pyval) :
  truthy value = true ->
  context !! "eintrittsdatum" = Some sibling ->
  (exists s, value = VStr s /\ date_fromisoformat E s = None)
  \/ (exists s, sibling = VStr s /\ date_fromisoformat E s = None)
  \/ ((exists d, value_date E value = Some d)
      /\ forall s d, sibling <> VStr s /\ sibling <> VDate d) ->
  validate E "date_after_eintrittsdatum" value (Some context)
  = (false, "Ungültiges Datum").
Proof.
  intros Ht Hc Hcase. unfold validate. cbn -[date_leb]. rewrite Ht, Hc. cbn -[date_leb].
  destruct Hcase as [(s & -> & Hs) | [(s & -> & Hs) | ((d & Hd) & Hsib)]].
  - cbn. rewrite Hs. reflexivity.
  - destruct (coerce_date E value); [| reflexivity]. cbn. rewrite Hs. reflexivity.
  - rewrite (ValidationFacts.coerce_of_parsed E value d Hd).
    destruct sibling as [| b | z | f | s | d']; cbn; try reflexivity.
    + destruct (Hsib s d) as [H _]. congruence.
    + destruct (Hsib "" d') as [_ H]. congruence.
Qed.

Lemma date_after_eintrittsdatum_invalid_date_witness :
  validate PyDate.env_2026 "date_after_eintrittsdatum" (VStr "31.12.2025")
           (Some {[ "eintrittsdatum" := VDate (mkdate 2000 1 1) ]})
  = (false, "Ungültiges Datum").
Proof.
  apply (date_after_eintrittsdatum_invalid_date PyDate.env_2026 (VStr "31.12.2025")
           (VDate (mkdate 2000 1 1)) {[ "eintrittsdatum" := VDate (mkdate 2000 1 1) ]}).
  - reflexivity.
  - reflexivity.
  - left. exists "31.12.2025". split; reflexivity.
Defined.

(** X10 (date_after_...): a rule date_after_<field> is satisfied whenever the
    context has no entry <field>, whatever the value, and this includes the
    call without a context. *)
Theorem date_after_passes_without_sibling (E : PyEnv) (field : string) (value : pyval)
        (context : gmap string pyval) :
  context !! field = None ->
  validate E ("date_after_" ++ field) value (Some context) = (true, "")
  /\ validate E ("date_after_" ++ field) value None = (true, "").
Proof.
  intros Hc. split.
  - apply ValidationFacts.date_after_sibling_absent. exact Hc.
  - destruct (decide (field = "eintrittsdatum")) as [-> | Hne].
    + unfold validate. cbn. destruct (truthy value); reflexivity.
    + apply ValidationFacts.date_after_other_never_rejects. exact Hne.
Qed.

Lemma date_after_passes_without_sibling_witness :
  validate PyDate.env_2026 "date_after_eintrittsdatum" (VStr "2026-01-01")
           (Some {[ "geburtsdatum" := VStr "1960-03-15" ]}) = (true, "")
  /\ validate PyDate.env_2026 "date_after_eintrittsdatum" (VStr "2026-01-01") None
     = (true, "").
Proof.
  apply (date_after_passes_without_sibling PyDate.env_2026 "eintrittsdatum").
  reflexivity.
Defined.

Lemma q_ltb_zero_inject (z : Z) : q_ltb 0%Q (inject_Z z) = (0 <? z).
Proof.
  unfold q_ltb. destruct (Z.ltb_spec 0 z) as [H | H].
  - destruct (Qle_bool (inject_Z z) 0) eqn:Hq; [| reflexivity].
    apply Qle_bool_iff in Hq. unfold Qle in Hq. cbn in Hq. lia.
  - assert (Hq : Qle_bool (inject_Z z) 0 = true).
    { apply Qle_bool_iff. unfold Qle. cbn. lia. }
    rewrite Hq. reflexivity.
Qed.

(** X11 (positive): an [int] is valid exactly when it is positive and small
    enough for [float] (below 2^1024 - 2^970); [None], a date, and a string
    that [float] rejects give (False, "Ungültige Zahl") instead of an
    exception, and [None] is not let through as it is by the date rules. *)
Theorem positive_rule (E : PyEnv) (context : option (gmap string pyval)) :
  (forall z, fst (validate E "positive" (VInt z) context) = true
             <-> 0 < z < float_int_limit)
  /\ (forall z, float_int_limit <= Z.abs z ->
                validate E "positive" (VInt z) context = (false, "Ungültige Zahl"))
  /\ validate E "positive" VNone context = (false, "Ungültige Zahl")
  /\ (forall d, validate E "positive" (VDate d) context = (false, "Ungültige Zahl"))
  /\ (forall s, float_of_str E s = None ->
                validate E "positive" (VStr s) context = (false, "Ungültige Zahl")).
Proof.
  unfold validate. cbn -[float_int_limit q_ltb inject_Z].
  split; [| split; [| split; [| split]]].
  - intros z. destruct (Z.ltb_spec (Z.abs z) float_int_limit) as [Hl | Hl];
      cbn -[float_int_limit q_ltb inject_Z].
    + rewrite q_ltb_zero_inject. split.
      * intros H. apply Z.ltb_lt in H. lia.
      * intros [H1 _]. apply Z.ltb_lt. exact H1.
    + split; [discriminate | lia].
  - intros z Hz. destruct (Z.ltb_spec (Z.abs z) float_int_limit); [lia | reflexivity].
  - reflexivity.
  - reflexivity.
  - intros s Hs. rewrite Hs. reflexivity.
Qed.

Lemma positive_rule_witness :
  validate PyDate.env_2026 "positive" (VInt (2 ^ 1024)) None = (false, "Ungültige Zahl")
  /\ validate PyDate.env_2026 "positive" (VStr "4500,00") None = (false, "Ungültige Zahl").
Proof.
  split.
  - apply (proj1 (proj2 (positive_rule PyDate.env_2026 None))). vm_compute. discriminate.
  - apply (proj2 (proj2 (proj2 (proj2 (positive_rule PyDate.env_2026 None))))).
    reflexivity.
Defined.

(** X12 (Conditions.is_neu_regelung): without an entry date, or with an empty
    one, the answer is False; with an entry date that is a date or an ISO
    string and a key date that parses, the answer is True exactly when the
    entry is not before the key date, the opposite of [ist_alt] of the
    application. *)
Theorem is_neu_regelung_spec (E : PyEnv) (data : gmap string pyval) (stichtag : string) :
  (data !! "eintrittsdatum" = None -> Conditions.is_neu_regelung E data stichtag = Some false)
  /\ (forall v, data !! "eintrittsdatum" = Some v -> truthy v = false ->
                Conditions.is_neu_regelung E data stichtag = Some false)
  /\ (forall v d s, data !! "eintrittsdatum" = Some v -> truthy v = true ->
                    value_date E v = Some d -> date_fromisoformat E stichtag = Some s ->
                    Conditions.is_neu_regelung E data stichtag = Some (date_leb s d)
                    /\ Conditions.is_neu_regelung E data stichtag = Some (negb (ist_alt d s))).
Proof.
  unfold Conditions.is_neu_regelung. repeat split.
  - intros ->. reflexivity.
  - intros v -> ->. reflexivity.
  - rename H into Hv, H0 into Ht, H1 into Hd, H2 into Hs.
    rewrite Hv, Ht. cbn. rewrite (ValidationFacts.coerce_of_parsed E v d Hd), Hs.
    reflexivity.
  - rename H into Hv, H0 into Ht, H1 into Hd, H2 into Hs.
    rewrite Hv, Ht. cbn. rewrite (ValidationFacts.coerce_of_parsed E v d Hd), Hs.
    cbn -[date_leb]. unfold ist_alt. rewrite date_leb_not_ltb. reflexivity.
Qed.

Lemma is_neu_regelung_spec_witness :
  Conditions.is_neu_regelung PyDate.env_2026 {[ "eintrittsdatum" := VStr "2010-03-01" ]}
                             Conditions.default_stichtag = Some true
  /\ Conditions.is_neu_regelung PyDate.env_2026
       {[ "eintrittsdatum" := VDate (mkdate 2000 1 1) ]} Conditions.default_stichtag
     = Some false.
Proof.
  split.
  - apply (proj2 (proj2 (is_neu_regelung_spec PyDate.env_2026
                           {[ "eintrittsdatum" := VStr "2010-03-01" ]}
                           Conditions.default_stichtag))
             (VStr "2010-03-01") (mkdate 2010 3 1) (mkdate 2003 1 1)); reflexivity.
  - apply (proj2 (proj2 (is_neu_regelung_spec PyDate.env_2026
                           {[ "eintrittsdatum" := VDate (mkdate 2000 1 1) ]}
                           Conditions.default_stichtag))
             (VDate (mkdate 2000 1 1)) (mkdate 2000 1 1) (mkdate 2003 1 1)); reflexivity.
Defined.

End ValidationMore.

(** ** More on dictionaries, sorting and the registries *)

Module PyDictMore.
Import PyDictFacts.

Lemma dict_get_app {V} (k : string) (d1 d2 : pydict V) :
  dict_get k (d1 ++ d2)%list
  = match dict_get k d1 with Some v => Some v | None => dict_get k d2 end.
Proof.
  induction d1 as [| [k' v'] d1 IH]; simpl; [reflexivity |].
  destruct (String.eqb k' k); [reflexivity | exact IH].
Qed.

Lemma existsb_eqb_in (k : string) (l : list string) :
  existsb (String.eqb k) l = true <-> In k l.
Proof.
  rewrite existsb_exists. split.
  - intros (x & Hx & Heq). apply String.eqb_eq in Heq. subst. exact Hx.
  - intros H. exists k. split; [exact H | apply String.eqb_refl].
Qed.

(** The keys after an assignment: a new key goes last. *)
Lemma dict_keys_set {V} (k : string) (v : V) (d : pydict V) :
  dict_keys (dict_set k v d)
  = if existsb (String.eqb k) (dict_keys d) then dict_keys d else (dict_keys d ++ [k])%list.
Proof.
  unfold dict_keys. induction d as [| [k' v'] d IH]; simpl; [reflexivity |].
  rewrite (String.eqb_sym k k').
  destruct (String.eqb k' k) eqn:Hk; simpl.
  - reflexivity.
  - rewrite IH. destruct (existsb _ _); reflexivity.
Qed.

Lemma first_occurrences_in (k : string) (l : list string) :
  In k (PyDate.first_occurrences l) <-> In k l.
Proof.
  induction l as [| x l IH]; simpl; [tauto |].
  rewrite filter_In, IH. destruct (String.eqb_spec x k) as [-> | Hne].
  - tauto.
  - cbn. intuition congruence.
Qed.

Lemma first_occurrences_NoDup (l : list string) : List.NoDup (PyDate.first_occurrences l).
Proof.
  induction l as [| x l IH]; simpl; constructor.
  - rewrite filter_In. intros [_ H]. rewrite String.eqb_refl in H. discriminate.
  - apply List.NoDup_filter. exact IH.
Qed.

Lemma first_occurrences_snoc (l : list string) (k : string) :
  PyDate.first_occurrences (l ++ [k])
  = if existsb (String.eqb k) l then PyDate.first_occurrences l
    else (PyDate.first_occurrences l ++ [k])%list.
Proof.
  induction l as [| x l IH]; simpl; [reflexivity |].
  rewrite IH. destruct (String.eqb_spec k x) as [-> | Hne]; simpl.
  - destruct (existsb (String.eqb x) l).
    + reflexivity.
    + rewrite List.filter_app. simpl. rewrite String.eqb_refl. simpl.
      rewrite List.app_nil_r. reflexivity.
  - destruct (existsb (String.eqb k) l); [reflexivity |].
    rewrite List.filter_app. simpl.
    destruct (String.eqb_spec x k); [congruence |]. reflexivity.
Qed.

Lemma existsb_first_occurrences (k : string) (l : list string) :
  existsb (String.eqb k) (PyDate.first_occurrences l) = existsb (String.eqb k) l.
Proof.
  apply eq_true_iff_eq. rewrite !existsb_eqb_in. apply first_occurrences_in.
Qed.

End PyDictMore.

Module RegistryMore.
Import PySort PyDictFacts PySortFacts PyDictMore MoreWords.

Lemma register_each_snoc (ms : list calc_metadata) (m : calc_metadata) :
  register_each (ms ++ [m]) = CalculatedFieldRegistry.register m (register_each ms).
Proof. unfold register_each. apply List.fold_left_app. Qed.

Lemma register_each_get (ms : list calc_metadata) (key : string) :
  dict_get key (register_each ms) = last_registered key ms.
Proof.
  unfold last_registered.
  induction ms as [| m ms IH] using List.rev_ind; [reflexivity |].
  rewrite register_each_snoc, List.rev_unit. simpl.
  unfold CalculatedFieldRegistry.register.
  destruct (String.eqb_spec (cm_key m) key) as [<- | Hne].
  - apply dict_get_set_eq.
  - rewrite dict_get_set_ne by exact Hne. exact IH.
Qed.

Lemma register_each_keys (ms : list calc_metadata) :
  dict_keys (register_each ms) = PyDate.first_occurrences (map cm_key ms).
Proof.
  induction ms as [| m ms IH] using List.rev_ind; [reflexivity |].
  rewrite register_each_snoc, List.map_app. simpl.
  unfold CalculatedFieldRegistry.register.
  rewrite dict_keys_set, first_occurrences_snoc, IH, existsb_first_occurrences.
  reflexivity.
Qed.

(** X13 (CalculatedFieldRegistry): after any sequence of registrations on the
    empty registry, [get] returns for every key the metadata registered last
    under it, and [None] for a key never registered. *)
Theorem get_returns_last_registered (ms : list calc_metadata) (key : string) :
  CalculatedFieldRegistry.get key (register_each ms) = last_registered key ms
  /\ (CalculatedFieldRegistry.get key (register_each ms) = None
      <-> ~ In key (map cm_key ms)).
Proof.
  unfold CalculatedFieldRegistry.get. rewrite register_each_get.
  split; [reflexivity |]. unfold last_registered. split.
  - intros Hnone Hin. apply in_map_iff in Hin. destruct Hin as (m & Hk & Hm).
    apply in_rev in Hm. apply (List.find_none _ _ Hnone m) in Hm.
    rewrite Hk, String.eqb_refl in Hm. discriminate.
  - intros Hnot. destruct (List.find _ _) as [m |] eqn:Hf; [| reflexivity].
    apply List.find_some in Hf. destruct Hf as [Hin Heq].
    apply String.eqb_eq in Heq. exfalso. apply Hnot. rewrite <- Heq.
    apply in_map. apply in_rev. exact Hin.
Qed.

(** X14 (CalculatedFieldRegistry): [get_all] lists every registered key once,
    in the order in which the keys were registered first: a registration
    under a known key does not move it. *)
Theorem get_all_keys_in_first_registration_order (ms : list calc_metadata) :
  dict_keys (CalculatedFieldRegistry.get_all (register_each ms))
  = PyDate.first_occurrences (map cm_key ms)
  /\ List.NoDup (dict_keys (CalculatedFieldRegistry.get_all (register_each ms))).
Proof.
  unfold CalculatedFieldRegistry.get_all. rewrite register_each_keys.
  split; [reflexivity | apply first_occurrences_NoDup].
Qed.

Lemma filter_own_key {A} (key : A -> Z) (x : A) (l : list A) :
  List.filter (has_key key (key x)) (x :: l)
  = x :: List.filter (has_key key (key x)) l.
Proof. cbn [List.filter]. unfold has_key at 1. rewrite Z.eqb_refl. reflexivity. Qed.

Lemma in_of_filter_head {A} (f : A -> bool) (x : A) (l l' : list A) :
  List.filter f l = x :: l' -> In x l.
Proof.
  intros H. assert (Hin : In x (List.filter f l)) by (rewrite H; left; reflexivity).
  apply filter_In in Hin. tauto.
Qed.

(** Two lists in ascending order of the key that agree key by key are
    equal. *)
Lemma sorted_filter_unique {A} (key : A -> Z) (l1 l2 : list A) :
  StronglySorted (key_le key) l1 -> StronglySorted (key_le key) l2 ->
  (forall o, List.filter (has_key key o) l1 = List.filter (has_key key o) l2) ->
  l1 = l2.
Proof.
  intros H1. revert l2. induction H1 as [| x l1 Hs1 IH Hall1]; intros l2 H2 Hf.
  - destruct l2 as [| y l2]; [reflexivity |].
    specialize (Hf (key y)). rewrite filter_own_key in Hf. discriminate.
  - destruct l2 as [| y l2].
    + specialize (Hf (key x)). rewrite filter_own_key in Hf. discriminate.
    + inversion H2 as [| ? ? Hs2 Hall2]; subst.
      assert (Hx : In x (y :: l2)).
      { pose proof (Hf (key x)) as Hk. rewrite filter_own_key in Hk.
        symmetry in Hk. eapply in_of_filter_head; eauto. }
      assert (Hy : In y (x :: l1)).
      { pose proof (Hf (key y)) as Hk. rewrite (filter_own_key key y) in Hk.
        eapply in_of_filter_head; eauto. }
      assert (Hxy : key x = key y).
      { rewrite List.Forall_forall in Hall1, Hall2. unfold key_le in *.
        destruct Hx as [-> | Hx]; [reflexivity |].
        destruct Hy as [-> | Hy]; [reflexivity |].
        specialize (Hall1 _ Hy). specialize (Hall2 _ Hx). lia. }
      assert (Heq : x = y).
      { pose proof (Hf (key x)) as Hk. rewrite filter_own_key in Hk.
        rewrite Hxy in Hk. rewrite filter_own_key in Hk. congruence. }
      subst y. f_equal. apply IH; [exact Hs2 |].
      intros o. specialize (Hf o). cbn [List.filter] in Hf.
      destruct (has_key key o x); congruence.
Qed.

Lemma register_all_sort (steps : list step_def) :
  WorkflowStepRegistry.register_all steps = stable_sort (key_lt sd_order) steps.
Proof.
  assert (Hs : StronglySorted (key_le sd_order) (WorkflowStepRegistry.register_all steps)
               /\ forall o, List.filter (has_key sd_order o)
                                        (WorkflowStepRegistry.register_all steps)
                            = List.filter (has_key sd_order o) steps).
  { induction steps as [| step steps IH] using List.rev_ind.
    - split; [constructor | reflexivity].
    - destruct IH as [_ IH]. rewrite RegistryFacts.register_all_snoc.
      split; [apply RegistryFacts.register_sorted |].
      intros o. rewrite RegistryFacts.register_filter, IH, List.filter_app. reflexivity. }
  destruct Hs as [Hsorted Hfilter].
  apply (sorted_filter_unique sd_order); [exact Hsorted | apply stable_sort_sorted |].
  intros o. rewrite Hfilter, stable_sort_filter. reflexivity.
Qed.

(** X15 (WorkflowStepRegistry): registering the steps one after the other
    gives the list that one stable sort of all of them by [order] gives, with
    as many entries as there were registrations. *)
Theorem register_all_is_one_sort (steps : list step_def) :
  WorkflowStepRegistry.get_all (WorkflowStepRegistry.register_all steps)
  = stable_sort (key_lt sd_order) steps
  /\ List.length (WorkflowStepRegistry.get_all (WorkflowStepRegistry.register_all steps))
     = List.length steps.
Proof.
  unfold WorkflowStepRegistry.get_all. rewrite register_all_sort.
  split; [reflexivity |]. apply Permutation_length. apply stable_sort_perm.
Qed.

End RegistryMore.

(** ** More on the form generator *)

Module StringOrder.

Lemma ascii_compare_refl (a : ascii) : Ascii.compare a a = Eq.
Proof. unfold Ascii.compare. apply N.compare_refl. Qed.

Lemma ascii_compare_lt_trans (a b c : ascii) :
  Ascii.compare a b = Lt -> Ascii.compare b c = Lt -> Ascii.compare a c = Lt.
Proof.
  unfold Ascii.compare. rewrite !N.compare_lt_iff. apply N.lt_trans.
Qed.

Lemma compare_refl (s : string) : String.compare s s = Eq.
Proof.
  induction s as [| a s IH]; simpl; [reflexivity |].
  rewrite ascii_compare_refl. exact IH.
Qed.

Lemma compare_lt_trans (a b c : string) :
  String.compare a b = Lt -> String.compare b c = Lt -> String.compare a c = Lt.
Proof.
  revert b c. induction a as [| x a IH]; intros [| y b] [| z c]; simpl;
    try discriminate; try reflexivity.
  destruct (Ascii.compare x y) eqn:Hxy; try discriminate;
    destruct (Ascii.compare y z) eqn:Hyz; try discriminate; intros H1 H2.
  - apply Ascii.compare_eq_iff in Hxy, Hyz. subst. rewrite ascii_compare_refl.
    eapply IH; eauto.
  - apply Ascii.compare_eq_iff in Hxy. subst. rewrite Hyz. reflexivity.
  - apply Ascii.compare_eq_iff in Hyz. subst. rewrite Hxy. reflexivity.
  - rewrite (ascii_compare_lt_trans _ _ _ Hxy Hyz). reflexivity.
Qed.

Lemma ltb_irrefl (s : string) : String.ltb s s = false.
Proof. unfold String.ltb. rewrite compare_refl. reflexivity. Qed.

Lemma ltb_asym (a b : string) : String.ltb a b = true -> String.ltb b a = false.
Proof.
  unfold String.ltb. rewrite (String.compare_antisym a b).
  destruct (String.compare b a); simpl; intros H; (reflexivity || discriminate).
Qed.

Lemma ltb_trans (a b c : string) :
  String.ltb a b = true -> String.ltb b c = true -> String.ltb a c = true.
Proof.
  unfold String.ltb.
  destruct (String.compare a b) eqn:H1; try discriminate.
  destruct (String.compare b c) eqn:H2; try discriminate.
  rewrite (compare_lt_trans _ _ _ H1 H2). reflexivity.
Qed.

(** Two strings are equal or one is before the other. *)
Lemma ltb_total (a b : string) :
  String.ltb a b = true \/ a = b \/ String.ltb b a = true.
Proof.
  unfold String.ltb. rewrite (String.compare_antisym b a).
  destruct (String.compare a b) eqn:H; simpl; auto.
  right. left. apply String.compare_eq_iff. exact H.
Qed.

End StringOrder.

Module PySortMore.
Import PySort.

Section StrictOrder.
Context {A : Type}.
Variable lt : A -> A -> bool.
Hypothesis lt_asym : forall x y, lt x y = true -> lt y x = false.
Hypothesis lt_negtrans : forall x y z, lt y x = false -> lt z y = false -> lt z x = false.

Lemma insert_sorted_Forall_gen (P : A -> Prop) (x : A) (l : list A) :
  P x -> List.Forall P l -> List.Forall P (insert_sorted lt x l).
Proof.
  intros Hx Hl. induction Hl as [| y l Hy Hl IH]; simpl.
  - constructor; [exact Hx | constructor].
  - destruct (lt y x); repeat constructor; auto.
Qed.

Lemma insert_sorted_sorted_gen (x : A) (l : list A) :
  StronglySorted (fun a b => lt b a = false) l ->
  StronglySorted (fun a b => lt b a = false) (insert_sorted lt x l).
Proof.
  induction 1 as [| y l Hs IH Hall]; simpl.
  - repeat constructor.
  - destruct (lt y x) eqn:Hyx.
    + constructor; [exact IH |].
      apply insert_sorted_Forall_gen; [| exact Hall].
      cbn beta. apply lt_asym. exact Hyx.
    + constructor; [constructor; assumption |].
      constructor; [exact Hyx |].
      eapply List.Forall_impl; [| exact Hall].
      cbn beta. intros z Hz. eapply lt_negtrans; eauto.
Qed.

Lemma stable_sort_sorted_gen (l : list A) :
  StronglySorted (fun a b => lt b a = false) (stable_sort lt l).
Proof.
  induction l as [| x l IH]; simpl; [constructor |].
  apply insert_sorted_sorted_gen. exact IH.
Qed.

(** A class [f] of elements none of which is before another is left in
    place. *)
Lemma insert_sorted_filter_gen (f : A -> bool) (x : A) (l : list A) :
  (forall a b, f a = true -> f b = true -> lt a b = false) ->
  List.filter f (insert_sorted lt x l) = List.filter f (x :: l).
Proof.
  intros Hf. induction l as [| y l IH]; simpl; [reflexivity |].
  destruct (lt y x) eqn:Hyx; [| reflexivity].
  simpl. rewrite IH. simpl.
  destruct (f y) eqn:Hy, (f x) eqn:Hx; try reflexivity.
  rewrite (Hf y x Hy Hx) in Hyx. discriminate.
Qed.

Lemma stable_sort_filter_gen (f : A -> bool) (l : list A) :
  (forall a b, f a = true -> f b = true -> lt a b = false) ->
  List.filter f (stable_sort lt l) = List.filter f l.
Proof.
  intros Hf. induction l as [| x l IH]; simpl; [reflexivity |].
  rewrite insert_sorted_filter_gen by exact Hf. simpl. rewrite IH. reflexivity.
Qed.
End StrictOrder.

End PySortMore.

Module GeneratorMore.
Import EnhancedFormGenerator MoreWords PyDictFacts PyDictMore PySortFacts PySortMore.

Lemma by_group_order_asym (x y : field_def) :
  by_group_order x y = true -> by_group_order y x = false.
Proof.
  unfold by_group_order. intros H.
  apply orb_true_iff in H. destruct H as [H | H].
  - rewrite (StringOrder.ltb_asym _ _ H). cbn.
    destruct (String.eqb_spec (fd_group y) (fd_group x)) as [Heq | _]; [| reflexivity].
    rewrite Heq, StringOrder.ltb_irrefl in H. discriminate.
  - apply andb_true_iff in H. destruct H as [Hg Ho].
    apply String.eqb_eq in Hg. apply Z.ltb_lt in Ho.
    rewrite Hg, StringOrder.ltb_irrefl, String.eqb_refl. cbn. apply Z.ltb_ge. lia.
Qed.

Lemma by_group_order_false (x y : field_def) :
  by_group_order y x = false
  <-> String.ltb (fd_group x) (fd_group y) = true
      \/ (fd_group x = fd_group y /\ fd_order x <= fd_order y).
Proof.
  unfold by_group_order. rewrite orb_false_iff, andb_false_iff, Z.ltb_ge.
  destruct (StringOrder.ltb_total (fd_group x) (fd_group y)) as [H | [H | H]].
  - rewrite (StringOrder.ltb_asym _ _ H). split; [auto |]. intros _. split; [reflexivity |].
    left. apply String.eqb_neq. intros Heq. rewrite Heq, StringOrder.ltb_irrefl in H.
    discriminate.
  - rewrite H, StringOrder.ltb_irrefl, String.eqb_refl. split.
    + intros [_ [Hd | Ho]]; [discriminate | auto].
    + intros [Hd | [_ Ho]]; [discriminate | auto].
  - rewrite H. split; [intros [Hd _]; discriminate |].
    intros [Hlt | [Heq _]].
    + rewrite (StringOrder.ltb_asym _ _ Hlt) in H. discriminate.
    + rewrite Heq, StringOrder.ltb_irrefl in H. discriminate.
Qed.

Lemma by_group_order_negtrans (x y z : field_def) :
  by_group_order y x = false -> by_group_order z y = false -> by_group_order z x = false.
Proof.
  rewrite !by_group_order_false.
  intros [H1 | [H1 H1']] [H2 | [H2 H2']].
  - left. eapply StringOrder.ltb_trans; eauto.
  - left. rewrite <- H2. exact H1.
  - left. rewrite H1. exact H2.
  - right. split; [congruence | lia].
Qed.

Lemma extract_sorted (self : generator) :
  StronglySorted
    (fun x y => String.ltb (fd_group x) (fd_group y) = true
                \/ (fd_group x = fd_group y /\ fd_order x <= fd_order y))
    (extract_input_fields self).
Proof.
  pose proof (stable_sort_sorted_gen by_group_order by_group_order_asym
                by_group_order_negtrans
                (map (field_def_of self) (dc_fields (input_dataclass self)))) as Hs.
  fold (extract_input_fields self) in Hs.
  induction Hs as [| x l Hs IH Hall]; constructor; [exact IH |].
  eapply List.Forall_impl; [| exact Hall].
  intros y Hy. apply by_group_order_false. exact Hy.
Qed.

(** X16 (extract_input_fields): the definitions come out in ascending order
    of the group name, within a group in ascending [order], and the
    definitions of one group and one [order] keep the order in which the
    attributes are declared. *)
Theorem extract_input_fields_sorted (self : generator) :
  StronglySorted
    (fun x y => String.ltb (fd_group x) (fd_group y) = true
                \/ (fd_group x = fd_group y /\ fd_order x <= fd_order y))
    (extract_input_fields self)
  /\ forall g o,
       List.filter (has_group_order g o) (extract_input_fields self)
       = List.filter (has_group_order g o)
                     (map (field_def_of self) (dc_fields (input_dataclass self))).
Proof.
  split; [apply extract_sorted |].
  intros g o. apply stable_sort_filter_gen.
  intros a b Ha Hb. unfold has_group_order in Ha, Hb.
  apply andb_true_iff in Ha, Hb. destruct Ha as [Hga Hoa], Hb as [Hgb Hob].
  apply String.eqb_eq in Hga, Hgb. apply Z.eqb_eq in Hoa, Hob.
  unfold by_group_order. rewrite Hga, Hgb, Hoa, Hob.
  rewrite StringOrder.ltb_irrefl, String.eqb_refl, Z.ltb_irrefl. reflexivity.
Qed.

Lemma extract_length (self : generator) :
  List.length (extract_input_fields self) = List.length (dc_fields (input_dataclass self)).
Proof.
  unfold extract_input_fields.
  rewrite (Permutation_length (stable_sort_perm by_group_order _)). apply List.length_map.
Qed.

(** X17 (extract_input_fields): there is one definition for each attribute:
    the ids are the attribute names, none lost and none twice, only in
    another order. *)
Theorem extract_input_fields_ids (self : generator) :
  Permutation (map fd_id (extract_input_fields self))
              (map f_name (dc_fields (input_dataclass self)))
  /\ List.length (extract_input_fields self)
     = List.length (dc_fields (input_dataclass self))
  /\ forall fd, In fd (extract_input_fields self) -> fd_field_type fd = "input".
Proof.
  pose proof (stable_sort_perm by_group_order
                (map (field_def_of self) (dc_fields (input_dataclass self)))) as Hp.
  fold (extract_input_fields self) in Hp.
  split; [| split].
  - rewrite Hp, List.map_map. reflexivity.
  - apply extract_length.
  - intros fd Hin. apply (Permutation_in _ Hp) in Hin. apply in_map_iff in Hin.
    destruct Hin as (f & <- & _). reflexivity.
Qed.

(** *** Groups *)

Lemma group_fields_snoc (fs : list field_def) (x : field_def) :
  group_fields (fs ++ [x])
  = dict_set (fd_group x) (default [] (dict_get (fd_group x) (group_fields fs)) ++ [x])%list
             (group_fields fs).
Proof.
  unfold group_fields. rewrite List.fold_left_app. cbn [fold_left].
  fold (group_fields fs).
  destruct (dict_get (fd_group x) (group_fields fs)) as [l |] eqn:Hd.
  - rewrite Hd. reflexivity.
  - rewrite dict_get_set_eq. cbn. apply dict_set_set.
Qed.

Lemma group_fields_get (fs : list field_def) (g : string) :
  dict_get g (group_fields fs)
  = if existsb (in_group g) fs then Some (List.filter (in_group g) fs) else None.
Proof.
  induction fs as [| x fs IH] using List.rev_ind; [reflexivity |].
  rewrite group_fields_snoc, List.existsb_app, List.filter_app. cbn [existsb List.filter].
  rewrite orb_false_r. unfold in_group at 2 4.
  destruct (String.eqb_spec (fd_group x) g) as [<- | Hne].
  - rewrite dict_get_set_eq, IH, orb_true_r.
    destruct (existsb (in_group (fd_group x)) fs) eqn:He; cbn; [reflexivity |].
    f_equal. f_equal. symmetry.
    clear IH. induction fs as [| y fs IHfs]; [reflexivity |].
    cbn in He |- *. apply orb_false_iff in He. destruct He as [Hy He].
    rewrite Hy. apply IHfs. exact He.
  - rewrite dict_get_set_ne by exact Hne. rewrite IH, orb_false_r, List.app_nil_r.
    reflexivity.
Qed.

Lemma group_fields_keys (fs : list field_def) :
  dict_keys (group_fields fs) = PyDate.first_occurrences (map fd_group fs).
Proof.
  induction fs as [| x fs IH] using List.rev_ind; [reflexivity |].
  rewrite group_fields_snoc, List.map_app. cbn [map].
  rewrite dict_keys_set, first_occurrences_snoc, IH, existsb_first_occurrences.
  reflexivity.
Qed.

(** X18 (generate_complete_schema, groups): the entry of a group holds
    exactly the input fields of that group, in their order in the list; a
    group without fields has no entry; and the groups stand in the order in
    which they first occur in the list, each once. *)
Theorem groups_partition_input_fields (fs : list field_def) :
  (forall g, dict_get g (group_fields fs)
             = if existsb (in_group g) fs then Some (List.filter (in_group g) fs) else None)
  /\ dict_keys (group_fields fs) = PyDate.first_occurrences (map fd_group fs)
  /\ List.NoDup (dict_keys (group_fields fs))
  /\ forall g l, dict_get g (group_fields fs) = Some l -> l <> [].
Proof.
  split; [apply group_fields_get |]. split; [apply group_fields_keys |].
  split; [rewrite group_fields_keys; apply first_occurrences_NoDup |].
  intros g l. rewrite group_fields_get.
  destruct (existsb (in_group g) fs) eqn:He; [| discriminate].
  intros [= <-]. apply existsb_exists in He. destruct He as (x & Hx & Hg).
  intros Hnil. assert (Hin : In x (List.filter (in_group g) fs)).
  { apply filter_In. auto. }
  rewrite Hnil in Hin. contradiction.
Qed.

(** *** The catalogue of validation rules *)

Lemma implementations_of (rules : list string) :
  List.NoDup rules ->
  let d := fold_left (fun d rule => dict_set rule ("ValidationRule." ++ rule) d) rules [] in
  dict_keys d = rules
  /\ forall r, dict_get r d = if existsb (String.eqb r) rules
                              then Some ("ValidationRule." ++ r) else None.
Proof.
  induction rules as [| x rules IH] using List.rev_ind; intros Hnd d.
  - split; [reflexivity | intros r; reflexivity].
  - apply List.NoDup_remove in Hnd. rewrite List.app_nil_r in Hnd.
    destruct Hnd as [Hnd Hnot]. specialize (IH Hnd). cbv zeta in IH.
    destruct IH as [IHk IHg]. subst d. rewrite List.fold_left_app. cbn [fold_left].
    split.
    + rewrite dict_keys_set, IHk.
      destruct (existsb (String.eqb x) rules) eqn:He; [| reflexivity].
      apply existsb_eqb_in in He. contradiction.
    + intros r. rewrite List.existsb_app. cbn [existsb]. rewrite orb_false_r.
      destruct (String.eqb_spec r x) as [-> | Hne].
      * rewrite dict_get_set_eq, orb_true_r. reflexivity.
      * rewrite dict_get_set_ne by congruence. rewrite IHg, orb_false_r. reflexivity.
Qed.

(** X19 (_extract_validation_rules): when a set iterates over each of its
    elements once, the catalogue lists each rule name used by some field
    once and no other name, and the implementations have exactly these
    names as keys, each mapped to "ValidationRule." followed by the name. *)
Theorem validation_rules_catalogue (E : PyEnv) (fields_list : list field_def) :
  set_iter_ok E ->
  let catalogue := _extract_validation_rules E fields_list in
  List.NoDup (vr_rules catalogue)
  /\ (forall r, In r (vr_rules catalogue)
                <-> exists fd, In fd fields_list /\ In r (fd_validation fd))
  /\ dict_keys (vr_implementations catalogue) = vr_rules catalogue
  /\ (forall r, In r (vr_rules catalogue) ->
                dict_get r (vr_implementations catalogue) = Some ("ValidationRule." ++ r))
  /\ (forall r, ~ In r (vr_rules catalogue) ->
                dict_get r (vr_implementations catalogue) = None).
Proof.
  intros Hok catalogue. unfold catalogue, _extract_validation_rules.
  cbn [vr_rules vr_implementations].
  destruct (Hok (concat (map fd_validation fields_list))) as [Hnd Hin].
  destruct (implementations_of _ Hnd) as [Hk Hg].
  split; [exact Hnd |]. split; [| split; [exact Hk | split]].
  - intros r. rewrite Hin, in_concat. split.
    + intros (l & Hl & Hr). apply in_map_iff in Hl. destruct Hl as (fd & <- & Hfd). eauto.
    + intros (fd & Hfd & Hr). exists (fd_validation fd). split; [| exact Hr].
      apply in_map. exact Hfd.
  - intros r Hr. rewrite Hg. apply existsb_eqb_in in Hr. rewrite Hr. reflexivity.
  - intros r Hr. rewrite Hg.
    destruct (existsb (String.eqb r) _) eqn:He; [| reflexivity].
    apply existsb_eqb_in in He. contradiction.
Qed.

Lemma set_iter_ok_env_2026 : set_iter_ok PyDate.env_2026.
Proof.
  intros l. split; [apply first_occurrences_NoDup | intros x; apply first_occurrences_in].
Qed.

Lemma validation_rules_catalogue_witness :
  vr_rules (_extract_validation_rules PyDate.env_2026
              (extract_input_fields (new Samples.Formular None))) = ["required"]
  /\ dict_get "required"
       (vr_implementations (_extract_validation_rules PyDate.env_2026
                              (extract_input_fields (new Samples.Formular None))))
     = Some "ValidationRule.required".
Proof.
  destruct (validation_rules_catalogue PyDate.env_2026
              (extract_input_fields (new Samples.Formular None)) set_iter_ok_env_2026)
    as (_ & _ & _ & Hget & _).
  split; [reflexivity |]. apply Hget. left. reflexivity.
Defined.

(** *** The configuration *)

Lemma config_dict_snoc (d : pydict pyval) (k : string) (v : pyval) :
  config_dict_of (Some (d ++ [(k, v)])%list)
  = dict_set k (render_config_value v) (config_dict_of (Some d)).
Proof. unfold config_dict_of. rewrite List.fold_left_app. reflexivity. Qed.

Lemma config_dict_get (d : pydict pyval) (k : string) :
  dict_get k (config_dict_of (Some d)) = option_map render_config_value (last_assigned k d).
Proof.
  unfold last_assigned. induction d as [| [k' v'] d IH] using List.rev_ind; [reflexivity |].
  rewrite config_dict_snoc, List.rev_unit. cbn [dict_get].
  destruct (String.eqb_spec k' k) as [<- | Hne].
  - apply dict_get_set_eq.
  - rewrite dict_get_set_ne by exact Hne. exact IH.
Qed.

(** X20 (generate_complete_schema, config): every attribute of the
    configuration appears under its name with its last value, a date
    rendered as its ISO string and any other value unchanged, so that no
    date is left in the configuration of the schema; without a configuration
    the dictionary is empty. *)
Theorem config_dict_has_no_dates (config : option (pydict pyval)) (k : string) :
  (forall d, config = Some d ->
             dict_get k (config_dict_of config)
             = option_map render_config_value (last_assigned k d))
  /\ (forall v, dict_get k (config_dict_of config) = Some v -> forall x, v <> VDate x)
  /\ (config = None -> config_dict_of config = []).
Proof.
  split; [| split].
  - intros d ->. apply config_dict_get.
  - destruct config as [d |]; [| discriminate].
    rewrite config_dict_get. destruct (last_assigned k d) as [v0 |]; [| discriminate].
    cbn. intros v [= <-] x. destruct v0; discriminate.
  - intros ->. reflexivity.
Qed.

Lemma config_dict_has_no_dates_witness :
  dict_get "stichtag"
    (config_dict_of (Some [("name", VStr "Muster"); ("stichtag", VDate (mkdate 2003 1 1))]))
  = Some (VStr "2003-01-01").
Proof.
  apply (proj1 (config_dict_has_no_dates
                  (Some [("name", VStr "Muster"); ("stichtag", VDate (mkdate 2003 1 1))])
                  "stichtag")
               [("name", VStr "Muster"); ("stichtag", VDate (mkdate 2003 1 1))]).
  reflexivity.
Defined.

(** *** Inference *)

(** X21 (_infer_ui_type): the inferred type is one of "text", "number",
    "checkbox" and "date" (never "select"); the [Optional] of a type that is
    no union itself is inferred as that type, in either order of the two
    arguments; and a union of nothing but [None] falls back to "text". *)
Theorem infer_ui_type_unwraps_optional :
  (forall t, In (_infer_ui_type t) ["text"; "number"; "checkbox"; "date"])
  /\ (forall t, is_none_type t = false -> (forall args, t <> TUnion args) ->
                _infer_ui_type (TUnion [t; TNoneType]) = _infer_ui_type t
                /\ _infer_ui_type (TUnion [TNoneType; t]) = _infer_ui_type t)
  /\ (forall args, forallb is_none_type args = true ->
                   _infer_ui_type (TUnion args) = "text").
Proof.
  split; [| split].
  - intros t. unfold _infer_ui_type. destruct t; cbn; auto 6.
    destruct (List.filter _ args) as [| [] ?]; cbn; auto 6.
  - intros t Hn Hu. destruct t; cbn in *; try discriminate; auto.
    exfalso. eapply Hu. reflexivity.
  - intros args Hall. unfold _infer_ui_type.
    assert (Hf : List.filter (fun arg => negb (is_none_type arg)) args = []).
    { induction args as [| a args IH]; [reflexivity |].
      cbn in Hall |- *. apply andb_true_iff in Hall. destruct Hall as [Ha Hall].
      rewrite Ha. cbn. apply IH. exact Hall. }
    rewrite Hf. reflexivity.
Qed.

Lemma infer_ui_type_unwraps_optional_witness :
  _infer_ui_type (TUnion [TFloat; TNoneType]) = "number"
  /\ _infer_ui_type (TUnion [TNoneType; TBool]) = "checkbox".
Proof.
  split.
  - apply (proj1 (proj2 infer_ui_type_unwraps_optional) TFloat); [reflexivity |].
    intros args. discriminate.
  - apply (proj1 (proj2 infer_ui_type_unwraps_optional) TBool); [reflexivity |].
    intros args. discriminate.
Defined.

Lemma case_keeps_underscore_out (c : ascii) :
  c <> "_"%char -> PyStr.to_upper c <> "_"%char /\ PyStr.to_lower c <> "_"%char.
Proof.
  destruct c as [[] [] [] [] [] [] [] []]; vm_compute; intros H; split; congruence.
Qed.

Lemma title_from_length (b : bool) (s : string) :
  String.length (PyStr.title_from b s) = String.length s.
Proof.
  revert b. induction s as [| c s IH]; intros b; cbn; [reflexivity |].
  destruct (PyStr.is_lower c); [cbn; rewrite IH; reflexivity |].
  destruct (PyStr.is_upper c); cbn; rewrite IH; reflexivity.
Qed.

Lemma title_from_no_underscore (b : bool) (s : string) :
  ~ In "_"%char (list_ascii_of_string s) ->
  ~ In "_"%char (list_ascii_of_string (PyStr.title_from b s)).
Proof.
  revert b. induction s as [| c s IH]; intros b; cbn; [tauto |].
  intros Hn. assert (Hc : c <> "_"%char) by (intros ->; apply Hn; left; reflexivity).
  assert (Hs : ~ In "_"%char (list_ascii_of_string s)) by tauto.
  destruct (case_keeps_underscore_out c Hc) as [Hu Hl].
  destruct (PyStr.is_lower c); [| destruct (PyStr.is_upper c)]; cbn;
    intros [Heq | Hin];
    try (eapply IH; [exact Hs | exact Hin]);
    destruct b; congruence.
Qed.

Lemma replace_no_underscore (s : string) :
  ~ In "_"%char (list_ascii_of_string (PyStr.replace_char "_" " " s)).
Proof.
  induction s as [| c s IH]; cbn; [tauto |].
  intros [Heq | Hin]; [| tauto].
  destruct (Ascii.eqb_spec c "_"); [discriminate | congruence].
Qed.

Lemma replace_length (a b : ascii) (s : string) :
  String.length (PyStr.replace_char a b s) = String.length s.
Proof. induction s as [| c s IH]; cbn; [reflexivity | rewrite IH; reflexivity]. Qed.

(** X22 (_infer_label): for an attribute name of ASCII characters the
    inferred label contains no underscore and has the length of the name. *)
Theorem infer_label_has_no_underscore (field_name : string) :
  PyStr.isascii field_name = true ->
  ~ In "_"%char (list_ascii_of_string (_infer_label field_name))
  /\ String.length (_infer_label field_name) = String.length field_name.
Proof.
  intros _. unfold _infer_label, PyStr.title. split.
  - apply title_from_no_underscore. apply replace_no_underscore.
  - rewrite title_from_length. apply replace_length.
Qed.

Lemma infer_label_has_no_underscore_witness :
  ~ In "_"%char (list_ascii_of_string (_infer_label "austritts_datum"))
  /\ String.length (_infer_label "austritts_datum") = String.length "austritts_datum".
Proof.
  apply (infer_label_has_no_underscore "austritts_datum"). reflexivity.
Defined.

(** *** Reading the groups in order *)

Lemma dict_get_of_entry {V} (d : pydict V) (k : string) (v : V) :
  List.NoDup (dict_keys d) -> In (k, v) d -> dict_get k d = Some v.
Proof.
  unfold dict_keys. induction d as [| [k' v'] d IH]; cbn; intros Hnd Hin; [contradiction |].
  inversion Hnd as [| ? ? Hnot Hnd']; subst.
  destruct Hin as [[= -> ->] | Hin].
  - rewrite String.eqb_refl. reflexivity.
  - destruct (String.eqb_spec k' k) as [-> | Hne]; [| auto].
    exfalso. apply Hnot. apply (in_map fst) in Hin. exact Hin.
Qed.

Lemma dict_values_by_keys {V} (d : pydict (list V)) :
  List.NoDup (dict_keys d) ->
  dict_values d = map (fun k => default [] (dict_get k d)) (dict_keys d).
Proof.
  intros Hnd. unfold dict_values, dict_keys. rewrite List.map_map.
  apply List.map_ext_in. intros [k v] Hin. cbn [fst snd].
  rewrite (dict_get_of_entry d k v Hnd Hin). reflexivity.
Qed.

(** The fields group by group, the groups in the order of first
    occurrence. *)
Lemma groups_in_order (fs : list field_def) :
  concat (dict_values (group_fields fs))
  = concat (map (fun g => List.filter (in_group g) fs)
                (PyDate.first_occurrences (map fd_group fs))).
Proof.
  rewrite dict_values_by_keys
    by (rewrite group_fields_keys; apply first_occurrences_NoDup).
  rewrite group_fields_keys. f_equal. apply List.map_ext_in. intros g Hg.
  rewrite group_fields_get.
  apply (proj1 (first_occurrences_in _ _)) in Hg. apply in_map_iff in Hg. destruct Hg as (x & Hx & Hin).
  assert (He : existsb (in_group g) fs = true).
  { apply existsb_exists. exists x. split; [exact Hin |].
    unfold in_group. rewrite Hx. apply String.eqb_refl. }
  rewrite He. reflexivity.
Qed.

Lemma first_occurrences_filter (p : string -> bool) (l : list string) :
  List.filter p (PyDate.first_occurrences l) = PyDate.first_occurrences (List.filter p l).
Proof.
  induction l as [| y l IH]; [reflexivity |].
  cbn [PyDate.first_occurrences List.filter].
  destruct (p y) eqn:Hp.
  - cbn [PyDate.first_occurrences]. f_equal. rewrite <- IH.
    clear IH. induction (PyDate.first_occurrences l) as [| z zs IHz]; [reflexivity |].
    cbn. destruct (String.eqb y z) eqn:Hyz; cbn.
    + destruct (p z) eqn:Hpz; cbn; [rewrite Hyz; cbn |]; exact IHz.
    + destruct (p z) eqn:Hpz; cbn; [rewrite Hyz; cbn; f_equal |]; exact IHz.
  - rewrite <- IH. clear IH.
    induction (PyDate.first_occurrences l) as [| z zs IHz]; [reflexivity |].
    cbn. destruct (String.eqb_spec y z) as [<- | Hne]; cbn.
    + rewrite Hp. exact IHz.
    + destruct (p z); [f_equal |]; exact IHz.
Qed.

Lemma filter_filter_in_group (g h : string) (fs : list field_def) :
  g <> h ->
  List.filter (in_group g) (List.filter (fun fd => negb (in_group h fd)) fs)
  = List.filter (in_group g) fs.
Proof.
  intros Hne. induction fs as [| x fs IH]; [reflexivity |].
  cbn [List.filter].
  destruct (in_group h x) eqn:Hh, (in_group g x) eqn:Hg; cbn [negb List.filter];
    rewrite ?Hg, ?IH; try reflexivity.
  unfold in_group in Hh, Hg. apply String.eqb_eq in Hh, Hg. congruence.
Qed.

Lemma groups_in_order_cons (x : field_def) (fs : list field_def) :
  concat (map (fun g => List.filter (in_group g) (x :: fs))
              (PyDate.first_occurrences (map fd_group (x :: fs))))
  = ((x :: List.filter (in_group (fd_group x)) fs)
     ++ concat (map (fun g => List.filter (in_group g)
                                          (List.filter (fun fd => negb (in_group (fd_group x) fd)) fs))
                    (PyDate.first_occurrences
                       (map fd_group
                            (List.filter (fun fd => negb (in_group (fd_group x) fd)) fs)))))%list.
Proof.
  cbn [map PyDate.first_occurrences concat List.filter].
  unfold in_group at 1. rewrite String.eqb_refl. f_equal.
  rewrite first_occurrences_filter. f_equal.
  assert (Hm : List.filter (fun y => negb (String.eqb (fd_group x) y)) (map fd_group fs)
               = map fd_group (List.filter (fun fd => negb (in_group (fd_group x) fd)) fs)).
  { clear. induction fs as [| y fs IH]; [reflexivity |].
    cbn. unfold in_group at 1. rewrite (String.eqb_sym (fd_group y) (fd_group x)).
    destruct (String.eqb (fd_group x) (fd_group y)); cbn; [| f_equal]; exact IH. }
  rewrite Hm. apply List.map_ext_in. intros g Hg.
  apply (proj1 (first_occurrences_in _ _)) in Hg. apply in_map_iff in Hg. destruct Hg as (y & Hy & Hin).
  apply filter_In in Hin. destruct Hin as [_ Hny].
  assert (Hne : g <> fd_group x).
  { intros ->. unfold in_group in Hny. rewrite Hy, String.eqb_refl in Hny. discriminate. }
  rewrite filter_filter_in_group by exact Hne.
  unfold in_group at 1. destruct (String.eqb_spec (fd_group x) g); [congruence | reflexivity].
Qed.

Lemma filter_none {A} (f : A -> bool) (l : list A) :
  List.Forall (fun z => f z = false) l ->
  List.filter f l = [] /\ List.filter (fun z => negb (f z)) l = l.
Proof.
  induction 1 as [| z l Hz Hl [IH1 IH2]]; [split; reflexivity |].
  cbn [List.filter]. rewrite Hz. cbn [negb]. rewrite IH1, IH2. split; reflexivity.
Qed.

(** The groups of a sorted list are runs. *)
Lemma sorted_run_first (x : field_def) (fs : list field_def) :
  StronglySorted (fun a b => String.ltb (fd_group a) (fd_group b) = true
                             \/ fd_group a = fd_group b) (x :: fs) ->
  fs = (List.filter (in_group (fd_group x)) fs
        ++ List.filter (fun fd => negb (in_group (fd_group x) fd)) fs)%list.
Proof.
  intros Hs. inversion Hs as [| ? ? Hs' Hall]; subst. clear Hs.
  induction Hs' as [| y fs Hs' IH Hally]; [reflexivity |].
  inversion Hall as [| ? ? Hxy Hall']; subst.
  cbn [List.filter]. destruct (in_group (fd_group x) y) eqn:Hy; cbn [negb].
  - rewrite <- List.app_comm_cons. f_equal. apply IH. exact Hall'.
  - assert (Hlt : String.ltb (fd_group x) (fd_group y) = true).
    { destruct Hxy as [H | H]; [exact H |].
      unfold in_group in Hy. rewrite H, String.eqb_refl in Hy. discriminate. }
    assert (Hnone : List.Forall (fun z => in_group (fd_group x) z = false) fs).
    { eapply List.Forall_impl; [| exact Hally]. cbn beta. intros z Hyz.
      unfold in_group. apply String.eqb_neq. intros Hzx.
      rewrite Hzx in Hyz. destruct Hyz as [Hyx | Hyx].
      - rewrite (StringOrder.ltb_asym _ _ Hlt) in Hyx. discriminate.
      - rewrite Hyx, StringOrder.ltb_irrefl in Hlt. discriminate. }
    destruct (filter_none _ _ Hnone) as [H1 H2]. rewrite H1, H2. reflexivity.
Qed.

Lemma sorted_filter {A} (R : A -> A -> Prop) (f : A -> bool) (l : list A) :
  StronglySorted R l -> StronglySorted R (List.filter f l).
Proof.
  induction 1 as [| x l Hs IH Hall]; cbn; [constructor |].
  destruct (f x); [| exact IH]. constructor; [exact IH |].
  rewrite List.Forall_forall in *. intros y Hy. apply filter_In in Hy. apply Hall. tauto.
Qed.

Lemma groups_in_order_sorted (n : nat) (fs : list field_def) :
  (List.length fs <= n)%nat ->
  StronglySorted (fun a b => String.ltb (fd_group a) (fd_group b) = true
                             \/ fd_group a = fd_group b) fs ->
  concat (map (fun g => List.filter (in_group g) fs)
              (PyDate.first_occurrences (map fd_group fs))) = fs.
Proof.
  revert fs. induction n as [| n IH]; intros fs Hlen Hs.
  - destruct fs; [reflexivity | cbn in Hlen; lia].
  - destruct fs as [| x fs]; [reflexivity |].
    rewrite groups_in_order_cons.
    rewrite IH.
    + rewrite <- List.app_comm_cons. f_equal. symmetry. apply sorted_run_first. exact Hs.
    + pose proof (List.filter_length_le (fun fd => negb (in_group (fd_group x) fd)) fs).
      cbn in Hlen. lia.
    + apply sorted_filter. inversion Hs; assumption.
Qed.

(** X23 (generate_complete_schema, groups): read group after group in the
    order of the dictionary, the groups of the extracted input fields give
    back the list of the input fields, element for element. *)
Theorem groups_in_order_are_input_fields (self : generator) :
  concat (dict_values (group_fields (extract_input_fields self)))
  = extract_input_fields self.
Proof.
  rewrite groups_in_order. apply (groups_in_order_sorted _ _ (Nat.le_refl _)).
  pose proof (extract_sorted self) as Hs.
  induction Hs as [| x l Hs IH Hall]; constructor; [exact IH |].
  eapply List.Forall_impl; [| exact Hall]. cbn beta. intros y [H | [H _]]; auto.
Qed.

(** *** The schema after registrations *)

Lemma dict_set_in {V} (k : string) (v : V) (d : pydict V) (e : string * V) :
  In e (dict_set k v d) -> e = (k, v) \/ In e d.
Proof.
  induction d as [| [k' v'] d IH]; cbn.
  - intros [<- | []]. left. reflexivity.
  - destruct (String.eqb_spec k' k) as [-> | Hne]; cbn.
    + intros [<- | Hin]; auto.
    + intros [<- | Hin]; auto. destruct (IH Hin); auto.
Qed.

Lemma register_each_entries (ms : list calc_metadata) (k : string) (m : calc_metadata) :
  In (k, m) (register_each ms) -> cm_key m = k /\ last_registered k ms = Some m.
Proof.
  intros Hin. split.
  - induction ms as [| m' ms IH] using List.rev_ind; [contradiction |].
    rewrite RegistryMore.register_each_snoc in Hin.
    unfold CalculatedFieldRegistry.register in Hin.
    apply dict_set_in in Hin. destruct Hin as [[= -> ->] | Hin]; [reflexivity | auto].
  - rewrite <- RegistryMore.register_each_get. apply dict_get_of_entry; [| exact Hin].
    rewrite RegistryMore.register_each_keys. apply first_occurrences_NoDup.
Qed.

(** X24 (generate_complete_schema after registrations): the schema lists one
    calculated field per registered key, in the order of the first
    registrations, each with the values registered last under that key, and
    the workflow steps in the order of one stable sort by [order]. *)
Theorem schema_reflects_registrations (E : PyEnv) (self : generator)
        (ms : list calc_metadata) (steps : list step_def) (now : PyDate.datetime) :
  let schema :=
    fst (generate_complete_schema E self
           (mk_world (register_each ms) (WorkflowStepRegistry.register_all steps) now)) in
  map cd_id (s_calculated_fields schema) = PyDate.first_occurrences (map cm_key ms)
  /\ (forall cd, In cd (s_calculated_fields schema) ->
                 exists m, last_registered (cd_id cd) ms = Some m
                           /\ cm_key m = cd_id cd
                           /\ cd = calc_field_def_of (cd_id cd, m))
  /\ s_workflow schema
     = map step_out_of (PySort.stable_sort (PySort.key_lt sd_order) steps)
  /\ List.length (s_all_fields schema)
     = (List.length (dc_fields (input_dataclass self))
        + List.length (PyDate.first_occurrences (map cm_key ms)))%nat.
Proof.
  cbv [generate_complete_schema bind ret extract_calculated_fields extract_workflow
       calculated_get_all workflow_get_all datetime_now fst snd w_fields w_steps w_clock
       s_calculated_fields s_workflow s_all_fields CalculatedFieldRegistry.get_all
       WorkflowStepRegistry.get_all].
  assert (Hids : map cd_id (map calc_field_def_of (register_each ms))
                 = PyDate.first_occurrences (map cm_key ms)).
  { rewrite List.map_map, <- RegistryMore.register_each_keys. unfold dict_keys.
    apply List.map_ext. intros [k m]. reflexivity. }
  split; [exact Hids |]. split; [| split].
  - intros cd Hin. apply in_map_iff in Hin. destruct Hin as ([k m] & <- & Hin).
    destruct (register_each_entries ms k m Hin) as [Hk Hlast].
    exists m. cbn. auto.
  - rewrite RegistryMore.register_all_sort. reflexivity.
  - rewrite List.length_app, !List.length_map.
    rewrite extract_length. f_equal.
    rewrite <- Hids, !List.length_map. reflexivity.
Qed.

End GeneratorMore.

(** ** More on the confirmation quorum *)

Module QuorumMore.
Import StreamlitApp MoreWords QuorumFacts.

(** X25 (confirmation block): an attempt changes no counter but that of its
    own field, and that one by one at most and only together with the flag
    of the subject; flags of other subjects or other fields are left as they
    are. *)
Theorem confirm_touches_one_counter (c : calc) (s : string) (st : session_state) :
  (forall c', calc_id c' <> calc_id c ->
              bestaetigt_of c' (confirm c s st) = bestaetigt_of c' st)
  /\ (forall c' s', s' <> s \/ calc_id c' <> calc_id c ->
                    ma_geprueft_of c' s' (confirm c s st) = ma_geprueft_of c' s' st)
  /\ (confirm c s st = st
      \/ (bestaetigt_of c (confirm c s st) = bestaetigt_of c st + 1
          /\ ma_geprueft_of c s st = false
          /\ ma_geprueft_of c s (confirm c s st) = true)).
Proof.
  destruct (confirm_cases c s st) as [-> | (Hlt & Hflag & ->)].
  - split; [reflexivity |]. split; [reflexivity | left; reflexivity].
  - split; [| split].
    + intros c' Hne. rewrite bestaetigt_record. rewrite decide_False by congruence.
      reflexivity.
    + intros c' s' Hne. rewrite geprueft_record.
      rewrite decide_False; [reflexivity |]. intros [H1 H2]. destruct Hne; congruence.
    + right. rewrite bestaetigt_record, geprueft_record.
      rewrite !decide_True by auto. auto.
Qed.

(** X26 (confirmation block): a counter that is not above its threshold
    never gets above it, as long as the field is always presented with the
    same threshold; from the empty session a counter thus stays between 0
    and the threshold. *)
Theorem count_never_overshoots (ops : list (string * calc)) (st : session_state)
        (c : calc) :
  (forall op, In op ops -> calc_id (snd op) = calc_id c ->
              threshold_of (snd op) = threshold_of c) ->
  bestaetigt_of c st <= Z.max 0 (threshold_of c) ->
  bestaetigt_of c (confirm_all ops st) <= Z.max 0 (threshold_of c).
Proof.
  revert st. induction ops as [| [s' c'] ops IH]; intros st Hthr Hle; [exact Hle |].
  cbn [confirm_all fold_left fst snd]. apply IH.
  - intros op Hin. apply Hthr. right. exact Hin.
  - destruct (confirm_cases c' s' st) as [-> | (Hlt & _ & ->)]; [exact Hle |].
    rewrite bestaetigt_record.
    destruct (decide (calc_id c' = calc_id c)) as [Hid | _]; [| exact Hle].
    specialize (Hthr (s', c') (or_introl eq_refl) Hid). cbn in Hthr. lia.
Qed.

Lemma count_never_overshoots_witness :
  bestaetigt_of Samples.dienstzeit
    (confirm_all [("a", Samples.dienstzeit); ("b", Samples.dienstzeit);
                  ("c", Samples.dienstzeit); ("d", Samples.dienstzeit);
                  ("e", Samples.dienstzeit)] initial_session)
  <= Z.max 0 (threshold_of Samples.dienstzeit).
Proof.
  apply count_never_overshoots.
  - intros op Hin _. cbn in Hin.
    repeat (destruct Hin as [<- | Hin]; [reflexivity |]). contradiction.
  - vm_compute. discriminate.
Defined.

(** *** The counter counts the subjects *)

Lemma contributors_record_same (c : calc) (s : string) (st : session_state) :
  ma_geprueft_of c s st = false ->
  size (contributors (calc_id c) (record_confirmation c s st))
  = S (size (contributors (calc_id c) st)).
Proof.
  intros Hflag. unfold contributors, record_confirmation. cbn [ma_bestaetigt].
  rewrite map_filter_insert_True by (cbn; apply lookup_insert_eq).
  apply map_size_insert_None. apply map_lookup_filter_None.
  destruct (ma_bestaetigt st !! s) as [ms |] eqn:Hs; [right | left; reflexivity].
  intros x [= <-]. cbn. unfold ma_geprueft_of in Hflag. rewrite Hs in Hflag. cbn in Hflag.
  intros Htrue. rewrite Htrue in Hflag. discriminate.
Qed.

Lemma contributors_record_other (c : calc) (s k : string) (st : session_state) :
  k <> calc_id c ->
  size (contributors k (record_confirmation c s st)) = size (contributors k st).
Proof.
  intros Hne. unfold contributors, record_confirmation. cbn [ma_bestaetigt].
  set (P := fun p : string * gmap string bool => snd p !! k = Some true).
  destruct (ma_bestaetigt st !! s) as [ms |] eqn:Hs; cbn [default from_option id].
  - destruct (decide (ms !! k = Some true)) as [Ht | Hf].
    + rewrite map_filter_insert_True
        by (unfold P; cbn; rewrite lookup_insert_ne by congruence; exact Ht).
      apply map_size_insert_Some. exists ms. apply map_lookup_filter_Some.
      split; [exact Hs | exact Ht].
    + rewrite map_filter_insert_False
        by (unfold P; cbn; rewrite lookup_insert_ne by congruence; exact Hf).
      rewrite map_filter_delete, delete_id; [reflexivity |].
      apply map_lookup_filter_None. right. intros x Hx. rewrite Hs in Hx.
      injection Hx as <-. exact Hf.
  - rewrite map_filter_insert_False.
    + rewrite map_filter_delete, delete_id; [reflexivity |].
      apply map_lookup_filter_None. left. exact Hs.
    + unfold P. cbn. rewrite lookup_insert_ne by congruence. rewrite lookup_empty.
      discriminate.
Qed.

Lemma counts_subjects_confirm (c : calc) (s : string) (st : session_state) :
  counts_subjects st -> counts_subjects (confirm c s st).
Proof.
  intros Hinv. destruct (confirm_cases c s st) as [-> | (_ & Hflag & ->)]; [exact Hinv |].
  intros k. destruct (decide (k = calc_id c)) as [-> | Hne].
  - rewrite contributors_record_same by exact Hflag.
    unfold record_confirmation. cbn [formel_bestaetigung].
    rewrite lookup_insert_eq. cbn. unfold bestaetigt_of. rewrite (Hinv (calc_id c)). lia.
  - rewrite contributors_record_other by exact Hne.
    unfold record_confirmation. cbn [formel_bestaetigung].
    rewrite lookup_insert_ne by congruence. apply Hinv.
Qed.

(** X27 (confirmation block): after any sequence of attempts on the empty
    session, the counter of every field is the number of distinct subjects
    whose confirmation of that field is recorded. *)
Theorem counter_counts_distinct_subjects (ops : list (string * calc)) (c : calc) :
  bestaetigt_of c (confirm_all ops initial_session)
  = Z.of_nat (size (contributors (calc_id c) (confirm_all ops initial_session)))
  /\ forall s, (exists m, contributors (calc_id c) (confirm_all ops initial_session) !! s
                          = Some m)
               <-> ma_geprueft_of c s (confirm_all ops initial_session) = true.
Proof.
  split.
  - assert (Hinv : counts_subjects (confirm_all ops initial_session)).
    { assert (H0 : counts_subjects initial_session).
      { intros k. unfold contributors. cbn. rewrite map_filter_empty, map_size_empty.
        reflexivity. }
      revert H0. generalize initial_session as st.
      induction ops as [| [s' c'] ops IH]; intros st H0; [exact H0 |].
      cbn [confirm_all fold_left fst snd]. apply IH. apply counts_subjects_confirm.
      exact H0. }
    apply Hinv.
  - intros s. unfold contributors, ma_geprueft_of.
    set (ma := ma_bestaetigt (confirm_all ops initial_session)). split.
    + intros (m & Hm). apply map_lookup_filter_Some in Hm. destruct Hm as [Hs Ht].
      cbn in Ht. rewrite Hs. cbn. rewrite Ht. reflexivity.
    + intros Hflag. destruct (ma !! s) as [m |] eqn:Hs; [| discriminate].
      exists m. apply map_lookup_filter_Some. split; [exact Hs |]. cbn. cbn in Hflag.
      destruct (m !! calc_id c) as [[] |]; (reflexivity || discriminate).
Qed.

(** *** Independence of the fields *)

Lemma session_eq (a b : session_state) :
  formel_bestaetigung a = formel_bestaetigung b ->
  ma_bestaetigt a = ma_bestaetigt b -> a = b.
Proof. destruct a, b. cbn. intros -> ->. reflexivity. Qed.

Lemma record_commute (c1 c2 : calc) (s1 s2 : string) (st : session_state) :
  calc_id c1 <> calc_id c2 ->
  record_confirmation c1 s1 (record_confirmation c2 s2 st)
  = record_confirmation c2 s2 (record_confirmation c1 s1 st).
Proof.
  intros Hne. apply session_eq.
  - unfold record_confirmation at 1 3. cbn [formel_bestaetigung].
    rewrite !bestaetigt_record, !decide_False by congruence.
    unfold record_confirmation. cbn [formel_bestaetigung].
    apply insert_insert_ne. congruence.
  - unfold record_confirmation. cbn [ma_bestaetigt].
    destruct (decide (s1 = s2)) as [-> | Hs].
    + rewrite !lookup_insert_eq. cbn. rewrite !insert_insert_eq. f_equal.
      apply insert_insert_ne. congruence.
    + rewrite !lookup_insert_ne by congruence. apply insert_insert_ne. congruence.
Qed.

(** X28 (confirmation block): attempts on two different fields do not
    interfere: made in either order, by the same subject or by two, they
    leave the same session. *)
Theorem confirmations_of_different_fields_commute (c1 c2 : calc) (s1 s2 : string)
        (st : session_state) :
  calc_id c1 <> calc_id c2 ->
  confirm c1 s1 (confirm c2 s2 st) = confirm c2 s2 (confirm c1 s1 st).
Proof.
  intros Hne.
  assert (Hsame : forall c c' s s' st0, calc_id c <> calc_id c' ->
            bestaetigt_of c (record_confirmation c' s' st0) = bestaetigt_of c st0
            /\ ma_geprueft_of c s (record_confirmation c' s' st0) = ma_geprueft_of c s st0).
  { intros c c' s s' st0 H. rewrite bestaetigt_record, geprueft_record.
    rewrite !decide_False by (try intros [_ ?]; congruence). auto. }
  assert (Hdec : forall c s st0 st1,
            bestaetigt_of c st1 = bestaetigt_of c st0 ->
            ma_geprueft_of c s st1 = ma_geprueft_of c s st0 ->
            (confirm c s st0 = st0 /\ confirm c s st1 = st1)
            \/ (confirm c s st0 = record_confirmation c s st0
                /\ confirm c s st1 = record_confirmation c s st1)).
  { intros c s st0 st1 Hb Hf. unfold confirm, confirmation_block. rewrite Hb, Hf.
    destruct (threshold_of c <=? bestaetigt_of c st0); [auto |].
    destruct (default true (calc_needs_confirmation c)); [| auto].
    destruct (negb (ma_geprueft_of c s st0) && (bestaetigt_of c st0 <? threshold_of c));
      auto. }
  destruct (confirm_cases c2 s2 st) as [E2 | (_ & _ & E2)];
    destruct (confirm_cases c1 s1 st) as [E1 | (_ & _ & E1)].
  - rewrite E2, E1, E2. reflexivity.
  - rewrite E2, E1.
    destruct (Hsame c2 c1 s2 s1 st ltac:(congruence)) as [Hb Hf].
    destruct (Hdec c2 s2 st (record_confirmation c1 s1 st) Hb Hf) as [[_ ->] | [H ->]];
      [reflexivity |]. rewrite H in E2. exfalso.
    exact (record_confirmation_changes c2 s2 st E2).
  - rewrite E2, E1, E2.
    destruct (Hsame c1 c2 s1 s2 st Hne) as [Hb Hf].
    destruct (Hdec c1 s1 st (record_confirmation c2 s2 st) Hb Hf) as [[_ ->] | [H ->]];
      [reflexivity |]. rewrite H in E1. exfalso.
    exact (record_confirmation_changes c1 s1 st E1).
  - rewrite E2, E1.
    destruct (Hsame c1 c2 s1 s2 st Hne) as [Hb1 Hf1].
    destruct (Hsame c2 c1 s2 s1 st ltac:(congruence)) as [Hb2 Hf2].
    destruct (Hdec c1 s1 st (record_confirmation c2 s2 st) Hb1 Hf1) as [[H _] | [_ ->]].
    { rewrite H in E1. exfalso. symmetry in E1.
      exact (record_confirmation_changes c1 s1 st E1). }
    destruct (Hdec c2 s2 st (record_confirmation c1 s1 st) Hb2 Hf2) as [[H _] | [_ ->]].
    { rewrite H in E2. exfalso. symmetry in E2.
      exact (record_confirmation_changes c2 s2 st E2). }
    apply record_commute. exact Hne.
Qed.

Lemma confirmations_of_different_fields_commute_witness :
  confirm Samples.dienstzeit "a"
          (confirm (mk_calc "mn_faktor" None None) "a" initial_session)
  = confirm (mk_calc "mn_faktor" None None) "a"
            (confirm Samples.dienstzeit "a" initial_session).
Proof.
  apply confirmations_of_different_fields_commute. discriminate.
Defined.

(** X29 (confirmation block and widget): the column shows "Geprüft" exactly
    when the field is verified, and an attempt changes the session exactly
    when the button is on offer, that is when the field is not verified,
    takes part in the confirmation, and the subject is not flagged for it. *)
Theorem button_offered_iff_attempt_counts (c : calc) (s : string) (st : session_state) :
  (confirmation_widget c s st = Geprueft <-> verified c st = true)
  /\ (confirm c s st <> st
      <-> confirmation_widget c s st
          = Progress (bestaetigt_of c st) (threshold_of c) true)
  /\ (confirmation_widget c s st = Progress (bestaetigt_of c st) (threshold_of c) true
      <-> verified c st = false
          /\ default true (calc_needs_confirmation c) = true
          /\ ma_geprueft_of c s st = false).
Proof.
  split; [| split].
  - unfold confirmation_widget, verified.
    destruct (threshold_of c <=? bestaetigt_of c st); [tauto |].
    destruct (default true (calc_needs_confirmation c)); split; discriminate.
  - apply confirm_changes_iff_button.
  - unfold confirmation_widget, verified.
    destruct (Z.leb_spec (threshold_of c) (bestaetigt_of c st)) as [Hv | Hv].
    + split; [discriminate | intros (H & _); discriminate].
    + destruct (default true (calc_needs_confirmation c));
        [| split; [discriminate | intros (_ & H & _); discriminate]].
      destruct (ma_geprueft_of c s st); cbn.
      * split; [discriminate | intros (_ & _ & H); discriminate].
      * destruct (Z.ltb_spec (bestaetigt_of c st) (threshold_of c)); [| lia].
        split; auto.
Qed.

End QuorumMore.
